(** * learn-hub: courses, live classes and materials

    A shallow embedding of the request handlers of the [courses],
    [live_classes] and [materials] applications, together with the
    permission classes of [users/permissions.py].

    The relational store is explicit state: tables addressed by primary key
    are finite maps, tables that are only filtered, counted and appended to
    are lists of rows in insertion order.  A handler is a function from the
    request (caller, URL arguments, payload) and the store to a response and
    the store it leaves behind.  An exception no handler catches becomes a
    500 response carrying the exception; what was written before it was
    raised stays written, since the handlers open no transaction. *)

From Stdlib Require Import QArith Ascii.
From stdpp Require Import gmap strings list fin_maps.

Open Scope Z_scope.

(** ** HTTP responses *)

Module status.
Definition HTTP_200_OK : Z := 200.
Definition HTTP_201_CREATED : Z := 201.
Definition HTTP_204_NO_CONTENT : Z := 204.
Definition HTTP_400_BAD_REQUEST : Z := 400.
Definition HTTP_401_UNAUTHORIZED : Z := 401.
Definition HTTP_403_FORBIDDEN : Z := 403.
Definition HTTP_404_NOT_FOUND : Z := 404.
Definition HTTP_405_METHOD_NOT_ALLOWED : Z := 405.
Definition HTTP_500_INTERNAL_SERVER_ERROR : Z := 500.
End status.
Import status.

Inductive Exception :=
| IntegrityError
| MultipleObjectsReturned
| RelatedObjectDoesNotExist
| FileNotFoundError
| ValueError
| OverflowError
| InvalidOperation.

(** The body of a response: serializer output (its content is not needed
    here), a [{'message': ...}] or [{'error': ...}] object, nothing, or the
    exception that escaped the handler. *)
Inductive Body :=
| Data
| Message (m : string)
| Error (m : string)
| NoContent
| Unhandled (e : Exception).

Record Response := mkResponse { status_code : Z; data : Body }.

Definition raised (e : Exception) : Response :=
  mkResponse HTTP_500_INTERNAL_SERVER_ERROR (Unhandled e).

(** ** users/models/user_model.py *)

Inductive UserType := teacher_t | student_t | admin_t.

#[global] Instance UserType_eq_dec : EqDecision UserType.
Proof. solve_decision. Defined.

Module User.
Record t := mk { pk : N; user_type : UserType }.

Definition is_teacher (u : t) : bool := bool_decide (user_type u = teacher_t).
Definition is_student (u : t) : bool := bool_decide (user_type u = student_t).
Definition is_admin (u : t) : bool := bool_decide (user_type u = admin_t).
End User.

(** [request.user]: [None] is the anonymous user. *)
Definition is_authenticated (user : option User.t) : bool :=
  match user with Some _ => true | None => false end.

(** ** courses/models.py *)

Inductive CourseStatus := draft | published | archived.

#[global] Instance CourseStatus_eq_dec : EqDecision CourseStatus.
Proof. solve_decision. Defined.

Module Course.
Record t := mk {
  title : string;
  teacher : N;
  status : CourseStatus;
  max_students : Z;
  current_students : Z;
  average_rating : Q;
  total_ratings : Z
}.

Definition is_published (c : t) : bool := bool_decide (status c = published).
Definition is_full (c : t) : bool := bool_decide (max_students c <= current_students c).
Definition available_slots (c : t) : Z := Z.max 0 (max_students c - current_students c).

Definition set_current_students (n : Z) (c : t) : t :=
  mk (title c) (teacher c) (status c) (max_students c) n
     (average_rating c) (total_ratings c).
Definition set_rating_aggregate (avg : Q) (n : Z) (c : t) : t :=
  mk (title c) (teacher c) (status c) (max_students c) (current_students c) avg n.
End Course.

Module CourseEnrollment.
Record t := mk { student : N; course : N; is_active : bool }.

Definition set_is_active (b : bool) (e : t) : t := mk (student e) (course e) b.
End CourseEnrollment.

Module CourseRating.
Record t := mk { student : N; course : N; rating : Z; review : string }.
End CourseRating.

(** ** live_classes/models.py *)

Inductive LiveClassStatus := scheduled | live | ended | cancelled.

#[global] Instance LiveClassStatus_eq_dec : EqDecision LiveClassStatus.
Proof. solve_decision. Defined.

Module LiveClass.
Record t := mk {
  course : N;
  teacher : N;
  status : LiveClassStatus;
  max_participants : Z;
  current_participants : Z;
  started_at : option Z;
  ended_at : option Z
}.

Definition is_live (c : t) : bool := bool_decide (status c = live).
Definition is_scheduled (c : t) : bool := bool_decide (status c = scheduled).
Definition is_ended (c : t) : bool := bool_decide (status c = ended).
Definition is_full (c : t) : bool :=
  bool_decide (max_participants c <= current_participants c).
Definition available_slots (c : t) : Z :=
  Z.max 0 (max_participants c - current_participants c).

Definition set_current_participants (n : Z) (c : t) : t :=
  mk (course c) (teacher c) (status c) (max_participants c) n
     (started_at c) (ended_at c).
End LiveClass.

Inductive ParticipantStatus := registered | approved | attended | no_show | p_cancelled.

#[global] Instance ParticipantStatus_eq_dec : EqDecision ParticipantStatus.
Proof. solve_decision. Defined.

Module LiveClassParticipant.
Record t := mk { student : N; live_class : N; status : ParticipantStatus }.

Definition set_status (s : ParticipantStatus) (p : t) : t :=
  mk (student p) (live_class p) s.
End LiveClassParticipant.

(** ** materials/models.py *)

Inductive AccessAction := view | download.

#[global] Instance AccessAction_eq_dec : EqDecision AccessAction.
Proof. solve_decision. Defined.

Module Material.
Record t := mk {
  title : string;
  file : string;
  file_size : Z;
  file_extension : string;
  course : N;
  teacher : N;
  is_public : bool;
  is_downloadable : bool;
  download_count : Z;
  view_count : Z
}.

Definition set_download_count (n : Z) (m : t) : t :=
  mk (title m) (file m) (file_size m) (file_extension m) (course m) (teacher m)
     (is_public m) (is_downloadable m) n (view_count m).
Definition set_view_count (n : Z) (m : t) : t :=
  mk (title m) (file m) (file_size m) (file_extension m) (course m) (teacher m)
     (is_public m) (is_downloadable m) (download_count m) n.
Definition set_file_info (size : Z) (ext : string) (m : t) : t :=
  mk (title m) (file m) size ext (course m) (teacher m)
     (is_public m) (is_downloadable m) (download_count m) (view_count m).
End Material.

Module MaterialAccess.
Record t := mk { student : N; material : N; action : AccessAction }.
End MaterialAccess.

(** ** The store *)

Record Db := mkDb {
  courses : gmap N Course.t;
  enrollments : list CourseEnrollment.t;
  ratings : list CourseRating.t;
  live_classes : gmap N LiveClass.t;
  participants : list LiveClassParticipant.t;
  materials : gmap N Material.t;
  accesses : list MaterialAccess.t;
  (** the file storage behind [Material.file]: name to size *)
  storage : gmap string Z
}.

Definition set_courses (x : gmap N Course.t) (db : Db) : Db :=
  mkDb x (enrollments db) (ratings db) (live_classes db) (participants db)
       (materials db) (accesses db) (storage db).
Definition set_enrollments (x : list CourseEnrollment.t) (db : Db) : Db :=
  mkDb (courses db) x (ratings db) (live_classes db) (participants db)
       (materials db) (accesses db) (storage db).
Definition set_ratings (x : list CourseRating.t) (db : Db) : Db :=
  mkDb (courses db) (enrollments db) x (live_classes db) (participants db)
       (materials db) (accesses db) (storage db).
Definition set_live_classes (x : gmap N LiveClass.t) (db : Db) : Db :=
  mkDb (courses db) (enrollments db) (ratings db) x (participants db)
       (materials db) (accesses db) (storage db).
Definition set_participants (x : list LiveClassParticipant.t) (db : Db) : Db :=
  mkDb (courses db) (enrollments db) (ratings db) (live_classes db) x
       (materials db) (accesses db) (storage db).
Definition set_materials (x : gmap N Material.t) (db : Db) : Db :=
  mkDb (courses db) (enrollments db) (ratings db) (live_classes db) (participants db)
       x (accesses db) (storage db).
Definition set_accesses (x : list MaterialAccess.t) (db : Db) : Db :=
  mkDb (courses db) (enrollments db) (ratings db) (live_classes db) (participants db)
       (materials db) x (storage db).

(** ** Querysets over a row table

    A row is addressed by its position; [rows !! i] reads it and
    [<[i:=r]> rows] is [r.save()] for a row fetched at position [i]. *)

Section QuerySet.
Context {A : Type}.

(** [filter(...).count()] *)
Fixpoint count (P : A → bool) (rows : list A) : nat :=
  match rows with
  | [] => 0%nat
  | r :: rows' => ((if P r then 1 else 0) + count P rows')%nat
  end.

(** [filter(...).exists()] *)
Definition exists_ (P : A → bool) (rows : list A) : bool := existsb P rows.

(** [filter(...)], each row with its position *)
Fixpoint select_from (P : A → bool) (i : nat) (rows : list A) : list (nat * A) :=
  match rows with
  | [] => []
  | r :: rows' =>
      if P r then (i, r) :: select_from P (S i) rows'
      else select_from P (S i) rows'
  end.

Definition select (P : A → bool) (rows : list A) : list (nat * A) :=
  select_from P 0 rows.

Inductive GetResult :=
| Found (i : nat) (r : A)
| DoesNotExist
| Multiple.

(** [objects.get(...)]: exactly one match, or one of two exceptions *)
Definition get (P : A → bool) (rows : list A) : GetResult :=
  match select P rows with
  | [] => DoesNotExist
  | [(i, r)] => Found i r
  | _ => Multiple
  end.
End QuerySet.

Arguments GetResult : clear implicits.

(** ** courses/views.py *)

Definition enrollment_of (student course : N) (e : CourseEnrollment.t) : bool :=
  bool_decide (CourseEnrollment.student e = student)
  && bool_decide (CourseEnrollment.course e = course).

Definition active_enrollment_of (student course : N) (e : CourseEnrollment.t) : bool :=
  enrollment_of student course e && CourseEnrollment.is_active e.

Definition active_in (course : N) (e : CourseEnrollment.t) : bool :=
  bool_decide (CourseEnrollment.course e = course) && CourseEnrollment.is_active e.

(** [CourseEnrollment.objects.create(student=..., course=...)]:
    [unique_together = ['student', 'course']] rejects a second row for the
    pair whatever its [is_active]; [is_active] defaults to [True]. *)
Definition create_enrollment (student course : N) (rows : list CourseEnrollment.t)
  : Exception + list CourseEnrollment.t :=
  if exists_ (enrollment_of student course) rows then inl IntegrityError
  else inr (rows ++ [CourseEnrollment.mk student course true]).

Definition not_authenticated : Response :=
  mkResponse HTTP_401_UNAUTHORIZED (Error "Authentication credentials were not provided.").

Definition enroll_course (user : option User.t) (course_id : N) (db : Db)
  : Response * Db :=
  match user with
  | None => (not_authenticated, db)
  | Some u =>
    match courses db !! course_id with
    | Some course =>
      if negb (Course.is_published course) then
        (mkResponse HTTP_404_NOT_FOUND (Error "Course not found"), db)
      else if Course.is_full course then
        (mkResponse HTTP_400_BAD_REQUEST (Error "Course is full"), db)
      else if exists_ (active_enrollment_of (User.pk u) course_id) (enrollments db) then
        (mkResponse HTTP_400_BAD_REQUEST (Error "Already enrolled"), db)
      else
        match create_enrollment (User.pk u) course_id (enrollments db) with
        | inl e => (raised e, db)
        | inr rows =>
          let db1 := set_enrollments rows db in
          let course := Course.set_current_students (Course.current_students course + 1) course in
          let db2 := set_courses (<[course_id := course]> (courses db1)) db1 in
          (mkResponse HTTP_201_CREATED Data, db2)
        end
    | None => (mkResponse HTTP_404_NOT_FOUND (Error "Course not found"), db)
    end
  end.

Definition unenroll_course (user : option User.t) (course_id : N) (db : Db)
  : Response * Db :=
  match user with
  | None => (not_authenticated, db)
  | Some u =>
    match get (active_enrollment_of (User.pk u) course_id) (enrollments db) with
    | DoesNotExist =>
        (mkResponse HTTP_404_NOT_FOUND (Error "Enrollment not found"), db)
    | Multiple => (raised MultipleObjectsReturned, db)
    | Found i enrollment =>
      let enrollment := CourseEnrollment.set_is_active false enrollment in
      let db1 := set_enrollments (<[i := enrollment]> (enrollments db)) db in
      match courses db1 !! CourseEnrollment.course enrollment with
      | None => (raised RelatedObjectDoesNotExist, db1)
      | Some course =>
        let course :=
          Course.set_current_students (Z.max 0 (Course.current_students course - 1)) course in
        let db2 :=
          set_courses (<[CourseEnrollment.course enrollment := course]> (courses db1)) db1 in
        (mkResponse HTTP_200_OK (Message "Successfully unenrolled"), db2)
      end
    end
  end.

(** A key of [request.data]: absent, JSON [null], or a value.
    [data.get(k)] is [None] for the first two; [data.get(k, d)] is [d] only
    when the key is absent. *)
Inductive Field (A : Type) :=
| Missing
| Null
| Value (a : A).

Arguments Missing {A}.
Arguments Null {A}.
Arguments Value {A} a.

Definition data_get {A} (f : Field A) : option A :=
  match f with Value a => Some a | _ => None end.

Definition data_get_default {A} (f : Field A) (d : A) : option A :=
  match f with Value a => Some a | Null => None | Missing => Some d end.

Record RatingData := mkRatingData { rating_field : Field Z; review_field : Field string }.

Definition rating_of (student course : N) (r : CourseRating.t) : bool :=
  bool_decide (CourseRating.student r = student)
  && bool_decide (CourseRating.course r = course).

Definition rating_in (course : N) (r : CourseRating.t) : bool :=
  bool_decide (CourseRating.course r = course).

(** The integers the [rating] column takes: the binding of a Python int to
    an INTEGER of SQLite, the default backend, raises outside 64 bits (the
    [integer] column of PostgreSQL ends at [2^31 - 1], the bound up to which
    Django calls a [PositiveIntegerField] safe on every backend). *)
Definition INTEGER_MIN : Z := - 2 ^ 63.
Definition INTEGER_MAX : Z := 2 ^ 63 - 1.

(** What the [course_ratings] table accepts for a row: both columns are
    [NOT NULL], and [rating] is a [PositiveIntegerField], an integer column
    with the check [rating >= 0] (the 1..5 validators are not run by
    [save()]). *)
Definition checked_rating (student course : N) (rating : option Z) (review : option string)
  : Exception + CourseRating.t :=
  match rating, review with
  | Some n, Some s =>
      if (n <? INTEGER_MIN) || (INTEGER_MAX <? n) then inl OverflowError
      else if bool_decide (0 <= n) then inr (CourseRating.mk student course n s)
      else inl IntegrityError
  | _, _ => inl IntegrityError
  end.

(** [sum(r.rating for r in ratings)] *)
Definition sum_ratings (rs : list CourseRating.t) : Z :=
  foldr (λ r acc, CourseRating.rating r + acc) 0 rs.

(** [course.ratings.all()] *)
Definition ratings_of_course (course : N) (rows : list CourseRating.t) : list CourseRating.t :=
  List.filter (rating_in course) rows.

(** The integer nearest to [num / den], ties to the even one
    ([ROUND_HALF_EVEN], and the rounding of binary floating point). *)
Definition round_half_even (num den : Z) : Z :=
  let q := num / den in
  let r := num mod den in
  if 2 * r <? den then q
  else if den <? 2 * r then q + 1
  else if Z.even q then q
  else q + 1.

(** [a / b * 2^s] as a fraction *)
Definition scaled (a b s : Z) : Z * Z :=
  if 0 <=? s then (a * 2 ^ s, b) else (a, b * 2 ^ (- s)).

(** Python's [a / b] for ints [0 <= a] and [0 < b]: the float nearest to the
    quotient, with its 53 bits of significand, ties to even.  The result
    [(m, s)] stands for [m / 2^s].  The exponent is left unbounded: a sum
    of 64-bit ratings over the length of a list stays far inside the range
    of a float. *)
Definition true_div (a b : Z) : Z * Z :=
  if a =? 0 then (0, 0)
  else
    let s0 := 53 + Z.log2 b - Z.log2 a in
    let s := if 2 ^ 53 <=? (scaled a b s0).1 / (scaled a b s0).2 then s0 - 1 else s0 in
    (round_half_even (scaled a b s).1 (scaled a b s).2, s).

(** The least [j >= from] with [den <= num * 10^j], looked for in [fuel]
    steps: the number of places by which a value below 1 is shifted to bring
    its first significant digit before the point. *)
Fixpoint first_digit_shift (fuel : nat) (num den from : Z) : Z :=
  match fuel with
  | O => from
  | S fuel' =>
      if den <=? num * 10 ^ from then from
      else first_digit_shift fuel' num den (from + 1)
  end.

(** What [DecimalField(max_digits=3, decimal_places=2)] stores for the float
    [m / 2^s], in hundredths.  The float is first taken to a decimal of three
    significant digits ([Context(prec=3).create_decimal_from_float]), which
    is then quantized to two places in a context of precision 3: a result of
    more than three digits, 10.00 and above, raises [InvalidOperation].
    Both roundings are half-even.  This is the path of the backends for
    which Django formats the number itself, SQLite among them; from 1.00 up
    to 9.99 the first step alone fixes the two places. *)
Definition to_hundredths (m s : Z) : Exception + Z :=
  let num := if 0 <=? s then m else m * 2 ^ (- s) in
  let den := if 0 <=? s then 2 ^ s else 1 in
  if num =? 0 then inr 0
  else if 10 * den <=? num then inl InvalidOperation
  else if den <=? num then
    (* 1 <= value < 10: three significant digits are two decimal places *)
    let h := round_half_even (100 * num) den in
    if 1000 <=? h then inl InvalidOperation else inr h
  else
    (* value < 1: three significant digits, then two decimal places *)
    let j := first_digit_shift (Z.to_nat (Z.log2 den) + 1) num den 1 in
    let d := round_half_even (num * 10 ^ (j + 2)) den in
    inr (round_half_even d (10 ^ j)).

(** [course.average_rating = sum / len], as [course.save()] writes it *)
Definition stored_mean (total len : Z) : Exception + Q :=
  let '(m, s) := true_div total len in
  match to_hundredths m s with
  | inl e => inl e
  | inr h => inr (h # 100)
  end.

(** The aggregate refresh at the end of [rate_course].  It is [course.save()]
    that converts the float, so a mean the column cannot take raises after
    the rating row has been written. *)
Definition refresh_rating_aggregate (course_id : N) (course : Course.t) (db : Db)
  : Exception + Db :=
  let rs := ratings_of_course course_id (ratings db) in
  match rs with
  | [] => inr db
  | _ :: _ =>
      match stored_mean (sum_ratings rs) (Z.of_nat (length rs)) with
      | inl e => inl e
      | inr average =>
          let course :=
            Course.set_rating_aggregate average (Z.of_nat (length rs)) course in
          inr (set_courses (<[course_id := course]> (courses db)) db)
      end
  end.

Definition rate_course (user : option User.t) (course_id : N) (data : RatingData) (db : Db)
  : Response * Db :=
  match user with
  | None => (not_authenticated, db)
  | Some u =>
    match courses db !! course_id with
    | None => (mkResponse HTTP_404_NOT_FOUND (Error "Course not found"), db)
    | Some course =>
      if negb (exists_ (active_enrollment_of (User.pk u) course_id) (enrollments db)) then
        (mkResponse HTTP_400_BAD_REQUEST (Error "Must be enrolled to rate"), db)
      else
        match get (rating_of (User.pk u) course_id) (ratings db) with
        | Multiple => (raised MultipleObjectsReturned, db)
        | DoesNotExist =>
          (* created *)
          match checked_rating (User.pk u) course_id
                  (data_get (rating_field data)) (data_get_default (review_field data) "") with
          | inl e => (raised e, db)
          | inr r =>
            let db1 := set_ratings (ratings db ++ [r]) db in
            match refresh_rating_aggregate course_id course db1 with
            | inl e => (raised e, db1)
            | inr db2 => (mkResponse HTTP_201_CREATED Data, db2)
            end
          end
        | Found i r =>
          (* not created: update the existing rating *)
          match checked_rating (User.pk u) course_id
                  (data_get_default (rating_field data) (CourseRating.rating r))
                  (data_get_default (review_field data) (CourseRating.review r)) with
          | inl e => (raised e, db)
          | inr r' =>
            let db1 := set_ratings (<[i := r']> (ratings db)) db in
            match refresh_rating_aggregate course_id course db1 with
            | inl e => (raised e, db1)
            | inr db2 => (mkResponse HTTP_200_OK Data, db2)
            end
          end
        end
    end
  end.

(** ** users/permissions.py *)

Inductive Method := GET | HEAD | OPTIONS | POST | PUT | PATCH | DELETE.

Definition SAFE_METHODS (m : Method) : bool :=
  match m with GET | HEAD | OPTIONS => true | _ => false end.

Definition IsAuthenticated (user : option User.t) : bool := is_authenticated user.

Definition IsTeacher (user : option User.t) : bool :=
  match user with
  | Some u => User.is_teacher u
  | None => false
  end.

Definition IsTeacherOrReadOnly (method : Method) (user : option User.t) : bool :=
  if SAFE_METHODS method then is_authenticated user
  else
    match user with
    | Some u => User.is_teacher u
    | None => false
    end.

Definition permission_denied : Response :=
  mkResponse HTTP_403_FORBIDDEN (Error "You do not have permission to perform this action.").

(** [APIView.check_permissions]: the first permission class that refuses
    ends the request, with 401 for an anonymous caller and 403 otherwise. *)
Fixpoint check_permissions (user : option User.t) (perms : list bool) : option Response :=
  match perms with
  | [] => None
  | true :: perms' => check_permissions user perms'
  | false :: _ => Some (if is_authenticated user then permission_denied else not_authenticated)
  end.

(** ** courses/views.py: the class-based course views *)

(** [CourseListView.get_queryset] *)
Definition CourseListView_get_queryset (user : User.t) (db : Db) : gmap N Course.t :=
  let queryset := courses db in
  if negb (User.is_teacher user) then
    filter (λ kv, Course.status kv.2 = published) queryset
  else queryset.

(** [TeacherCourseListView.get_queryset] *)
Definition TeacherCourseListView_get_queryset (user : User.t) (db : Db) : gmap N Course.t :=
  filter (λ kv, Course.teacher kv.2 = User.pk user) (courses db).

(** The outcome of [CourseUpdateSerializer.is_valid()] on the request body,
    and the validated values of the columns kept in [Course.t]. *)
Inductive CourseUpdateData :=
| Invalid
| Valid (title : option string) (status : option CourseStatus) (max_students : option Z).

Definition apply_update (title : option string) (status : option CourseStatus)
    (max_students : option Z) (c : Course.t) : Course.t :=
  Course.mk (default (Course.title c) title) (Course.teacher c)
            (default (Course.status c) status)
            (default (Course.max_students c) max_students)
            (Course.current_students c) (Course.average_rating c) (Course.total_ratings c).

(** [instance.delete()] for a course: every foreign key onto the course, and
    onto the rows that go with it, is [on_delete=CASCADE]. *)
Definition delete_course_cascade (pk : N) (db : Db) : Db :=
  let gone_class (k : N) : bool :=
    match live_classes db !! k with
    | Some lc => bool_decide (LiveClass.course lc = pk)
    | None => false
    end in
  let gone_material (k : N) : bool :=
    match materials db !! k with
    | Some m => bool_decide (Material.course m = pk)
    | None => false
    end in
  mkDb (delete pk (courses db))
       (List.filter (λ e, negb (bool_decide (CourseEnrollment.course e = pk))) (enrollments db))
       (List.filter (λ r, negb (bool_decide (CourseRating.course r = pk))) (ratings db))
       (filter (λ kv, LiveClass.course kv.2 ≠ pk) (live_classes db))
       (List.filter (λ p, negb (gone_class (LiveClassParticipant.live_class p))) (participants db))
       (filter (λ kv, Material.course kv.2 ≠ pk) (materials db))
       (List.filter (λ a, negb (gone_material (MaterialAccess.material a))) (accesses db))
       (storage db).

(** [CourseDetailView], a [RetrieveUpdateDestroyAPIView] with
    [permission_classes = [IsAuthenticated, IsTeacherOrReadOnly]]. *)
Definition CourseDetailView (method : Method) (user : option User.t) (pk : N)
    (data : CourseUpdateData) (db : Db) : Response * Db :=
  match check_permissions user [IsAuthenticated user; IsTeacherOrReadOnly method user] with
  | Some denied => (denied, db)
  | None =>
    match method with
    | POST => (mkResponse HTTP_405_METHOD_NOT_ALLOWED (Error "Method not allowed."), db)
    | OPTIONS => (mkResponse HTTP_200_OK Data, db)
    | GET | HEAD =>
      match courses db !! pk with
      | None => (mkResponse HTTP_404_NOT_FOUND (Error "Not found."), db)
      | Some _ => (mkResponse HTTP_200_OK Data, db)
      end
    | PUT | PATCH =>
      match courses db !! pk with
      | None => (mkResponse HTTP_404_NOT_FOUND (Error "Not found."), db)
      | Some course =>
        match data with
        | Invalid => (mkResponse HTTP_400_BAD_REQUEST (Error "Invalid input."), db)
        | Valid t s m =>
          (mkResponse HTTP_200_OK Data,
           set_courses (<[pk := apply_update t s m course]> (courses db)) db)
        end
      end
    | DELETE =>
      match courses db !! pk with
      | None => (mkResponse HTTP_404_NOT_FOUND (Error "Not found."), db)
      | Some _ => (mkResponse HTTP_204_NO_CONTENT NoContent, delete_course_cascade pk db)
      end
    end
  end.

Definition update_course (user : option User.t) (pk : N) (data : CourseUpdateData) (db : Db)
  : Response * Db := CourseDetailView PATCH user pk data db.

Definition delete_course (user : option User.t) (pk : N) (db : Db) : Response * Db :=
  CourseDetailView DELETE user pk Invalid db.

Definition retrieve_course (user : option User.t) (pk : N) (db : Db) : Response * Db :=
  CourseDetailView GET user pk Invalid db.

(** ** live_classes/views.py *)

Definition start_live_class (user : option User.t) (live_class_id : N) (now : Z) (db : Db)
  : Response * Db :=
  match check_permissions user [IsAuthenticated user; IsTeacher user], user with
  | Some denied, _ => (denied, db)
  | None, None => (not_authenticated, db)
  | None, Some u =>
    match live_classes db !! live_class_id with
    | None => (mkResponse HTTP_404_NOT_FOUND (Error "Live class not found"), db)
    | Some live_class =>
      if negb (bool_decide (LiveClass.teacher live_class = User.pk u)) then
        (mkResponse HTTP_404_NOT_FOUND (Error "Live class not found"), db)
      else if negb (bool_decide (LiveClass.status live_class = scheduled)) then
        (mkResponse HTTP_400_BAD_REQUEST (Error "Live class is not scheduled"), db)
      else
        let live_class :=
          LiveClass.mk (LiveClass.course live_class) (LiveClass.teacher live_class) live
            (LiveClass.max_participants live_class) (LiveClass.current_participants live_class)
            (Some now) (LiveClass.ended_at live_class) in
        (mkResponse HTTP_200_OK Data,
         set_live_classes (<[live_class_id := live_class]> (live_classes db)) db)
    end
  end.

Definition end_live_class (user : option User.t) (live_class_id : N) (now : Z) (db : Db)
  : Response * Db :=
  match check_permissions user [IsAuthenticated user; IsTeacher user], user with
  | Some denied, _ => (denied, db)
  | None, None => (not_authenticated, db)
  | None, Some u =>
    match live_classes db !! live_class_id with
    | None => (mkResponse HTTP_404_NOT_FOUND (Error "Live class not found"), db)
    | Some live_class =>
      if negb (bool_decide (LiveClass.teacher live_class = User.pk u)) then
        (mkResponse HTTP_404_NOT_FOUND (Error "Live class not found"), db)
      else if negb (bool_decide (LiveClass.status live_class = live)) then
        (mkResponse HTTP_400_BAD_REQUEST (Error "Live class is not live"), db)
      else
        let live_class :=
          LiveClass.mk (LiveClass.course live_class) (LiveClass.teacher live_class) ended
            (LiveClass.max_participants live_class) (LiveClass.current_participants live_class)
            (LiveClass.started_at live_class) (Some now) in
        (mkResponse HTTP_200_OK Data,
         set_live_classes (<[live_class_id := live_class]> (live_classes db)) db)
    end
  end.

Definition participation_of (student live_class : N) (p : LiveClassParticipant.t) : bool :=
  bool_decide (LiveClassParticipant.student p = student)
  && bool_decide (LiveClassParticipant.live_class p = live_class).

(** [status__in=['registered', 'approved', 'attended']] *)
Definition holds_seat (s : ParticipantStatus) : bool :=
  match s with
  | registered | approved | attended => true
  | no_show | p_cancelled => false
  end.

Definition seated_in (live_class : N) (p : LiveClassParticipant.t) : bool :=
  bool_decide (LiveClassParticipant.live_class p = live_class)
  && holds_seat (LiveClassParticipant.status p).

(** The two lines under "Update participant count", common to join and leave. *)
Definition update_participant_count (live_class_id : N) (live_class : LiveClass.t) (db : Db)
  : Db :=
  let n := Z.of_nat (count (seated_in live_class_id) (participants db)) in
  set_live_classes
    (<[live_class_id := LiveClass.set_current_participants n live_class]> (live_classes db)) db.

Definition join_live_class (user : option User.t) (live_class_id : N) (db : Db)
  : Response * Db :=
  match user with
  | None => (not_authenticated, db)
  | Some u =>
    match live_classes db !! live_class_id with
    | None => (mkResponse HTTP_404_NOT_FOUND (Error "Live class not found"), db)
    | Some live_class =>
      if negb (exists_ (active_enrollment_of (User.pk u) (LiveClass.course live_class))
                       (enrollments db)) then
        (mkResponse HTTP_403_FORBIDDEN (Error "Must be enrolled to join"), db)
      else if LiveClass.is_full live_class then
        (mkResponse HTTP_400_BAD_REQUEST (Error "Live class is full"), db)
      else
        match get (participation_of (User.pk u) live_class_id) (participants db) with
        | Multiple => (raised MultipleObjectsReturned, db)
        | DoesNotExist =>
          let row := LiveClassParticipant.mk (User.pk u) live_class_id registered in
          let db1 := set_participants (participants db ++ [row]) db in
          (mkResponse HTTP_201_CREATED Data,
           update_participant_count live_class_id live_class db1)
        | Found i participation =>
          let db1 :=
            if bool_decide (LiveClassParticipant.status participation = p_cancelled) then
              set_participants
                (<[i := LiveClassParticipant.set_status registered participation]>
                   (participants db)) db
            else db in
          (mkResponse HTTP_200_OK Data,
           update_participant_count live_class_id live_class db1)
        end
    end
  end.

Definition leave_live_class (user : option User.t) (live_class_id : N) (db : Db)
  : Response * Db :=
  match user with
  | None => (not_authenticated, db)
  | Some u =>
    match get (participation_of (User.pk u) live_class_id) (participants db) with
    | DoesNotExist =>
        (mkResponse HTTP_404_NOT_FOUND (Error "Participation not found"), db)
    | Multiple => (raised MultipleObjectsReturned, db)
    | Found i participation =>
      let participation := LiveClassParticipant.set_status p_cancelled participation in
      let db1 := set_participants (<[i := participation]> (participants db)) db in
      match live_classes db1 !! LiveClassParticipant.live_class participation with
      | None => (raised RelatedObjectDoesNotExist, db1)
      | Some live_class =>
        (mkResponse HTTP_200_OK (Message "Successfully left live class"),
         update_participant_count (LiveClassParticipant.live_class participation)
                                  live_class db1)
      end
    end
  end.

(** ** materials/models.py: [Material.save] *)

(** [name.split(sep)[-1]], reading left to right: a separator empties the
    segment collected so far. *)
Fixpoint last_segment (sep : ascii) (seg s : string) : string :=
  match s with
  | EmptyString => seg
  | String c s' =>
      if Ascii.eqb c sep then last_segment sep EmptyString s'
      else last_segment sep (seg +:+ String c EmptyString) s'
  end.

Definition lower_ascii (c : ascii) : ascii :=
  let n := nat_of_ascii c in
  if (65 <=? n)%nat && (n <=? 90)%nat then ascii_of_nat (n + 32) else c.

(** [str.lower()] on ASCII text, where it maps A-Z to a-z and nothing else.
    On other text Python lower-cases by the Unicode tables, of which the
    8-bit characters of this model know nothing: what is said about [lower]
    is said of names that are ASCII. *)
Fixpoint lower (s : string) : string :=
  match s with
  | EmptyString => EmptyString
  | String c s' => String (lower_ascii c) (lower s')
  end.


(** [save()] first refreshes size and extension from the stored file, and
    asking the storage for the size of a file it does not hold raises. *)
Definition Material_save (pk : N) (m : Material.t) (db : Db) : Exception + Db :=
  if bool_decide (Material.file m = EmptyString) then
    inr (set_materials (<[pk := m]> (materials db)) db)
  else
    match storage db !! Material.file m with
    | None => inl FileNotFoundError
    | Some size =>
      let m :=
        Material.set_file_info size (lower (last_segment "." EmptyString (Material.file m))) m in
      inr (set_materials (<[pk := m]> (materials db)) db)
    end.

(** ** materials/views.py *)

(** [request.user.is_teacher and material.teacher == request.user] *)
Definition owning_teacher (u : User.t) (m : Material.t) : bool :=
  User.is_teacher u && bool_decide (Material.teacher m = User.pk u).

Definition record_access (u : User.t) (material_id : N) (a : AccessAction) (db : Db) : Db :=
  set_accesses (accesses db ++ [MaterialAccess.mk (User.pk u) material_id a]) db.

Definition download_material (user : option User.t) (material_id : N) (db : Db)
  : Response * Db :=
  match user with
  | None => (not_authenticated, db)
  | Some u =>
    match materials db !! material_id with
    | None => (mkResponse HTTP_404_NOT_FOUND (Error "Material not found"), db)
    | Some material =>
      if negb (Material.is_downloadable material) then
        (mkResponse HTTP_403_FORBIDDEN (Error "Material is not downloadable"), db)
      else if negb (owning_teacher u material)
              && negb (exists_ (active_enrollment_of (User.pk u) (Material.course material))
                               (enrollments db)) then
        (mkResponse HTTP_403_FORBIDDEN (Error "Access denied"), db)
      else
        let db1 := record_access u material_id download db in
        let material :=
          Material.set_download_count (Material.download_count material + 1) material in
        match Material_save material_id material db1 with
        | inl e => (raised e, db1)
        | inr db2 =>
          (* FileResponse(material.file, ...) *)
          if bool_decide (Material.file material = EmptyString) then (raised ValueError, db2)
          else
            match storage db2 !! Material.file material with
            | None => (mkResponse HTTP_404_NOT_FOUND (Error "File not found"), db2)
            | Some _ => (mkResponse HTTP_200_OK Data, db2)
            end
        end
    end
  end.

Definition view_material (user : option User.t) (material_id : N) (db : Db)
  : Response * Db :=
  match user with
  | None => (not_authenticated, db)
  | Some u =>
    match materials db !! material_id with
    | None => (mkResponse HTTP_404_NOT_FOUND (Error "Material not found"), db)
    | Some material =>
      if negb (owning_teacher u material)
         && negb (exists_ (active_enrollment_of (User.pk u) (Material.course material))
                          (enrollments db)) then
        (mkResponse HTTP_403_FORBIDDEN (Error "Access denied"), db)
      else
        let db1 := record_access u material_id view db in
        let material := Material.set_view_count (Material.view_count material + 1) material in
        match Material_save material_id material db1 with
        | inl e => (raised e, db1)
        | inr db2 => (mkResponse HTTP_200_OK (Message "View recorded successfully"), db2)
        end
    end
  end.

(** ** Sequences of enrolment requests, and the empty store *)

Inductive EnrollmentOp :=
| Enroll (user : option User.t) (course_id : N)
| Unenroll (user : option User.t) (course_id : N).

Definition step (db : Db) (op : EnrollmentOp) : Db :=
  match op with
  | Enroll user course_id => (enroll_course user course_id db).2
  | Unenroll user course_id => (unenroll_course user course_id db).2
  end.

Definition run (ops : list EnrollmentOp) (db : Db) : Db := foldl step db ops.

Definition empty_db : Db := mkDb ∅ [] [] ∅ [] ∅ [] ∅.

(** [current_students] of a course against its active enrolment rows *)
Definition seats_consistent (course_id : N) (db : Db) : Prop :=
  match courses db !! course_id with
  | Some course =>
      Course.current_students course
      = Z.of_nat (count (active_in course_id) (enrollments db))
  | None => True
  end.

(** [current_participants] of a class against its seated participant rows *)
Definition participants_consistent (live_class_id : N) (db : Db) : Prop :=
  match live_classes db !! live_class_id with
  | Some live_class =>
      LiveClass.current_participants live_class
      = Z.of_nat (count (seated_in live_class_id) (participants db))
  | None => False
  end.

(** ** Further views of courses/views.py *)

(** [CourseEnrollmentListView.get_queryset]: the caller's active enrolments,
    ordered by id, which is the order of insertion. *)
Definition CourseEnrollmentListView_get_queryset (user : User.t) (db : Db)
  : list CourseEnrollment.t :=
  List.filter
    (λ e, bool_decide (CourseEnrollment.student e = User.pk user)
          && CourseEnrollment.is_active e)
    (enrollments db).

(** [CourseRatingListView.get_queryset] *)
Definition CourseRatingListView_get_queryset (course_id : N) (db : Db) : list CourseRating.t :=
  List.filter (λ r, bool_decide (CourseRating.course r = course_id)) (ratings db).

(** [CourseSerializer.get_enrollment_count] *)
Definition get_enrollment_count (course_id : N) (db : Db) : Z :=
  Z.of_nat (count (active_in course_id) (enrollments db)).

(** ** Further views of live_classes/views.py *)

(** [values_list('course_id', flat=True)] over the caller's active enrolments *)
Definition enrolled_courses (user : User.t) (db : Db) : list N :=
  map CourseEnrollment.course
      (List.filter
         (λ e, bool_decide (CourseEnrollment.student e = User.pk user)
               && CourseEnrollment.is_active e)
         (enrollments db)).

(** [LiveClassListView.get_queryset] *)
Definition LiveClassListView_get_queryset (user : User.t) (db : Db) : gmap N LiveClass.t :=
  let queryset := live_classes db in
  if User.is_teacher user then
    filter (λ kv, LiveClass.teacher kv.2 = User.pk user) queryset
  else
    filter (λ kv, LiveClass.course kv.2 ∈ enrolled_courses user db) queryset.

(** [TeacherLiveClassListView.get_queryset] *)
Definition TeacherLiveClassListView_get_queryset (user : User.t) (db : Db)
  : gmap N LiveClass.t :=
  filter (λ kv, LiveClass.teacher kv.2 = User.pk user) (live_classes db).

(** [LiveClassParticipantListView.get_queryset] *)
Definition LiveClassParticipantListView_get_queryset (live_class_id : N) (db : Db)
  : list LiveClassParticipant.t :=
  List.filter (λ p, bool_decide (LiveClassParticipant.live_class p = live_class_id))
              (participants db).

(** [approve_participant].  [participant_id] is the position of the row in
    the participant table; [live_class__teacher=request.user] follows the
    row's foreign key.  The approver and the approval time are written to
    columns that [LiveClassParticipant.t] does not carry. *)
Definition approve_participant (user : option User.t) (live_class_id : N)
    (participant_id : nat) (db : Db) : Response * Db :=
  match check_permissions user [IsAuthenticated user; IsTeacher user], user with
  | Some denied, _ => (denied, db)
  | None, None => (not_authenticated, db)
  | None, Some u =>
    let not_found := (mkResponse HTTP_404_NOT_FOUND (Error "Participation not found"), db) in
    match participants db !! participant_id with
    | None => not_found
    | Some participation =>
      if negb (bool_decide (LiveClassParticipant.live_class participation = live_class_id))
      then not_found
      else
        match live_classes db !! live_class_id with
        | None => not_found
        | Some live_class =>
          if negb (bool_decide (LiveClass.teacher live_class = User.pk u)) then not_found
          else
            let participation := LiveClassParticipant.set_status approved participation in
            (mkResponse HTTP_200_OK Data,
             set_participants (<[participant_id := participation]> (participants db)) db)
        end
    end
  end.

(** The chat of a live class.  Only the columns the list view filters on. *)
Module LiveClassMessage.
Record t := mk { live_class : N; sender : N; message : string; is_private : bool }.
End LiveClassMessage.

(** [LiveClassMessageListView.get_queryset], over the message table
    [messages].  [LiveClass.objects.get] is not guarded: for an unknown class
    [LiveClass.DoesNotExist] escapes, which is the result [None]. *)
Definition LiveClassMessageListView_get_queryset (user : User.t) (live_class_id : N)
    (db : Db) (messages : list LiveClassMessage.t) : option (list LiveClassMessage.t) :=
  match live_classes db !! live_class_id with
  | None => None
  | Some live_class =>
    if User.is_teacher user && bool_decide (LiveClass.teacher live_class = User.pk user) then
      Some (List.filter
              (λ m, bool_decide (LiveClassMessage.live_class m = live_class_id)) messages)
    else
      Some (List.filter
              (λ m, (bool_decide (LiveClassMessage.live_class m = live_class_id)
                     && negb (LiveClassMessage.is_private m))
                    || (bool_decide (LiveClassMessage.live_class m = live_class_id)
                        && bool_decide (LiveClassMessage.sender m = User.pk user)))
              messages)
  end.

(** ** Further views of materials/views.py *)

(** [MaterialListView.get_queryset] *)
Definition MaterialListView_get_queryset (user : User.t) (db : Db) : gmap N Material.t :=
  let queryset := materials db in
  if User.is_teacher user then
    filter (λ kv, Material.teacher kv.2 = User.pk user) queryset
  else
    filter (λ kv, Material.course kv.2 ∈ enrolled_courses user db) queryset.

(** [TeacherMaterialListView.get_queryset] *)
Definition TeacherMaterialListView_get_queryset (user : User.t) (db : Db)
  : gmap N Material.t :=
  filter (λ kv, Material.teacher kv.2 = User.pk user) (materials db).

Definition access_of (material : N) (a : AccessAction) (r : MaterialAccess.t) : bool :=
  bool_decide (MaterialAccess.material r = material)
  && bool_decide (MaterialAccess.action r = a).

(** What [material_stats] reports: the two counters, counted from the access
    log and not read from the material row, and the ten most recent accesses,
    newest first.  The log is kept in the order of [accessed_at]. *)
Record Stats := mkStats {
  stats_view_count : nat;
  stats_download_count : nat;
  stats_recent_accesses : list MaterialAccess.t
}.

Definition material_stats (user : option User.t) (material_id : N) (db : Db)
  : Response * option Stats :=
  match user with
  | None => (not_authenticated, None)
  | Some u =>
    match materials db !! material_id with
    | None => (mkResponse HTTP_404_NOT_FOUND (Error "Material not found"), None)
    | Some material =>
      if negb (owning_teacher u material) then
        (mkResponse HTTP_403_FORBIDDEN (Error "Access denied"), None)
      else
        let log :=
          List.filter (λ r, bool_decide (MaterialAccess.material r = material_id))
                      (accesses db) in
        (mkResponse HTTP_200_OK Data,
         Some (mkStats (count (access_of material_id view) (accesses db))
                       (count (access_of material_id download) (accesses db))
                       (take 10 (reverse log))))
    end
  end.

(** ** Further permission classes of users/permissions.py *)

Definition IsStudent (user : option User.t) : bool :=
  match user with
  | Some u => User.is_student u
  | None => false
  end.

Definition IsAdmin (user : option User.t) : bool :=
  match user with
  | Some u => User.is_admin u
  | None => false
  end.

(** [IsOwnerOrReadOnly.has_object_permission], for an object whose [user]
    column holds [owner].  The class has no [has_permission] of its own, so
    nothing is asked of the caller before this test: with a safe method it
    answers [True] to every request, that of an anonymous caller included;
    otherwise it compares the object's user with the caller, and no stored
    user equals the anonymous one. *)
Definition IsOwnerOrReadOnly (method : Method) (user : option User.t) (owner : N) : bool :=
  if SAFE_METHODS method then true
  else
    match user with
    | Some u => bool_decide (owner = User.pk u)
    | None => false
    end.

(** ** Sequences of live class requests *)

Inductive LiveOp :=
| Start (user : option User.t) (live_class_id : N) (now : Z)
| Finish (user : option User.t) (live_class_id : N) (now : Z)
| Join (user : option User.t) (live_class_id : N)
| Leave (user : option User.t) (live_class_id : N).

Definition live_step (db : Db) (op : LiveOp) : Db :=
  match op with
  | Start user id now => (start_live_class user id now db).2
  | Finish user id now => (end_live_class user id now db).2
  | Join user id => (join_live_class user id db).2
  | Leave user id => (leave_live_class user id db).2
  end.

Definition run_live (ops : list LiveOp) (db : Db) : Db := foldl live_step db ops.

(** ** Invariants of the store *)

(** [0 <= current_students <= max_students] *)
Definition within_capacity (course_id : N) (db : Db) : Prop :=
  match courses db !! course_id with
  | Some course =>
      0 <= Course.current_students course <= Course.max_students course
  | None => True
  end.

(** The seat counter of a class is the recount and does not exceed the
    capacity. *)
Definition class_within_capacity (live_class_id : N) (db : Db) : Prop :=
  match live_classes db !! live_class_id with
  | Some live_class =>
      LiveClass.current_participants live_class
      = Z.of_nat (count (seated_in live_class_id) (participants db))
      ∧ LiveClass.current_participants live_class <= LiveClass.max_participants live_class
  | None => False
  end.

(** The statuses [start] and [end] can lead to from a given status. *)
Definition reachable (s s' : LiveClassStatus) : bool :=
  match s, s' with
  | scheduled, (scheduled | live | ended) => true
  | live, (live | ended) => true
  | ended, ended => true
  | cancelled, cancelled => true
  | _, _ => false
  end.

(** Every foreign key between the modelled tables points to a row. *)
Definition fk_ok (db : Db) : Prop :=
  Forall (λ e, is_Some (courses db !! CourseEnrollment.course e)) (enrollments db)
  ∧ Forall (λ r, is_Some (courses db !! CourseRating.course r)) (ratings db)
  ∧ map_Forall (λ _ lc, is_Some (courses db !! LiveClass.course lc)) (live_classes db)
  ∧ Forall (λ p, is_Some (live_classes db !! LiveClassParticipant.live_class p))
           (participants db)
  ∧ map_Forall (λ _ m, is_Some (courses db !! Material.course m)) (materials db)
  ∧ Forall (λ a, is_Some (materials db !! MaterialAccess.material a)) (accesses db).

(** The stored counters of a material against its access log. *)
Definition counters_match_log (material_id : N) (db : Db) : Prop :=
  match materials db !! material_id with
  | Some m =>
      Material.view_count m = Z.of_nat (count (access_of material_id view) (accesses db))
      ∧ Material.download_count m
        = Z.of_nat (count (access_of material_id download) (accesses db))
  | None => True
  end.

(** The columns of a course that only enrolment and the course's own update
    may change. *)
Definition seat_columns (c : Course.t) : string * N * CourseStatus * Z * Z :=
  (Course.title c, Course.teacher c, Course.status c,
   Course.max_students c, Course.current_students c).

(** One request to any of the handlers that write. *)
Inductive Request :=
| ReqEnroll (course_id : N)
| ReqUnenroll (course_id : N)
| ReqRate (course_id : N) (data : RatingData)
| ReqCourseDetail (method : Method) (pk : N) (data : CourseUpdateData)
| ReqStart (live_class_id : N) (now : Z)
| ReqEnd (live_class_id : N) (now : Z)
| ReqJoin (live_class_id : N)
| ReqLeave (live_class_id : N)
| ReqApprove (live_class_id : N) (participant_id : nat)
| ReqDownload (material_id : N)
| ReqView (material_id : N).

Definition handle (user : option User.t) (r : Request) (db : Db) : Response * Db :=
  match r with
  | ReqEnroll c => enroll_course user c db
  | ReqUnenroll c => unenroll_course user c db
  | ReqRate c data => rate_course user c data db
  | ReqCourseDetail method pk data => CourseDetailView method user pk data db
  | ReqStart id now => start_live_class user id now db
  | ReqEnd id now => end_live_class user id now db
  | ReqJoin id => join_live_class user id db
  | ReqLeave id => leave_live_class user id db
  | ReqApprove id pid => approve_participant user id pid db
  | ReqDownload m => download_material user m db
  | ReqView m => view_material user m db
  end.

(** What a live class keeps through start, end, join and leave: its course,
    teacher and capacity, with a status that [start] and [end] can reach. *)
Definition same_class (lc lc' : LiveClass.t) : Prop :=
  reachable (LiveClass.status lc) (LiveClass.status lc') = true
  ∧ LiveClass.course lc' = LiveClass.course lc
  ∧ LiveClass.teacher lc' = LiveClass.teacher lc
  ∧ LiveClass.max_participants lc' = LiveClass.max_participants lc.


(** ** Predicates of the statements *)

(** The ratings of a course, and their total, said without the view's
    helpers. *)
Definition course_ratings (course_id : N) (db : Db) : list CourseRating.t :=
  filter (λ r, CourseRating.course r = course_id) (ratings db).


(** A rating on the scale of the model's validators. *)
Definition on_scale (r : CourseRating.t) : Prop := 1 <= CourseRating.rating r <= 5.


(** A join request that went through: created or already there. *)
Definition joined_ok (r : Response) : Prop := status_code r = 201 ∨ status_code r = 200.

(** A participant row that counts towards [current_participants]: its
    status is registered, approved or attended. *)
Definition counted (p : LiveClassParticipant.t) : Prop :=
  LiveClassParticipant.status p = registered
  ∨ LiveClassParticipant.status p = approved
  ∨ LiveClassParticipant.status p = attended.

#[global] Instance counted_dec p : Decision (counted p).
Proof. unfold counted. apply _. Defined.

(** [current_participants] of a class is the number of its participant rows
    that count, said without the view's helpers. *)
Definition participants_counted (live_class_id : N) (db : Db) : Prop :=
  ∃ live_class,
    live_classes db !! live_class_id = Some live_class
    ∧ LiveClass.current_participants live_class
      = Z.of_nat
          (length
             (filter (λ p, LiveClassParticipant.live_class p = live_class_id ∧ counted p)
                (participants db))).

(** The gate shared by download and view: the owning teacher, or a caller
    with an active enrolment in the material's course. *)
Definition may_access (u : User.t) (m : Material.t) (db : Db) : bool :=
  owning_teacher u m
  || exists_ (active_enrollment_of (User.pk u) (Material.course m)) (enrollments db).

(** ** Sample stores

    Course K, published, with two seats, taught by user 10; students S and
    T; a second teacher who owns nothing. *)
Definition course_K : Course.t := Course.mk "K" 10 published 2 0 0 0.
Definition db_K : Db := set_courses {[1%N := course_K]} empty_db.
Definition teacher_K : User.t := User.mk 10 teacher_t.
Definition other_teacher : User.t := User.mk 11 teacher_t.
Definition student_S : User.t := User.mk 20 student_t.
Definition student_T : User.t := User.mk 21 student_t.

(** K with a single seat, taken by S. *)
Definition course_full : Course.t := Course.mk "K" 10 published 1 1 0 0.
Definition db_full : Db :=
  set_enrollments [CourseEnrollment.mk 20 1 true] (set_courses {[1%N := course_full]} empty_db).

(** K after S has enrolled. *)
Definition course_S : Course.t := Course.mk "K" 10 published 2 1 0 0.
Definition db_S : Db :=
  set_enrollments [CourseEnrollment.mk 20 1 true] (set_courses {[1%N := course_S]} empty_db).

(** K after S has enrolled, with a scheduled live class 7 of two seats. *)
Definition class_7 : LiveClass.t := LiveClass.mk 1 10 scheduled 2 0 None None.
Definition db_live : Db := set_live_classes {[7%N := class_7]} db_S.

(** The same with S already in class 7, approved by the teacher. *)
Definition class_7_joined : LiveClass.t := LiveClass.mk 1 10 scheduled 2 1 None None.
Definition participation_S : LiveClassParticipant.t := LiveClassParticipant.mk 20 7 approved.
Definition db_joined : Db :=
  set_participants [participation_S] (set_live_classes {[7%N := class_7_joined]} db_S).

(** A downloadable handout of course K, uploaded by its teacher and held
    by the storage. *)
Definition handout : Material.t :=
  Material.mk "Handout" "materials/handout.PDF" 0 "" 1 10 false true 0 0.
Definition db_material : Db :=
  mkDb (courses db_S) (enrollments db_S) [] ∅ [] {[5%N := handout]} []
       {["materials/handout.PDF" := 2048]}.

(** K after S has enrolled and rated it 5. *)
Definition rating_S : CourseRating.t := CourseRating.mk 20 1 5 "Great".
Definition db_rated : Db :=
  set_ratings [rating_S]
    (set_courses {[1%N := Course.mk "K" 10 published 2 1 (500 # 100) 1]} db_S).

(** Class 7 with three rows: T attended, S has left, a third student did
    not show up; one seat is counted. *)
Definition db_left : Db :=
  set_participants
    [LiveClassParticipant.mk 21 7 attended; LiveClassParticipant.mk 20 7 p_cancelled;
     LiveClassParticipant.mk 22 7 no_show]
    (set_live_classes {[7%N := class_7_joined]} db_S).

(** K after S has enrolled, next to a second course of the same teacher. *)
Definition db_two_courses : Db :=
  set_courses (<[2%N := course_K]> (courses db_S)) db_S.


(** The chat of class 7: a public question of S, a private one of T, and
    the teacher's answer. *)
Definition chat_7 : list LiveClassMessage.t :=
  [LiveClassMessage.mk 7 20 "When do we start?" false;
   LiveClassMessage.mk 7 21 "I cannot hear you" true;
   LiveClassMessage.mk 7 10 "In five minutes" false].

(** * Properties *)

(** Two tactics for the refusal branches of a handler: each closes a goal
    whose premise says that a response with an error status was a success. *)
Ltac not_200 :=
  let H := fresh in
  intros H; vm_compute in H; discriminate H.

Ltac not_ok :=
  let H := fresh in
  intros [H|H]; vm_compute in H; discriminate H.

(** ** Querysets *)

Section QuerySetFacts.
Context {A : Type}.
Implicit Types (P : A → bool) (rows : list A).

Lemma count_app P rows1 rows2 :
  count P (rows1 ++ rows2) = (count P rows1 + count P rows2)%nat.
Proof. induction rows1 as [|r rows1 IH]; simpl; [done|]. rewrite IH. lia. Qed.

Lemma count_snoc P rows r :
  count P (rows ++ [r]) = (count P rows + if P r then 1 else 0)%nat.
Proof. rewrite count_app. simpl. lia. Qed.

Lemma count_insert P rows i r r' :
  rows !! i = Some r →
  (count P (<[i := r']> rows) + (if P r then 1 else 0)
   = count P rows + (if P r' then 1 else 0))%nat.
Proof.
  revert i. induction rows as [|x rows IH]; intros [|i] Hi; simplify_eq/=.
  - lia.
  - specialize (IH _ Hi). lia.
Qed.

Lemma count_insert_same P rows i r r' :
  rows !! i = Some r → P r = P r' → count P (<[i := r']> rows) = count P rows.
Proof. intros Hi HP. pose proof (count_insert P rows i r r' Hi) as H. rewrite HP in H. lia. Qed.

Lemma count_lookup_pos P rows i r :
  rows !! i = Some r → P r = true → (1 <= count P rows)%nat.
Proof.
  revert i. induction rows as [|x rows IH]; intros [|i] Hi HP; simplify_eq/=.
  - rewrite HP. lia.
  - specialize (IH _ Hi HP). lia.
Qed.

Lemma exists_false_count P rows : exists_ P rows = false ↔ count P rows = 0%nat.
Proof.
  unfold exists_. induction rows as [|x rows IH]; simpl; [done|].
  destruct (P x); simpl; [split; [done | lia]|]. rewrite IH. lia.
Qed.

Lemma select_from_length P k rows : length (select_from P k rows) = count P rows.
Proof.
  revert k. induction rows as [|x rows IH]; intros k; simpl; [done|].
  destruct (P x); simpl; by rewrite IH.
Qed.

Lemma select_from_elem P k rows i r :
  (i, r) ∈ select_from P k rows →
  ∃ j, i = (k + j)%nat ∧ rows !! j = Some r ∧ P r = true.
Proof.
  revert k. induction rows as [|x rows IH]; intros k; simpl.
  - intros H. by apply elem_of_nil in H.
  - destruct (P x) eqn:Px.
    + intros [H|H]%elem_of_cons.
      * simplify_eq. exists 0%nat. split; [lia | done].
      * destruct (IH _ H) as (j & -> & Hj & HP). exists (S j). split; [lia | done].
    + intros H. destruct (IH _ H) as (j & -> & Hj & HP). exists (S j). split; [lia | done].
Qed.

Lemma get_Found P rows i r :
  get P rows = Found i r → rows !! i = Some r ∧ P r = true ∧ count P rows = 1%nat.
Proof.
  unfold get, select. intros H.
  pose proof (select_from_length P 0 rows) as Hlen.
  destruct (select_from P 0 rows) as [|[i' r'] [|? ?]] eqn:E; simplify_eq/=.
  destruct (select_from_elem P 0 rows i r) as (j & -> & Hj & HP).
  { rewrite E. left. }
  done.
Qed.

Lemma get_DoesNotExist P rows : get P rows = DoesNotExist → count P rows = 0%nat.
Proof.
  unfold get, select. intros H.
  pose proof (select_from_length P 0 rows) as Hlen.
  by destruct (select_from P 0 rows) as [|[i' r'] [|? ?]]; simplify_eq/=.
Qed.

Lemma get_Multiple P rows : get P rows = Multiple → (2 <= count P rows)%nat.
Proof.
  unfold get, select. intros H.
  pose proof (select_from_length P 0 rows) as Hlen.
  destruct (select_from P 0 rows) as [|[i' r'] [|? ?]]; simplify_eq/=. lia.
Qed.

Lemma count_filter_length P rows : length (List.filter P rows) = count P rows.
Proof. induction rows as [|x rows IH]; simpl; [done|]. destruct (P x); simpl; lia. Qed.

Lemma select_from_complete P k rows j r :
  rows !! j = Some r → P r = true → (k + j, r)%nat ∈ select_from P k rows.
Proof.
  revert k j. induction rows as [|x rows IH]; intros k [|j] Hj HP; simplify_eq/=.
  - rewrite HP, Nat.add_0_r. left.
  - replace (k + S j)%nat with (S k + j)%nat by lia.
    destruct (P x); [right|]; by apply IH.
Qed.

Lemma get_unique P rows i r :
  count P rows = 1%nat → rows !! i = Some r → P r = true → get P rows = Found i r.
Proof.
  intros Hone Hi HP. unfold get, select.
  pose proof (select_from_length P 0 rows) as Hlen.
  pose proof (select_from_complete P 0 rows i r Hi HP) as Hin.
  destruct (select_from P 0 rows) as [|[i' r'] [|? ?]]; simpl in Hlen; [lia| |lia].
  apply list_elem_of_singleton in Hin. by simplify_eq.
Qed.

Lemma count_zero_get P rows :
  count P rows = 0%nat → get P rows = DoesNotExist.
Proof.
  intros Hzero. unfold get, select.
  pose proof (select_from_length P 0 rows) as Hlen.
  destruct (select_from P 0 rows) as [|[i r] l]; [done|]. simpl in Hlen. lia.
Qed.

End QuerySetFacts.

(** ** Enrolment *)

Lemma active_enrollment_of_inv student course e :
  active_enrollment_of student course e = true →
  CourseEnrollment.student e = student ∧ CourseEnrollment.course e = course
  ∧ CourseEnrollment.is_active e = true.
Proof.
  unfold active_enrollment_of, enrollment_of.
  rewrite !andb_true_iff, !bool_decide_eq_true. tauto.
Qed.

Lemma enroll_course_seats (c : N) user course_id db :
  seats_consistent c db → seats_consistent c (enroll_course user course_id db).2.
Proof.
  unfold enroll_course, create_enrollment. intros Hc.
  destruct user as [u|]; [|done].
  destruct (courses db !! course_id) as [course|] eqn:Hcourse; [|done].
  destruct (negb (Course.is_published course)); [done|].
  destruct (Course.is_full course); [done|].
  destruct (exists_ (active_enrollment_of _ _) _); [done|].
  destruct (exists_ (enrollment_of _ _) _); [done|].
  unfold seats_consistent in *; simpl.
  rewrite count_snoc. unfold active_in at 2; simpl.
  destruct (decide (c = course_id)) as [->|Hne].
  - rewrite lookup_insert_eq. simpl. rewrite Hcourse in Hc.
    rewrite bool_decide_eq_true_2 by done. simpl. lia.
  - rewrite lookup_insert_ne by done.
    rewrite bool_decide_eq_false_2 by done. simpl.
    by rewrite Nat.add_0_r.
Qed.

Lemma unenroll_course_seats (c : N) user course_id db :
  seats_consistent c db → seats_consistent c (unenroll_course user course_id db).2.
Proof.
  unfold unenroll_course. intros Hc.
  destruct user as [u|]; [|done].
  destruct (get _ _) as [i e| |] eqn:Hget; [|done..].
  apply get_Found in Hget as (Hi & HP & _).
  apply active_enrollment_of_inv in HP as (Hs & Hco & Hact).
  assert (He : active_in c e = bool_decide (c = course_id)).
  { unfold active_in. rewrite Hact, Hco, andb_true_r. apply bool_decide_ext. naive_solver. }
  assert (He' : active_in c (CourseEnrollment.set_is_active false e) = false).
  { unfold active_in. simpl. apply andb_false_r. }
  pose proof (count_insert (active_in c) (enrollments db) i e
                (CourseEnrollment.set_is_active false e) Hi) as Hcount.
  rewrite He, He' in Hcount.
  simpl. rewrite Hco.
  destruct (courses db !! course_id) as [course|] eqn:Hcourse; simpl;
    unfold seats_consistent in *; simpl.
  - destruct (decide (c = course_id)) as [->|Hne].
    + rewrite lookup_insert_eq. simpl. rewrite Hcourse in Hc.
      rewrite bool_decide_eq_true_2 in Hcount by done. lia.
    + rewrite lookup_insert_ne by done.
      rewrite bool_decide_eq_false_2 in Hcount by done.
      destruct (courses db !! c); [|done]. rewrite Hc. f_equal. lia.
  - destruct (decide (c = course_id)) as [->|Hne].
    + by rewrite Hcourse.
    + rewrite bool_decide_eq_false_2 in Hcount by done.
      destruct (courses db !! c); [|done]. rewrite Hc. f_equal. lia.
Qed.

(** C1: from a store in which a course's [current_students] equals the number
    of its enrolment rows with [is_active=True], every sequence of enroll and
    unenroll requests, by any callers and on any courses, one after the
    other, leads to a store in which the two are equal again. *)
Theorem enroll_unenroll_keep_seat_count (c : N) (ops : list EnrollmentOp) (db : Db) :
  seats_consistent c db → seats_consistent c (run ops db).
Proof.
  unfold run. revert db. induction ops as [|op ops IH]; intros db Hc; simpl; [done|].
  apply IH. destruct op; simpl.
  - by apply enroll_course_seats.
  - by apply unenroll_course_seats.
Qed.

Lemma enroll_unenroll_keep_seat_count_witness :
  seats_consistent 1 db_K
  ∧ seats_consistent 1
      (run [Enroll (Some student_S) 1; Enroll (Some student_T) 1;
            Unenroll (Some student_S) 1; Enroll (Some student_S) 1;
            Unenroll (Some student_T) 1] db_K).
Proof.
  split; [vm_compute; reflexivity|].
  apply enroll_unenroll_keep_seat_count. vm_compute. reflexivity.
Defined.

(** Enrolling with no row at all for the pair: a row is appended and the
    counter goes up by one. *)
Lemma enroll_course_first_time u course_id course db :
  courses db !! course_id = Some course →
  Course.status course = published →
  Course.current_students course < Course.max_students course →
  exists_ (enrollment_of (User.pk u) course_id) (enrollments db) = false →
  enroll_course (Some u) course_id db
  = (mkResponse HTTP_201_CREATED Data,
     set_courses
       (<[course_id := Course.set_current_students (Course.current_students course + 1) course]>
          (courses db))
       (set_enrollments
          (enrollments db ++ [CourseEnrollment.mk (User.pk u) course_id true]) db)).
Proof.
  intros Hcourse Hpub Hroom Hnone. unfold enroll_course, create_enrollment.
  rewrite Hcourse. unfold Course.is_published, Course.is_full.
  rewrite bool_decide_eq_true_2 by done. simpl.
  rewrite bool_decide_eq_false_2 by lia.
  assert (exists_ (active_enrollment_of (User.pk u) course_id) (enrollments db) = false) as ->.
  { apply exists_false_count. apply exists_false_count in Hnone.
    revert Hnone. generalize (enrollments db). intros l.
    induction l as [|x l IH]; simpl; [done|]. unfold active_enrollment_of at 1.
    destruct (enrollment_of _ _ x); simpl; [lia|]. done. }
  by rewrite Hnone.
Qed.

(** Enrolling again after an unenroll: the pair still has its row, now with
    [is_active=False], the capacity and the "already enrolled" checks let the
    request through, and [create] violates [unique_together]. *)
Lemma enroll_course_inactive_row u course_id course db :
  courses db !! course_id = Some course →
  Course.status course = published →
  Course.current_students course < Course.max_students course →
  exists_ (active_enrollment_of (User.pk u) course_id) (enrollments db) = false →
  exists_ (enrollment_of (User.pk u) course_id) (enrollments db) = true →
  enroll_course (Some u) course_id db = (raised IntegrityError, db).
Proof.
  intros Hcourse Hpub Hroom Hact Hrow. unfold enroll_course, create_enrollment.
  rewrite Hcourse. unfold Course.is_published, Course.is_full.
  rewrite bool_decide_eq_true_2 by done. simpl.
  rewrite bool_decide_eq_false_2 by lia.
  by rewrite Hact, Hrow.
Qed.

(** C2: student S enrolls in the published, non-full course K (201), leaves
    it (200) and enrolls again.  S then has no active enrolment in K, yet the
    third request ends in an unhandled [IntegrityError]: nothing is
    reactivated and [current_students] stays 0. *)
Theorem enroll_after_unenroll_raises :
  let db1 := (enroll_course (Some student_S) 1 db_K).2 in
  let db2 := (unenroll_course (Some student_S) 1 db1).2 in
  status_code (enroll_course (Some student_S) 1 db_K).1 = 201
  ∧ status_code (unenroll_course (Some student_S) 1 db1).1 = 200
  ∧ courses db2 !! 1%N = Some course_K
  ∧ Course.is_published course_K = true
  ∧ Course.is_full course_K = false
  ∧ exists_ (active_enrollment_of (User.pk student_S) 1) (enrollments db2) = false
  ∧ enrollments db2 = [CourseEnrollment.mk 20 1 false]
  ∧ enroll_course (Some student_S) 1 db2 = (raised IntegrityError, db2).
Proof. vm_compute. repeat split; reflexivity. Qed.

(** C4: on a published course whose [current_students] equals
    [max_students], enroll answers 400 "Course is full" for every
    authenticated caller and leaves the whole store as it was. *)
Theorem enroll_full_course_rejected (u : User.t) (course_id : N) (course : Course.t) (db : Db) :
  courses db !! course_id = Some course →
  Course.status course = published →
  Course.current_students course = Course.max_students course →
  enroll_course (Some u) course_id db
  = (mkResponse 400 (Error "Course is full"), db).
Proof.
  intros Hcourse Hpub Hfull. unfold enroll_course.
  rewrite Hcourse. unfold Course.is_published, Course.is_full.
  rewrite bool_decide_eq_true_2 by done. simpl.
  by rewrite bool_decide_eq_true_2 by lia.
Qed.

Lemma enroll_full_course_rejected_witness :
  enroll_course (Some student_T) 1 db_full
  = (mkResponse 400 (Error "Course is full"), db_full).
Proof.
  apply (enroll_full_course_rejected student_T 1 course_full db_full);
    vm_compute; reflexivity.
Defined.

(** ** Course detail: who may write *)

(** C3, as stated, fails: a teacher who does not own course K renames and
    archives it through update_course, and removes it through delete_course. *)
Lemma non_owning_teacher_mutates_course :
  courses db_K !! 1%N = Some course_K
  ∧ User.is_teacher other_teacher = true
  ∧ Course.teacher course_K ≠ User.pk other_teacher
  ∧ update_course (Some other_teacher) 1 (Valid (Some "Mine") (Some archived) None) db_K
    = (mkResponse 200 Data,
       set_courses {[1%N := Course.mk "Mine" 10 archived 2 0 0 0]} empty_db)
  ∧ status_code (delete_course (Some other_teacher) 1 db_K).1 = 204
  ∧ courses (delete_course (Some other_teacher) 1 db_K).2 !! 1%N = None.
Proof. vm_compute. repeat split; try reflexivity. discriminate. Qed.

(** C3, amended: the gate on [CourseDetailView] is the caller's role.  A
    caller who is authenticated but not a teacher gets 403 from update_course
    and delete_course and the store is unchanged; any teacher, owner or not,
    updates an existing course with valid data (200, the row takes the
    validated values) and deletes it (204, the row is gone); every
    authenticated caller may read an existing course (200, store unchanged). *)
Theorem course_write_gated_by_teacher_role (u : User.t) (pk : N) (db : Db) :
  (User.is_teacher u = false →
     (∀ data, update_course (Some u) pk data db = (permission_denied, db))
     ∧ delete_course (Some u) pk db = (permission_denied, db))
  ∧ (∀ course, courses db !! pk = Some course →
       (User.is_teacher u = true →
          (∀ t s m,
             update_course (Some u) pk (Valid t s m) db
             = (mkResponse 200 Data,
                set_courses (<[pk := apply_update t s m course]> (courses db)) db))
          ∧ status_code (delete_course (Some u) pk db).1 = 204
          ∧ courses (delete_course (Some u) pk db).2 !! pk = None)
       ∧ retrieve_course (Some u) pk db = (mkResponse 200 Data, db)).
Proof.
  unfold update_course, delete_course, retrieve_course, CourseDetailView.
  cbn [check_permissions IsAuthenticated IsTeacherOrReadOnly SAFE_METHODS is_authenticated].
  split.
  - by intros ->.
  - intros course Hcourse. rewrite Hcourse. split; [|done].
    intros ->. split; [done|]. split; [done|].
    apply lookup_delete_eq.
Qed.

Lemma course_write_gated_by_teacher_role_witness :
  (update_course (Some student_S) 1 (Valid (Some "Mine") None None) db_K
   = (permission_denied, db_K)
   ∧ delete_course (Some student_S) 1 db_K = (permission_denied, db_K))
  ∧ (status_code (delete_course (Some other_teacher) 1 db_K).1 = 204
     ∧ courses (delete_course (Some other_teacher) 1 db_K).2 !! 1%N = None)
  ∧ retrieve_course (Some student_S) 1 db_K = (mkResponse 200 Data, db_K).
Proof.
  pose proof (course_write_gated_by_teacher_role student_S 1 db_K) as [Hs Hr].
  pose proof (course_write_gated_by_teacher_role other_teacher 1 db_K) as [_ Ht].
  specialize (Hs eq_refl) as [Hup Hdel].
  specialize (Hr course_K eq_refl) as [_ Hget].
  specialize (Ht course_K eq_refl) as [Hw _].
  specialize (Hw eq_refl) as (_ & H204 & Hgone).
  exact (conj (conj (Hup _) Hdel) (conj (conj H204 Hgone) Hget)).
Defined.

(** ** Course list *)

(** C8, as stated, fails for teachers: a teacher who owns no course is
    given course K, which belongs to user 10. *)
Lemma teacher_lists_course_of_another :
  User.is_teacher other_teacher = true
  ∧ CourseListView_get_queryset other_teacher db_K !! 1%N = Some course_K
  ∧ Course.teacher course_K ≠ User.pk other_teacher.
Proof. vm_compute. repeat split; try reflexivity. discriminate. Qed.

(** C8, amended: for a teacher the queryset of list_courses is the whole
    course table, whatever the status or the owner of a course; for every
    other caller it holds exactly the courses with [status='published']. *)
Theorem list_courses_queryset (u : User.t) (db : Db) :
  (User.is_teacher u = true → CourseListView_get_queryset u db = courses db)
  ∧ (User.is_teacher u = false →
       ∀ k c, CourseListView_get_queryset u db !! k = Some c
              ↔ courses db !! k = Some c ∧ Course.status c = published).
Proof.
  unfold CourseListView_get_queryset. split; intros ->; simpl; [done|].
  intros k c. by rewrite map_lookup_filter_Some.
Qed.

Lemma list_courses_queryset_witness :
  CourseListView_get_queryset teacher_K db_K = courses db_K
  ∧ (CourseListView_get_queryset student_S db_K !! 1%N = Some course_K
     ↔ courses db_K !! 1%N = Some course_K ∧ Course.status course_K = published).
Proof.
  split.
  - apply (proj1 (list_courses_queryset teacher_K db_K)). reflexivity.
  - apply (proj2 (list_courses_queryset student_S db_K)). reflexivity.
Defined.

(** ** Rating *)

(** *** The conversion of the mean *)

Lemma round_half_even_spec num den :
  0 < den → 2 * Z.abs (round_half_even num den * den - num) <= den.
Proof.
  intros Hden. unfold round_half_even. cbv zeta.
  pose proof (Z.div_mod num den ltac:(lia)) as Hdm.
  pose proof (Z.mod_pos_bound num den Hden) as Hr.
  destruct (Z.ltb_spec (2 * (num mod den)) den);
    [|destruct (Z.ltb_spec den (2 * (num mod den))); [|destruct (Z.even _)]]; lia.
Qed.

Lemma true_div_exponent a b :
  0 < b → b <= a <= 5 * b → 50 <= 53 + Z.log2 b - Z.log2 a <= 53.
Proof.
  intros Hb Hab.
  pose proof (Z.log2_le_mono b a ltac:(lia)).
  pose proof (Z.log2_le_mono a (b * 2 ^ 3) ltac:(lia)) as H3.
  rewrite Z.log2_mul_pow2 in H3 by lia. lia.
Qed.

(** A quotient between 1 and 5 is a float with 49 to 53 binary places, at
    most half a unit of the last place away from the quotient. *)
Lemma true_div_spec a b :
  0 < b → b <= a <= 5 * b →
  ∃ m s, true_div a b = (m, s) ∧ 49 <= s <= 53
         ∧ 2 * Z.abs (m * b - a * 2 ^ s) <= b.
Proof.
  intros Hb Hab. pose proof (true_div_exponent a b Hb Hab) as Hs0.
  unfold true_div. destruct (Z.eqb_spec a 0) as [|_]; [lia|]. cbv zeta.
  set (s0 := 53 + Z.log2 b - Z.log2 a) in *.
  set (s := if 2 ^ 53 <=? _ then s0 - 1 else s0).
  assert (Hs : 49 <= s <= 53) by (unfold s; destruct (_ <=? _); lia).
  eexists _, s. split; [done|]. split; [done|].
  unfold scaled. destruct (Z.leb_spec 0 s); [|lia]. cbn [fst snd].
  by apply round_half_even_spec.
Qed.

(** Such a float is stored as the hundredths nearest to it, and these are
    the hundredths nearest to the quotient as long as the divisor stays
    below [2^49 / 100]. *)
Lemma to_hundredths_spec a b m s :
  0 < b → b <= a <= 5 * b → 100 * b < 2 ^ 49 → 49 <= s <= 53 →
  2 * Z.abs (m * b - a * 2 ^ s) <= b →
  ∃ h, to_hundredths m s = inr h ∧ 2 * Z.abs (h * b - 100 * a) <= b.
Proof.
  intros Hb Hab Hsmall Hs Hm.
  pose proof (Z.pow_le_mono_r 2 49 s ltac:(lia) ltac:(lia)) as HP.
  set (P := 2 ^ s) in *.
  assert (HmP : P <= m <= 5 * P) by nia.
  unfold to_hundredths. cbv zeta.
  destruct (Z.leb_spec 0 s); [|lia]. fold P.
  destruct (Z.eqb_spec m 0); [lia|].
  destruct (Z.leb_spec (10 * P) m); [lia|].
  destruct (Z.leb_spec P m); [|lia].
  pose proof (round_half_even_spec (100 * m) P ltac:(lia)) as Hh.
  set (h := round_half_even (100 * m) P) in *.
  assert (Hh500 : h <= 500) by nia.
  destruct (Z.leb_spec 1000 h); [lia|].
  exists h. split; [done|].
  assert (Hid : (h * b - 100 * a) * P = b * (h * P - 100 * m) + 100 * (m * b - a * P)) by ring.
  nia.
Qed.

Lemma stored_mean_spec a b :
  0 < b → b <= a <= 5 * b → 100 * b < 2 ^ 49 →
  ∃ h, stored_mean a b = inr (h # 100) ∧ 2 * Z.abs (h * b - 100 * a) <= b.
Proof.
  intros Hb Hab Hsmall.
  destruct (true_div_spec a b Hb Hab) as (m & s & Hdiv & Hs & Hm).
  destruct (to_hundredths_spec a b m s Hb Hab Hsmall Hs Hm) as (h & Hh & Hacc).
  exists h. unfold stored_mean. by rewrite Hdiv, Hh.
Qed.

(** *** The rating rows *)

Lemma course_ratings_eq course_id db :
  course_ratings course_id db = ratings_of_course course_id (ratings db).
Proof.
  unfold course_ratings, ratings_of_course, rating_in.
  induction (ratings db) as [|r rows IH]; [done|].
  rewrite filter_cons, IH. simpl.
  destruct (decide (CourseRating.course r = course_id)).
  - by rewrite bool_decide_eq_true_2.
  - by rewrite bool_decide_eq_false_2.
Qed.


Lemma sum_ratings_bounds rs :
  Forall on_scale rs →
  Z.of_nat (length rs) <= sum_ratings rs <= 5 * Z.of_nat (length rs).
Proof.
  induction 1 as [|r rs Hr _ IH]; simpl; [lia|]. unfold on_scale in Hr. lia.
Qed.

Lemma ratings_of_course_length course_id rows :
  (length (ratings_of_course course_id rows) <= length rows)%nat.
Proof. apply List.filter_length_le. Qed.


Lemma elem_of_insert_cases {A} (l : list A) i x y :
  x ∈ <[i := y]> l → x = y ∨ x ∈ l.
Proof.
  revert i. induction l as [|z l IH]; intros [|i]; simpl; try by right.
  - rewrite !elem_of_cons. tauto.
  - rewrite !elem_of_cons. intros [->|H]; [tauto|]. destruct (IH _ H); tauto.
Qed.

Lemma elem_of_ratings_of_course course_id rows r :
  r ∈ ratings_of_course course_id rows ↔ r ∈ rows ∧ rating_in course_id r = true.
Proof.
  unfold ratings_of_course. rewrite !list_elem_of_In. apply List.filter_In.
Qed.

Lemma ratings_of_course_insert_on_scale course_id rows i r :
  Forall on_scale (ratings_of_course course_id rows) → on_scale r →
  Forall on_scale (ratings_of_course course_id (<[i := r]> rows)).
Proof.
  rewrite !Forall_forall. intros Hrows Hr x Hx.
  apply elem_of_ratings_of_course in Hx as [Hx Hin].
  apply elem_of_insert_cases in Hx as [->|Hx]; [done|].
  apply Hrows, elem_of_ratings_of_course. done.
Qed.

Lemma checked_rating_inr student course rating review r :
  checked_rating student course rating review = inr r →
  ∃ n s, rating = Some n ∧ review = Some s ∧ 0 <= n
         ∧ r = CourseRating.mk student course n s.
Proof.
  unfold checked_rating. destruct rating as [n|], review as [s|]; try done.
  destruct (_ || _); [done|].
  case_bool_decide; [|done]. intros [= <-]. by exists n, s.
Qed.

Lemma checked_rating_ok student course n s :
  0 <= n <= INTEGER_MAX →
  checked_rating student course (Some n) (Some s) = inr (CourseRating.mk student course n s).
Proof.
  intros Hn. unfold checked_rating.
  destruct (Z.ltb_spec n INTEGER_MIN); [unfold INTEGER_MIN in *; lia|].
  destruct (Z.ltb_spec INTEGER_MAX n); [lia|].
  simpl. by rewrite bool_decide_eq_true_2 by lia.
Qed.

Lemma on_scale_storable n : 1 <= n <= 5 → 0 <= n <= INTEGER_MAX.
Proof. unfold INTEGER_MAX. lia. Qed.

Lemma rating_of_in student course r :
  rating_of student course r = true → rating_in course r = true.
Proof.
  unfold rating_of, rating_in. rewrite andb_true_iff. tauto.
Qed.

Lemma rating_of_mk student course n s :
  rating_of student course (CourseRating.mk student course n s) = true.
Proof. unfold rating_of. simpl. by rewrite !bool_decide_eq_true_2. Qed.

(** *** The aggregate refresh *)

(** A refresh that goes through rewrites the rated course's aggregate, or
    nothing when the course has no rating. *)
Lemma refresh_rating_aggregate_inr course_id course db db' :
  refresh_rating_aggregate course_id course db = inr db' →
  db' = db
  ∨ ∃ average n,
      db' = set_courses
              (<[course_id := Course.set_rating_aggregate average n course]> (courses db)) db.
Proof.
  unfold refresh_rating_aggregate.
  destruct (ratings_of_course _ _); [intros [= <-]; by left|].
  destruct (stored_mean _ _) as [e|average]; [done|].
  intros [= <-]. right. by eexists _, _.
Qed.

Lemma refresh_rating_aggregate_ratings course_id course db db' :
  refresh_rating_aggregate course_id course db = inr db' → ratings db' = ratings db.
Proof. intros [->|(average & n & ->)]%refresh_rating_aggregate_inr; done. Qed.

Lemma refresh_rating_aggregate_enrollments course_id course db db' :
  refresh_rating_aggregate course_id course db = inr db' → enrollments db' = enrollments db.
Proof. intros [->|(average & n & ->)]%refresh_rating_aggregate_inr; done. Qed.

(** With every rating of the course between 1 and 5 and fewer than [2^40]
    rows, the refresh goes through and stores the mean to two places. *)
Lemma refresh_rating_aggregate_rounded course_id course rows db :
  ratings_of_course course_id rows ≠ [] →
  Forall on_scale (ratings_of_course course_id rows) →
  Z.of_nat (length rows) <= 2 ^ 40 →
  ∃ h,
    refresh_rating_aggregate course_id course (set_ratings rows db)
    = inr (set_courses
             (<[course_id := Course.set_rating_aggregate (h # 100)
                               (Z.of_nat (length (ratings_of_course course_id rows))) course]>
                (courses db)) (set_ratings rows db))
    ∧ 2 * Z.abs (h * Z.of_nat (length (ratings_of_course course_id rows))
                 - 100 * sum_ratings (ratings_of_course course_id rows))
      <= Z.of_nat (length (ratings_of_course course_id rows)).
Proof.
  intros Hne Hscale Hlen.
  pose proof (sum_ratings_bounds _ Hscale) as Hsum.
  pose proof (ratings_of_course_length course_id rows) as Hle.
  unfold refresh_rating_aggregate. cbn [ratings set_ratings]. cbv zeta.
  destruct (ratings_of_course course_id rows) as [|r rs] eqn:E; [done|].
  destruct (stored_mean_spec (sum_ratings (r :: rs)) (Z.of_nat (length (r :: rs))))
    as (h & Hh & Hacc).
  { simpl length. lia. }
  { lia. }
  { lia. }
  exists h. split; [|done]. by rewrite Hh.
Qed.


(** *** The view *)


(** A further rating on the scale: the row is rewritten in place, the
    aggregate is refreshed, the answer is 200. *)
Lemma rate_course_existing u course_id course data i r0 r db :
  courses db !! course_id = Some course →
  exists_ (active_enrollment_of (User.pk u) course_id) (enrollments db) = true →
  count (rating_of (User.pk u) course_id) (ratings db) = 1%nat →
  ratings db !! i = Some r0 →
  rating_of (User.pk u) course_id r0 = true →
  checked_rating (User.pk u) course_id
    (data_get_default (rating_field data) (CourseRating.rating r0))
    (data_get_default (review_field data) (CourseRating.review r0)) = inr r →
  on_scale r →
  Forall on_scale (ratings_of_course course_id (ratings db)) →
  Z.of_nat (length (ratings db)) <= 2 ^ 40 →
  let rows := <[i := r]> (ratings db) in
  ∃ h,
    rate_course (Some u) course_id data db
    = (mkResponse 200 Data,
       set_courses
         (<[course_id := Course.set_rating_aggregate (h # 100)
                           (Z.of_nat (length (ratings_of_course course_id rows))) course]>
            (courses db)) (set_ratings rows db))
    ∧ 2 * Z.abs (h * Z.of_nat (length (ratings_of_course course_id rows))
                 - 100 * sum_ratings (ratings_of_course course_id rows))
      <= Z.of_nat (length (ratings_of_course course_id rows))
    ∧ Forall on_scale (ratings_of_course course_id rows).
Proof.
  intros Hcourse Henr Hone Hi HP Hr Hscale Hrows Hlen rows.
  assert (Hin : rating_in course_id r = true).
  { apply checked_rating_inr in Hr as (n & s & _ & _ & _ & ->).
    eapply rating_of_in, rating_of_mk. }
  assert (Hrows' : Forall on_scale (ratings_of_course course_id rows)).
  { by apply ratings_of_course_insert_on_scale. }
  destruct (refresh_rating_aggregate_rounded course_id course rows db) as (h & Hh & Hacc).
  { intros Hnil.
    assert (Hel : r ∈ ratings_of_course course_id rows).
    { apply elem_of_ratings_of_course. split; [|done].
      apply list_elem_of_insert. by eapply lookup_lt_Some. }
    rewrite Hnil in Hel. by apply elem_of_nil in Hel. }
  { done. }
  { unfold rows. rewrite length_insert. lia. }
  exists h. split; [|done].
  unfold rate_course. rewrite Hcourse, Henr. cbn [negb].
  rewrite (get_unique _ _ i r0 Hone Hi HP), Hr. fold rows. by rewrite Hh.
Qed.

Lemma rate_course_enrollments user course_id data db :
  enrollments (rate_course user course_id data db).2 = enrollments db.
Proof.
  unfold rate_course.
  destruct user as [u|]; [|done].
  destruct (courses db !! course_id) as [course|]; [|done].
  destruct (negb _); [done|].
  destruct (get _ _) as [i r| |]; [| |done].
  all: destruct (checked_rating _ _ _ _) as [e|r']; [done|].
  all: destruct (refresh_rating_aggregate _ _ _) as [e|db2] eqn:E; [done|].
  all: cbn [snd]; by rewrite (refresh_rating_aggregate_enrollments _ _ _ _ E).
Qed.





(** The scenario of the specification: S, enrolled and without a rating,
    rates K with 5 (201, average 5.00, one rating), then with 3 and no
    review (200, average 3.00, still one rating, the review kept). *)
Example rate_twice_scenario :
  let out1 := rate_course (Some student_S) 1 (mkRatingData (Value 5) (Value "Great")) db_S in
  let out2 := rate_course (Some student_S) 1 (mkRatingData (Value 3) Missing) out1.2 in
  out1.1 = mkResponse 201 Data
  ∧ courses out1.2 !! 1%N = Some (Course.mk "K" 10 published 2 1 (500 # 100) 1)
  ∧ ratings out1.2 = [CourseRating.mk 20 1 5 "Great"]
  ∧ out2.1 = mkResponse 200 Data
  ∧ courses out2.2 !! 1%N = Some (Course.mk "K" 10 published 2 1 (300 # 100) 1)
  ∧ ratings out2.2 = [CourseRating.mk 20 1 3 "Great"].
Proof. vm_compute. repeat split; reflexivity. Qed.

(** What the column does to other means, and what it refuses: 43/40 is
    stored as 1.07 (the float nearest to 1.075 lies below it), 1999/200 as
    9.99 and not as 10.00, a mean of 10 and a rating beyond 64 bits raise. *)
Example stored_mean_samples :
  stored_mean 43 40 = inr (107 # 100)
  ∧ stored_mean 1999 200 = inr (999 # 100)
  ∧ stored_mean 1 2 = inr (50 # 100)
  ∧ stored_mean 1 3 = inr (33 # 100)
  ∧ stored_mean 10 1 = inl InvalidOperation
  ∧ checked_rating 20 1 (Some (2 ^ 63)) (Some "") = inl OverflowError
  ∧ checked_rating 20 1 (Some (-1)) (Some "") = inl IntegrityError.
Proof. vm_compute. repeat split; reflexivity. Qed.

(** ** Live class: start and end *)

Lemma start_live_class_ok u id now lc db :
  User.is_teacher u = true →
  live_classes db !! id = Some lc →
  LiveClass.teacher lc = User.pk u →
  LiveClass.status lc = scheduled →
  start_live_class (Some u) id now db
  = (mkResponse 200 Data,
     set_live_classes
       (<[id := LiveClass.mk (LiveClass.course lc) (LiveClass.teacher lc) live
                  (LiveClass.max_participants lc) (LiveClass.current_participants lc)
                  (Some now) (LiveClass.ended_at lc)]> (live_classes db)) db).
Proof.
  intros Ht Hlc Hown Hst. unfold start_live_class.
  cbn [check_permissions IsAuthenticated IsTeacher is_authenticated].
  rewrite Ht, Hlc. by rewrite !bool_decide_eq_true_2.
Qed.

Lemma start_live_class_ok_inv user id now db :
  status_code (start_live_class user id now db).1 = 200 →
  ∃ u lc, user = Some u ∧ User.is_teacher u = true ∧ live_classes db !! id = Some lc
          ∧ LiveClass.teacher lc = User.pk u ∧ LiveClass.status lc = scheduled.
Proof.
  unfold start_live_class.
  destruct user as [u|]; [|not_200].
  cbn [check_permissions IsAuthenticated IsTeacher is_authenticated].
  destruct (User.is_teacher u) eqn:Ht; [|not_200].
  destruct (live_classes db !! id) as [lc|]; [|not_200].
  case_bool_decide as Hown; cbn [negb]; [|not_200].
  case_bool_decide as Hst; cbn [negb]; [|not_200].
  intros _. by exists u, lc.
Qed.

Lemma end_live_class_ok u id now lc db :
  User.is_teacher u = true →
  live_classes db !! id = Some lc →
  LiveClass.teacher lc = User.pk u →
  LiveClass.status lc = live →
  end_live_class (Some u) id now db
  = (mkResponse 200 Data,
     set_live_classes
       (<[id := LiveClass.mk (LiveClass.course lc) (LiveClass.teacher lc) ended
                  (LiveClass.max_participants lc) (LiveClass.current_participants lc)
                  (LiveClass.started_at lc) (Some now)]> (live_classes db)) db).
Proof.
  intros Ht Hlc Hown Hst. unfold end_live_class.
  cbn [check_permissions IsAuthenticated IsTeacher is_authenticated].
  rewrite Ht, Hlc. by rewrite !bool_decide_eq_true_2.
Qed.

Lemma end_live_class_ok_inv user id now db :
  status_code (end_live_class user id now db).1 = 200 →
  ∃ u lc, user = Some u ∧ User.is_teacher u = true ∧ live_classes db !! id = Some lc
          ∧ LiveClass.teacher lc = User.pk u ∧ LiveClass.status lc = live.
Proof.
  unfold end_live_class.
  destruct user as [u|]; [|not_200].
  cbn [check_permissions IsAuthenticated IsTeacher is_authenticated].
  destruct (User.is_teacher u) eqn:Ht; [|not_200].
  destruct (live_classes db !! id) as [lc|]; [|not_200].
  case_bool_decide as Hown; cbn [negb]; [|not_200].
  case_bool_decide as Hst; cbn [negb]; [|not_200].
  intros _. by exists u, lc.
Qed.

(** C6: start_live_class answers 200 exactly when the caller is a teacher,
    the class exists with that caller as its teacher, and its status is
    [scheduled]; the class then has status [live] and [started_at] set to the
    time of the request, nothing else changes, and a further start, at any
    time, is answered 400 and changes nothing.  end_live_class answers 200
    exactly when the same holds with status [live]; the class then has
    status [ended] and [ended_at] set. *)
Theorem start_end_live_class (user : option User.t) (id : N) (now : Z) (db : Db) :
  (status_code (start_live_class user id now db).1 = 200
   ↔ ∃ u lc, user = Some u ∧ User.is_teacher u = true ∧ live_classes db !! id = Some lc
             ∧ LiveClass.teacher lc = User.pk u ∧ LiveClass.status lc = scheduled)
  ∧ (∀ lc, live_classes db !! id = Some lc →
       status_code (start_live_class user id now db).1 = 200 →
       (start_live_class user id now db).2
       = set_live_classes
           (<[id := LiveClass.mk (LiveClass.course lc) (LiveClass.teacher lc) live
                      (LiveClass.max_participants lc) (LiveClass.current_participants lc)
                      (Some now) (LiveClass.ended_at lc)]> (live_classes db)) db
       ∧ ∀ later,
           start_live_class user id later (start_live_class user id now db).2
           = (mkResponse 400 (Error "Live class is not scheduled"),
              (start_live_class user id now db).2))
  ∧ (status_code (end_live_class user id now db).1 = 200
     ↔ ∃ u lc, user = Some u ∧ User.is_teacher u = true ∧ live_classes db !! id = Some lc
               ∧ LiveClass.teacher lc = User.pk u ∧ LiveClass.status lc = live)
  ∧ (∀ lc, live_classes db !! id = Some lc →
       status_code (end_live_class user id now db).1 = 200 →
       (end_live_class user id now db).2
       = set_live_classes
           (<[id := LiveClass.mk (LiveClass.course lc) (LiveClass.teacher lc) ended
                      (LiveClass.max_participants lc) (LiveClass.current_participants lc)
                      (LiveClass.started_at lc) (Some now)]> (live_classes db)) db).
Proof.
  split; [|split; [|split]].
  - split; [apply start_live_class_ok_inv|].
    intros (u & lc & -> & Ht & Hlc & Hown & Hst).
    by rewrite (start_live_class_ok u id now lc db).
  - intros lc Hlc Hok.
    apply start_live_class_ok_inv in Hok as (u & lc' & -> & Ht & Hlc' & Hown & Hst).
    simplify_eq. rewrite (start_live_class_ok u id now lc db) by done.
    split; [done|]. intros later. cbn [snd].
    unfold start_live_class at 1.
    cbn [check_permissions IsAuthenticated IsTeacher is_authenticated].
    rewrite Ht. cbn [live_classes set_live_classes]. rewrite lookup_insert_eq.
    cbn [LiveClass.teacher LiveClass.status].
    rewrite bool_decide_eq_true_2 by done. by rewrite bool_decide_eq_false_2.
  - split; [apply end_live_class_ok_inv|].
    intros (u & lc & -> & Ht & Hlc & Hown & Hst).
    by rewrite (end_live_class_ok u id now lc db).
  - intros lc Hlc Hok.
    apply end_live_class_ok_inv in Hok as (u & lc' & -> & Ht & Hlc' & Hown & Hst).
    simplify_eq. by rewrite (end_live_class_ok u id now lc db).
Qed.

Lemma start_end_live_class_witness :
  status_code (start_live_class (Some teacher_K) 7 100 db_live).1 = 200
  ∧ start_live_class (Some teacher_K) 7 101 (start_live_class (Some teacher_K) 7 100 db_live).2
    = (mkResponse 400 (Error "Live class is not scheduled"),
       (start_live_class (Some teacher_K) 7 100 db_live).2).
Proof.
  pose proof (start_end_live_class (Some teacher_K) 7 100 db_live) as (Hiff & Hstart & _).
  assert (Hok : status_code (start_live_class (Some teacher_K) 7 100 db_live).1 = 200).
  { apply Hiff. exists teacher_K, class_7. repeat split; reflexivity. }
  split; [exact Hok|]. exact (proj2 (Hstart class_7 eq_refl Hok) 101).
Defined.

(** The scenario of the specification: a scheduled class is started (200,
    live, start time stamped), started again (400), then ended (200). *)
Example start_twice_scenario :
  let out1 := start_live_class (Some teacher_K) 7 100 db_live in
  let out2 := start_live_class (Some teacher_K) 7 101 out1.2 in
  let out3 := end_live_class (Some teacher_K) 7 160 out2.2 in
  status_code out1.1 = 200
  ∧ live_classes out1.2 !! 7%N = Some (LiveClass.mk 1 10 live 2 0 (Some 100) None)
  ∧ status_code out2.1 = 400
  ∧ out2.2 = out1.2
  ∧ status_code out3.1 = 200
  ∧ live_classes out3.2 !! 7%N = Some (LiveClass.mk 1 10 ended 2 0 (Some 100) (Some 160))
  ∧ status_code (end_live_class (Some teacher_K) 7 161 out3.2).1 = 400
  ∧ status_code (start_live_class (Some other_teacher) 7 100 db_live).1 = 404
  ∧ status_code (start_live_class (Some student_S) 7 100 db_live).1 = 403.
Proof. vm_compute. repeat split; reflexivity. Qed.

(** ** Live class: join and leave *)

Lemma participation_of_inv student live_class p :
  participation_of student live_class p = true →
  LiveClassParticipant.student p = student ∧ LiveClassParticipant.live_class p = live_class.
Proof.
  unfold participation_of. rewrite andb_true_iff, !bool_decide_eq_true. tauto.
Qed.

Lemma update_participant_count_consistent id lc db :
  participants_consistent id (update_participant_count id lc db).
Proof.
  unfold participants_consistent, update_participant_count.
  cbn [live_classes set_live_classes participants]. by rewrite lookup_insert_eq.
Qed.

Lemma update_participant_count_participants id lc db :
  participants (update_participant_count id lc db) = participants db.
Proof. done. Qed.

Lemma join_live_class_new u id lc db :
  live_classes db !! id = Some lc →
  exists_ (active_enrollment_of (User.pk u) (LiveClass.course lc)) (enrollments db) = true →
  LiveClass.is_full lc = false →
  count (participation_of (User.pk u) id) (participants db) = 0%nat →
  join_live_class (Some u) id db
  = (mkResponse 201 Data,
     update_participant_count id lc
       (set_participants
          (participants db ++ [LiveClassParticipant.mk (User.pk u) id registered]) db)).
Proof.
  intros Hlc Henr Hfull Hnone. unfold join_live_class.
  rewrite Hlc, Henr, Hfull. cbn [negb].
  destruct (get _ _) as [i p| |] eqn:Hget; [|done|].
  - apply get_Found in Hget as (_ & _ & ?). lia.
  - apply get_Multiple in Hget. lia.
Qed.

Lemma join_live_class_existing u id lc i p db :
  live_classes db !! id = Some lc →
  exists_ (active_enrollment_of (User.pk u) (LiveClass.course lc)) (enrollments db) = true →
  LiveClass.is_full lc = false →
  participants db !! i = Some p →
  participation_of (User.pk u) id p = true →
  count (participation_of (User.pk u) id) (participants db) = 1%nat →
  join_live_class (Some u) id db
  = (mkResponse 200 Data,
     update_participant_count id lc
       (if bool_decide (LiveClassParticipant.status p = p_cancelled) then
          set_participants
            (<[i := LiveClassParticipant.set_status registered p]> (participants db)) db
        else db)).
Proof.
  intros Hlc Henr Hfull Hi HP Hone. unfold join_live_class.
  rewrite Hlc, Henr, Hfull. cbn [negb].
  by rewrite (get_unique _ _ i p Hone Hi HP).
Qed.

Lemma join_live_class_ok_inv u id db :
  joined_ok (join_live_class (Some u) id db).1 →
  ∃ lc, live_classes db !! id = Some lc
        ∧ exists_ (active_enrollment_of (User.pk u) (LiveClass.course lc)) (enrollments db)
          = true
        ∧ LiveClass.is_full lc = false
        ∧ (count (participation_of (User.pk u) id) (participants db) <= 1)%nat.
Proof.
  unfold join_live_class, joined_ok.
  destruct (live_classes db !! id) as [lc|]; [|not_ok].
  destruct (exists_ _ _) eqn:Henr; cbn [negb]; [|not_ok].
  destruct (LiveClass.is_full lc) eqn:Hfull; [not_ok|].
  destruct (get _ _) as [i p| |] eqn:Hget; [| |not_ok]; intros _; exists lc.
  - apply get_Found in Hget as (_ & _ & ->). done.
  - apply get_DoesNotExist in Hget as ->. repeat split; [done..|lia].
Qed.

Lemma count_pos_lookup {A} (P : A → bool) (rows : list A) :
  (1 <= count P rows)%nat → ∃ i r, rows !! i = Some r ∧ P r = true.
Proof.
  induction rows as [|x rows IH]; simpl; [lia|].
  destruct (P x) eqn:Px.
  - intros _. by exists 0%nat, x.
  - intros H. destruct IH as (i & r & Hi & HP); [lia|]. by exists (S i), r.
Qed.

Lemma join_live_class_participants u id db :
  joined_ok (join_live_class (Some u) id db).1 →
  (count (participation_of (User.pk u) id) (participants db) = 0%nat
   ∧ participants (join_live_class (Some u) id db).2
     = participants db ++ [LiveClassParticipant.mk (User.pk u) id registered])
  ∨ (count (participation_of (User.pk u) id) (participants db) = 1%nat
     ∧ ∀ i p, participants db !! i = Some p → participation_of (User.pk u) id p = true →
         participants (join_live_class (Some u) id db).2
         = if bool_decide (LiveClassParticipant.status p = p_cancelled)
           then <[i := LiveClassParticipant.set_status registered p]> (participants db)
           else participants db).
Proof.
  intros Hok. apply join_live_class_ok_inv in Hok as (lc & Hlc & Henr & Hfull & Huniq).
  destruct (count _ (participants db)) as [|[|n]] eqn:Hcount; [| |lia].
  - left. split; [done|]. by rewrite (join_live_class_new u id lc db).
  - right. split; [done|]. intros i p Hi HP.
    rewrite (join_live_class_existing u id lc i p db) by done.
    cbn [snd]. rewrite update_participant_count_participants. by case_bool_decide.
Qed.

Lemma seated_in_counted live_class_id p :
  seated_in live_class_id p = true
  ↔ LiveClassParticipant.live_class p = live_class_id ∧ counted p.
Proof.
  unfold seated_in, counted. rewrite andb_true_iff, bool_decide_eq_true.
  destruct (LiveClassParticipant.status p); simpl; intuition congruence.
Qed.

Lemma count_seated_in live_class_id rows :
  count (seated_in live_class_id) rows
  = length (filter (λ p, LiveClassParticipant.live_class p = live_class_id ∧ counted p) rows).
Proof.
  induction rows as [|p rows IH]; [done|].
  rewrite filter_cons. simpl.
  pose proof (seated_in_counted live_class_id p) as Hp.
  destruct (decide _) as [Hc|Hc]; destruct (seated_in live_class_id p); simpl.
  - by rewrite IH.
  - destruct Hp as [_ Hp]. by specialize (Hp Hc).
  - destruct Hp as [Hp _]. by specialize (Hp eq_refl).
  - done.
Qed.

Lemma participants_consistent_counted live_class_id db :
  participants_consistent live_class_id db ↔ participants_counted live_class_id db.
Proof.
  unfold participants_consistent, participants_counted.
  rewrite <- count_seated_in.
  destruct (live_classes db !! live_class_id) as [lc|].
  - split; [by exists lc|]. by intros (? & [= <-] & ?).
  - split; [done|]. by intros (? & [=] & _).
Qed.

Lemma set_status_of_pair student live_class s p :
  participation_of student live_class p = true →
  LiveClassParticipant.set_status s p = LiveClassParticipant.mk student live_class s.
Proof.
  intros (<- & <-)%participation_of_inv. done.
Qed.

(** C7: for an authenticated caller, join_live_class answers 404 when the
    class is absent, 403 when the caller has no active enrolment in the
    class's course, and 400 when the class is full; otherwise it answers 201
    or 200.  A request answered 201 or 200 leaves exactly one participant row
    for the pair and leaves every other row as it was: when the pair had no
    row the table is the old one followed by the caller's [registered] row;
    when it had one the table is the old one, with that row replaced by the
    caller's [registered] row if it was [cancelled], and no second row.  A
    leave answered 200 replaces the caller's row by the same row
    [cancelled].  After such a join, and after such a leave, the class's
    [current_participants] is the number of its participant rows whose
    status is registered, approved or attended. *)
Theorem join_leave_live_class (u : User.t) (id : N) (db : Db) :
  (live_classes db !! id = None →
     join_live_class (Some u) id db = (mkResponse 404 (Error "Live class not found"), db))
  ∧ (∀ lc, live_classes db !! id = Some lc →
       (exists_ (active_enrollment_of (User.pk u) (LiveClass.course lc)) (enrollments db)
        = false →
          join_live_class (Some u) id db
          = (mkResponse 403 (Error "Must be enrolled to join"), db))
       ∧ (exists_ (active_enrollment_of (User.pk u) (LiveClass.course lc)) (enrollments db)
          = true →
            (LiveClass.max_participants lc <= LiveClass.current_participants lc →
               join_live_class (Some u) id db
               = (mkResponse 400 (Error "Live class is full"), db))
            ∧ (LiveClass.current_participants lc < LiveClass.max_participants lc →
               (count (participation_of (User.pk u) id) (participants db) <= 1)%nat →
               (join_live_class (Some u) id db).1
               = mkResponse
                   (if bool_decide
                         (count (participation_of (User.pk u) id) (participants db) = 0%nat)
                    then 201 else 200) Data)))
  ∧ (joined_ok (join_live_class (Some u) id db).1 →
       participants_counted id (join_live_class (Some u) id db).2
       ∧ count (participation_of (User.pk u) id)
               (participants (join_live_class (Some u) id db).2) = 1%nat
       ∧ length (participants (join_live_class (Some u) id db).2)
         = (length (participants db)
            + if bool_decide (count (participation_of (User.pk u) id) (participants db) = 0%nat)
              then 1 else 0)%nat
       ∧ (count (participation_of (User.pk u) id) (participants db) = 0%nat →
            participants (join_live_class (Some u) id db).2
            = participants db ++ [LiveClassParticipant.mk (User.pk u) id registered])
       ∧ ∀ i p, participants db !! i = Some p → participation_of (User.pk u) id p = true →
           participants (join_live_class (Some u) id db).2
           = if bool_decide (LiveClassParticipant.status p = p_cancelled)
             then <[i := LiveClassParticipant.mk (User.pk u) id registered]> (participants db)
             else participants db)
  ∧ (status_code (leave_live_class (Some u) id db).1 = 200 →
       participants_counted id (leave_live_class (Some u) id db).2
       ∧ ∃ i p, participants db !! i = Some p
                ∧ participation_of (User.pk u) id p = true
                ∧ participants (leave_live_class (Some u) id db).2
                  = <[i := LiveClassParticipant.mk (User.pk u) id p_cancelled]>
                      (participants db)).
Proof.
  split; [|split; [|split]].
  - intros Hnone. unfold join_live_class. by rewrite Hnone.
  - intros lc Hlc. split.
    + intros Henr. unfold join_live_class. by rewrite Hlc, Henr.
    + intros Henr. split.
      * intros Hfull. unfold join_live_class. rewrite Hlc, Henr. cbn [negb].
        unfold LiveClass.is_full. by rewrite bool_decide_eq_true_2.
      * intros Hroom Huniq.
        assert (Hfull : LiveClass.is_full lc = false).
        { unfold LiveClass.is_full. rewrite bool_decide_eq_false_2; [done | lia]. }
        destruct (count _ (participants db)) as [|[|n]] eqn:Hcount; [| |lia].
        -- by rewrite (join_live_class_new u id lc db).
        -- destruct (count_pos_lookup (participation_of (User.pk u) id) (participants db))
             as (i & p & Hi & HP); [lia|].
           by rewrite (join_live_class_existing u id lc i p db).
  - intros Hok.
    assert (Hcons : participants_counted id (join_live_class (Some u) id db).2).
    { apply participants_consistent_counted.
      pose proof Hok as (lc & Hlc & Henr & Hfull & Huniq)%join_live_class_ok_inv.
      destruct (count _ (participants db)) as [|[|n]] eqn:Hcount; [| |lia].
      - rewrite (join_live_class_new u id lc db) by done.
        apply update_participant_count_consistent.
      - destruct (count_pos_lookup (participation_of (User.pk u) id) (participants db))
          as (i & p & Hi & HP); [lia|].
        rewrite (join_live_class_existing u id lc i p db) by done.
        apply update_participant_count_consistent. }
    split; [exact Hcons|].
    destruct (join_live_class_participants u id db Hok) as [[Hzero ->]|[Hone Hrows]].
    + rewrite Hzero, count_snoc, Hzero, length_app.
      rewrite bool_decide_eq_true_2 by done. split; [|split; [done|split; [done|]]].
      * unfold participation_of; simpl. by rewrite !bool_decide_eq_true_2.
      * intros i p Hi HP.
        pose proof (count_lookup_pos _ _ _ _ Hi HP). lia.
    + destruct (count_pos_lookup (participation_of (User.pk u) id) (participants db))
        as (i & p & Hi & HP); [lia|].
      rewrite Hone. rewrite bool_decide_eq_false_2 by lia.
      split; [|split; [|split; [lia|]]].
      * rewrite (Hrows i p Hi HP). case_bool_decide; [|done].
        by rewrite (count_insert_same _ _ _ p).
      * rewrite (Hrows i p Hi HP). case_bool_decide; [|lia].
        rewrite length_insert. lia.
      * intros j q Hj HQ. rewrite (Hrows j q Hj HQ).
        by rewrite (set_status_of_pair _ _ _ _ HQ).
  - unfold leave_live_class.
    destruct (get _ _) as [i p| |] eqn:Hget;
      [|not_200..].
    apply get_Found in Hget as (Hi & HP & _).
    rewrite (set_status_of_pair _ _ _ _ HP).
    cbn [LiveClassParticipant.live_class live_classes set_participants].
    destruct (live_classes db !! id) as [lc|];
      [|not_200].
    intros _. split.
    + apply participants_consistent_counted, update_participant_count_consistent.
    + by exists i, p.
Qed.

Lemma join_leave_live_class_witness :
  join_live_class (Some student_S) 8 db_live
  = (mkResponse 404 (Error "Live class not found"), db_live)
  ∧ join_live_class (Some student_T) 7 db_live
    = (mkResponse 403 (Error "Must be enrolled to join"), db_live)
  ∧ participants (join_live_class (Some student_S) 7 db_live).2
    = [LiveClassParticipant.mk 20 7 registered]
  ∧ participants (join_live_class (Some student_S) 7 db_left).2
    = [LiveClassParticipant.mk 21 7 attended; LiveClassParticipant.mk 20 7 registered;
       LiveClassParticipant.mk 22 7 no_show]
  ∧ (∃ lc, live_classes (join_live_class (Some student_S) 7 db_left).2 !! 7%N = Some lc
           ∧ LiveClass.current_participants lc = 2)
  ∧ participants (leave_live_class (Some student_S) 7 db_joined).2
    = [LiveClassParticipant.mk 20 7 p_cancelled]
  ∧ (∃ lc, live_classes (leave_live_class (Some student_S) 7 db_joined).2 !! 7%N = Some lc
           ∧ LiveClass.current_participants lc = 0).
Proof.
  pose proof (join_leave_live_class student_S 8 db_live) as (H404 & _).
  pose proof (join_leave_live_class student_T 7 db_live) as (_ & H403 & _).
  pose proof (join_leave_live_class student_S 7 db_live) as (_ & _ & Hjoin & _).
  pose proof (join_leave_live_class student_S 7 db_left) as (_ & _ & Hback & _).
  pose proof (join_leave_live_class student_S 7 db_joined) as (_ & _ & _ & Hleave).
  destruct (Hjoin (or_introl eq_refl)) as (_ & _ & _ & Hnew & _).
  destruct (Hback (or_intror eq_refl)) as ((lc & Hlc & Hn) & _ & _ & _ & Hrow).
  destruct (Hleave eq_refl) as ((lc' & Hlc' & Hn') & i & p & Hi & HP & Hrows).
  split; [exact (H404 eq_refl)|].
  split; [exact (proj1 (H403 class_7 eq_refl) eq_refl)|].
  split; [exact (Hnew eq_refl)|].
  pose proof (Hrow 1%nat (LiveClassParticipant.mk 20 7 p_cancelled) eq_refl eq_refl) as Hrow1.
  split; [exact Hrow1|].
  split.
  { exists lc. split; [exact Hlc|]. rewrite Hrow1 in Hn. exact Hn. }
  destruct i as [|i]; [|discriminate Hi].
  split; [exact Hrows|].
  exists lc'. split; [exact Hlc'|]. rewrite Hrows in Hn'. exact Hn'.
Defined.

(** C10: an enrolled student who already has a participant row for a class
    that is not full joins again: the answer is 200, the participant table
    keeps its length, and the table is exactly as before unless the row's
    status was [cancelled], in which case that row, and no other, is set to
    [registered].  In particular a registered, approved or attended
    participation keeps its status. *)
Theorem repeat_join_keeps_status (u : User.t) (id : N) (lc : LiveClass.t)
    (i : nat) (p : LiveClassParticipant.t) (db : Db) :
  live_classes db !! id = Some lc →
  exists_ (active_enrollment_of (User.pk u) (LiveClass.course lc)) (enrollments db) = true →
  LiveClass.is_full lc = false →
  participants db !! i = Some p →
  participation_of (User.pk u) id p = true →
  count (participation_of (User.pk u) id) (participants db) = 1%nat →
  (join_live_class (Some u) id db).1 = mkResponse 200 Data
  ∧ length (participants (join_live_class (Some u) id db).2) = length (participants db)
  ∧ (holds_seat (LiveClassParticipant.status p) = true →
       participants (join_live_class (Some u) id db).2 = participants db)
  ∧ (LiveClassParticipant.status p ≠ p_cancelled →
       participants (join_live_class (Some u) id db).2 = participants db)
  ∧ (LiveClassParticipant.status p = p_cancelled →
       participants (join_live_class (Some u) id db).2
       = <[i := LiveClassParticipant.set_status registered p]> (participants db)).
Proof.
  intros Hlc Henr Hfull Hi HP Hone.
  rewrite (join_live_class_existing u id lc i p db) by done.
  cbn [fst snd]. rewrite update_participant_count_participants.
  split; [done|]. case_bool_decide as Hst.
  - cbn [participants set_participants]. rewrite length_insert.
    split; [done|]. split; [by rewrite Hst|]. split; [done|]. done.
  - repeat split; done.
Qed.

Lemma repeat_join_keeps_status_witness :
  (join_live_class (Some student_S) 7 db_joined).1 = mkResponse 200 Data
  ∧ participants (join_live_class (Some student_S) 7 db_joined).2 = [participation_S].
Proof.
  pose proof (repeat_join_keeps_status student_S 7 class_7_joined 0 participation_S db_joined
                eq_refl eq_refl eq_refl eq_refl eq_refl eq_refl) as (H200 & _ & Hkeep & _).
  split; [exact H200 | exact (Hkeep eq_refl)].
Defined.

(** ** Materials *)

Lemma Material_save_inr pk m db db' :
  Material_save pk m db = inr db' →
  accesses db' = accesses db
  ∧ ∃ m', materials db' !! pk = Some m'
          ∧ Material.download_count m' = Material.download_count m
          ∧ Material.view_count m' = Material.view_count m.
Proof.
  unfold Material_save. case_bool_decide.
  - intros [= <-]. split; [done|]. exists m.
    cbn [materials set_materials]. by rewrite lookup_insert_eq.
  - destruct (storage db !! Material.file m) as [size|]; [|done].
    intros [= <-]. split; [done|]. eexists.
    cbn [materials set_materials]. by rewrite lookup_insert_eq.
Qed.

Lemma Material_save_stored pk m db :
  Material.file m = EmptyString ∨ is_Some (storage db !! Material.file m) →
  ∃ db', Material_save pk m db = inr db' ∧ storage db' = storage db.
Proof.
  unfold Material_save. intros [Hempty|[size Hsize]].
  - rewrite bool_decide_eq_true_2 by done. by eexists.
  - case_bool_decide; [by eexists|]. rewrite Hsize. by eexists.
Qed.

Lemma may_access_gate u m db :
  negb (owning_teacher u m)
  && negb (exists_ (active_enrollment_of (User.pk u) (Material.course m)) (enrollments db))
  = negb (may_access u m db).
Proof. unfold may_access. by rewrite negb_orb. Qed.

(** C9: on an existing material, download_material answers 403 when
    [is_downloadable] is false, and 403 when the caller is neither the
    owning teacher nor actively enrolled in the material's course; a download
    answered 200 passed both checks, appended exactly one access row, with
    action [download], and raised [download_count] by exactly 1.
    view_material applies the same caller gate and no flag check; a view
    answered 200 appended exactly one access row, with action [view], and
    raised [view_count] by exactly 1.  Both do answer 200 for a caller
    who passes the checks when the storage holds the file. *)
Theorem download_and_view_material (u : User.t) (id : N) (m : Material.t) (db : Db) :
  materials db !! id = Some m →
  (Material.is_downloadable m = false →
     download_material (Some u) id db
     = (mkResponse 403 (Error "Material is not downloadable"), db))
  ∧ (Material.is_downloadable m = true → may_access u m db = false →
       download_material (Some u) id db = (mkResponse 403 (Error "Access denied"), db))
  ∧ (status_code (download_material (Some u) id db).1 = 200 →
       Material.is_downloadable m = true ∧ may_access u m db = true
       ∧ accesses (download_material (Some u) id db).2
         = accesses db ++ [MaterialAccess.mk (User.pk u) id download]
       ∧ ∃ m', materials (download_material (Some u) id db).2 !! id = Some m'
               ∧ Material.download_count m' = Material.download_count m + 1
               ∧ Material.view_count m' = Material.view_count m)
  ∧ (Material.is_downloadable m = true → may_access u m db = true →
       Material.file m ≠ EmptyString → is_Some (storage db !! Material.file m) →
       status_code (download_material (Some u) id db).1 = 200)
  ∧ (may_access u m db = false →
       view_material (Some u) id db = (mkResponse 403 (Error "Access denied"), db))
  ∧ (status_code (view_material (Some u) id db).1 = 200 →
       may_access u m db = true
       ∧ accesses (view_material (Some u) id db).2
         = accesses db ++ [MaterialAccess.mk (User.pk u) id view]
       ∧ ∃ m', materials (view_material (Some u) id db).2 !! id = Some m'
               ∧ Material.view_count m' = Material.view_count m + 1
               ∧ Material.download_count m' = Material.download_count m)
  ∧ (may_access u m db = true →
       Material.file m = EmptyString ∨ is_Some (storage db !! Material.file m) →
       status_code (view_material (Some u) id db).1 = 200).
Proof.
  intros Hm. unfold download_material, view_material.
  rewrite Hm, may_access_gate.
  split; [by intros ->|].
  split; [by intros -> ->|].
  split.
  { destruct (Material.is_downloadable m); cbn [negb];
      [|not_200].
    destruct (may_access u m db); cbn [negb];
      [|not_200].
    destruct (Material_save _ _ _) as [e|db2] eqn:Hsave;
      [not_200|].
    apply Material_save_inr in Hsave as (Hacc & m' & Hm' & Hd & Hv).
    case_bool_decide as Hfile; [not_200|].
    destruct (storage db2 !! _); [|not_200].
    intros _. cbn [snd]. rewrite Hacc. repeat split; [done..|].
    exists m'. by rewrite Hm', Hd, Hv. }
  split.
  { intros -> -> Hfile Hstored. cbn [negb].
    destruct (Material_save_stored id
                (Material.set_download_count (Material.download_count m + 1) m)
                (record_access u id download db)) as (db2 & -> & Hst); [by right|].
    cbn [Material.file Material.set_download_count].
    rewrite bool_decide_eq_false_2 by done. rewrite Hst.
    cbn [storage record_access set_accesses].
    destruct Hstored as [size ->]. done. }
  split; [by intros ->|].
  split.
  { destruct (may_access u m db); cbn [negb];
      [|not_200].
    destruct (Material_save _ _ _) as [e|db2] eqn:Hsave;
      [not_200|].
    apply Material_save_inr in Hsave as (Hacc & m' & Hm' & Hd & Hv).
    intros _. cbn [snd]. rewrite Hacc. repeat split; [done..|].
    exists m'. by rewrite Hm', Hd, Hv. }
  intros -> Hstored. cbn [negb].
  destruct (Material_save_stored id
              (Material.set_view_count (Material.view_count m + 1) m)
              (record_access u id view db)) as (db2 & -> & Hst); [done|].
  done.
Qed.

Lemma download_and_view_material_witness :
  status_code (download_material (Some student_S) 5 db_material).1 = 200
  ∧ accesses (download_material (Some student_S) 5 db_material).2
    = [MaterialAccess.mk 20 5 download]
  ∧ view_material (Some student_T) 5 db_material
    = (mkResponse 403 (Error "Access denied"), db_material).
Proof.
  pose proof (download_and_view_material student_S 5 handout db_material eq_refl)
    as (_ & _ & Hinv & Hok & _).
  pose proof (download_and_view_material student_T 5 handout db_material eq_refl)
    as (_ & _ & _ & _ & Hdenied & _).
  assert (H200 : status_code (download_material (Some student_S) 5 db_material).1 = 200).
  { apply Hok; [reflexivity | reflexivity | discriminate | by eexists]. }
  split; [exact H200|].
  split; [exact (proj1 (proj2 (proj2 (Hinv H200))))|].
  exact (Hdenied eq_refl).
Defined.

(** Download then view of the handout by S: the extension is refreshed on
    save, each counter moves by one and the log grows by one row per call. *)
Example download_then_view_scenario :
  let out1 := download_material (Some student_S) 5 db_material in
  let out2 := view_material (Some student_S) 5 out1.2 in
  status_code out1.1 = 200
  ∧ status_code out2.1 = 200
  ∧ materials out2.2 !! 5%N
    = Some (Material.mk "Handout" "materials/handout.PDF" 2048 "pdf" 1 10 false true 1 1)
  ∧ accesses out2.2 = [MaterialAccess.mk 20 5 download; MaterialAccess.mk 20 5 view].
Proof. vm_compute. repeat split; reflexivity. Qed.

(** * Further properties *)

(** ** Enrolment: capacity, repeated requests, round trip *)

Lemma enroll_course_within_capacity (c : N) user course_id db :
  within_capacity c db → within_capacity c (enroll_course user course_id db).2.
Proof.
  unfold enroll_course, create_enrollment. intros Hc.
  destruct user as [u|]; [|done].
  destruct (courses db !! course_id) as [course|] eqn:Hcourse; [|done].
  destruct (negb (Course.is_published course)); [done|].
  unfold Course.is_full. case_bool_decide as Hfull; [done|].
  destruct (exists_ (active_enrollment_of _ _) _); [done|].
  destruct (exists_ (enrollment_of _ _) _); [done|].
  unfold within_capacity in *; simpl.
  destruct (decide (c = course_id)) as [->|Hne].
  - rewrite lookup_insert_eq. simpl. rewrite Hcourse in Hc. lia.
  - by rewrite lookup_insert_ne.
Qed.

Lemma unenroll_course_within_capacity (c : N) user course_id db :
  within_capacity c db → within_capacity c (unenroll_course user course_id db).2.
Proof.
  unfold unenroll_course. intros Hc.
  destruct user as [u|]; [|done].
  destruct (get _ _) as [i e| |] eqn:Hget; [|done..].
  apply get_Found in Hget as (_ & HP & _).
  apply active_enrollment_of_inv in HP as (_ & Hco & _).
  simpl. rewrite Hco.
  destruct (courses db !! course_id) as [course|] eqn:Hcourse; simpl; [|done].
  unfold within_capacity in *; simpl.
  destruct (decide (c = course_id)) as [->|Hne].
  - rewrite lookup_insert_eq. simpl. rewrite Hcourse in Hc. lia.
  - by rewrite lookup_insert_ne.
Qed.

(** X1: requests served one after the other never overbook a course: if
    [0 <= current_students <= max_students] holds for a course, it holds
    after every sequence of enroll and unenroll requests. *)
Theorem enroll_unenroll_within_capacity (c : N) (ops : list EnrollmentOp) (db : Db) :
  within_capacity c db → within_capacity c (run ops db).
Proof.
  unfold run. revert db. induction ops as [|op ops IH]; intros db Hc; simpl; [done|].
  apply IH. destruct op; simpl.
  - by apply enroll_course_within_capacity.
  - by apply unenroll_course_within_capacity.
Qed.

Lemma enroll_unenroll_within_capacity_witness :
  within_capacity 1 db_K
  ∧ within_capacity 1
      (run [Enroll (Some student_S) 1; Enroll (Some student_T) 1;
            Enroll (Some teacher_K) 1; Unenroll (Some student_S) 1] db_K).
Proof.
  split; [vm_compute; split; discriminate|].
  apply enroll_unenroll_within_capacity. vm_compute. split; discriminate.
Defined.

Lemma enroll_course_created_inv u course_id db :
  status_code (enroll_course (Some u) course_id db).1 = 201 →
  ∃ course,
    courses db !! course_id = Some course
    ∧ Course.status course = published
    ∧ Course.current_students course < Course.max_students course
    ∧ exists_ (active_enrollment_of (User.pk u) course_id) (enrollments db) = false
    ∧ exists_ (enrollment_of (User.pk u) course_id) (enrollments db) = false.
Proof.
  unfold enroll_course, create_enrollment.
  destruct (courses db !! course_id) as [course|]; [|not_200].
  unfold Course.is_published, Course.is_full.
  case_bool_decide as Hpub; cbn [negb]; [|not_200].
  case_bool_decide as Hfull; [not_200|].
  destruct (exists_ (active_enrollment_of _ _) _) eqn:Hact; [not_200|].
  destruct (exists_ (enrollment_of _ _) _) eqn:Hrow; [not_200|].
  intros _. exists course. repeat split; try done. lia.
Qed.

Lemma active_enrollment_of_mk student course :
  active_enrollment_of student course (CourseEnrollment.mk student course true) = true.
Proof.
  unfold active_enrollment_of, enrollment_of. simpl. by rewrite !bool_decide_eq_true_2.
Qed.

Lemma enroll_course_already u course_id course db :
  courses db !! course_id = Some course →
  Course.status course = published →
  exists_ (active_enrollment_of (User.pk u) course_id) (enrollments db) = true →
  status_code (enroll_course (Some u) course_id db).1 = 400
  ∧ (enroll_course (Some u) course_id db).2 = db.
Proof.
  intros Hcourse Hpub Hact. unfold enroll_course.
  rewrite Hcourse, Hact. unfold Course.is_published.
  rewrite bool_decide_eq_true_2 by done. cbn [negb].
  by destruct (Course.is_full course).
Qed.

(** X2: a student who has just been enrolled (201) and asks again is refused
    with 400, and the second request writes nothing. *)
Theorem enroll_twice_refused (u : User.t) (course_id : N) (db : Db) :
  status_code (enroll_course (Some u) course_id db).1 = 201 →
  status_code
    (enroll_course (Some u) course_id (enroll_course (Some u) course_id db).2).1 = 400
  ∧ (enroll_course (Some u) course_id (enroll_course (Some u) course_id db).2).2
    = (enroll_course (Some u) course_id db).2.
Proof.
  intros Hok.
  destruct (enroll_course_created_inv u course_id db Hok)
    as (course & Hcourse & Hpub & Hroom & Hact & Hrow).
  rewrite (enroll_course_first_time u course_id course db) by done.
  cbn [snd].
  eapply enroll_course_already.
  - cbn [courses set_courses]. apply lookup_insert_eq.
  - done.
  - cbn [enrollments set_courses set_enrollments].
    apply not_false_iff_true. intros E.
    apply exists_false_count in E.
    rewrite count_snoc, active_enrollment_of_mk in E. lia.
Qed.

Lemma enroll_twice_refused_witness :
  status_code
    (enroll_course (Some student_S) 1 (enroll_course (Some student_S) 1 db_K).2).1 = 400.
Proof. exact (proj1 (enroll_twice_refused student_S 1 db_K eq_refl)). Defined.

Lemma set_current_students_back course n :
  Course.set_current_students (Course.current_students course)
    (Course.set_current_students n course) = course.
Proof. by destruct course. Qed.

(** X3: enroll followed by unenroll is a round trip on the course: when the
    enroll is answered 201, the unenroll of the same student is answered 200
    and gives the course row back as it was; what remains is the student's
    enrolment row, inactive. *)
Theorem enroll_then_unenroll (u : User.t) (course_id : N) (course : Course.t) (db : Db) :
  courses db !! course_id = Some course →
  0 <= Course.current_students course →
  status_code (enroll_course (Some u) course_id db).1 = 201 →
  unenroll_course (Some u) course_id (enroll_course (Some u) course_id db).2
  = (mkResponse 200 (Message "Successfully unenrolled"),
     set_enrollments
       (enrollments db ++ [CourseEnrollment.mk (User.pk u) course_id false]) db).
Proof.
  intros Hcourse Hpos Hok.
  destruct (enroll_course_created_inv u course_id db Hok)
    as (course' & Hcourse' & Hpub & Hroom & Hact & Hrow).
  simplify_eq.
  rewrite (enroll_course_first_time u course_id course db) by done.
  cbn [snd]. unfold unenroll_course.
  cbn [courses set_courses set_enrollments enrollments].
  rewrite (get_unique _ _ (length (enrollments db))
             (CourseEnrollment.mk (User.pk u) course_id true)).
  - cbn [CourseEnrollment.course CourseEnrollment.set_is_active
         CourseEnrollment.student courses set_courses set_enrollments enrollments].
    rewrite lookup_insert_eq, insert_insert_eq.
    cbn [Course.current_students Course.set_current_students].
    replace (0 `max` (Course.current_students course + 1 - 1))
      with (Course.current_students course) by lia.
    rewrite set_current_students_back, insert_id by done.
    rewrite insert_app_r_alt by done. rewrite Nat.sub_diag.
    by destruct db.
  - apply exists_false_count in Hact. by rewrite count_snoc, Hact, active_enrollment_of_mk.
  - by rewrite lookup_app_r, Nat.sub_diag.
  - apply active_enrollment_of_mk.
Qed.

Lemma enroll_then_unenroll_witness :
  unenroll_course (Some student_S) 1 (enroll_course (Some student_S) 1 db_K).2
  = (mkResponse 200 (Message "Successfully unenrolled"),
     set_enrollments [CourseEnrollment.mk 20 1 false] db_K).
Proof.
  apply (enroll_then_unenroll student_S 1 course_K db_K); [reflexivity | discriminate | reflexivity].
Defined.

Lemma unenroll_course_ok_inv u course_id db :
  status_code (unenroll_course (Some u) course_id db).1 = 200 →
  ∃ i e course,
    enrollments db !! i = Some e
    ∧ active_enrollment_of (User.pk u) course_id e = true
    ∧ count (active_enrollment_of (User.pk u) course_id) (enrollments db) = 1%nat
    ∧ courses db !! course_id = Some course
    ∧ (unenroll_course (Some u) course_id db).2
      = set_courses
          (<[course_id :=
               Course.set_current_students
                 (0 `max` (Course.current_students course - 1)) course]> (courses db))
          (set_enrollments
             (<[i := CourseEnrollment.set_is_active false e]> (enrollments db)) db).
Proof.
  unfold unenroll_course.
  destruct (get _ _) as [i e| |] eqn:Hget; [|not_200..].
  apply get_Found in Hget as (Hi & HP & Hone).
  pose proof (active_enrollment_of_inv _ _ _ HP) as (_ & Hco & _).
  cbn [CourseEnrollment.course CourseEnrollment.set_is_active courses set_enrollments].
  rewrite Hco.
  destruct (courses db !! course_id) as [course|]; [|not_200].
  intros _. by exists i, e, course.
Qed.

Lemma unenroll_course_no_longer_active u course_id db :
  status_code (unenroll_course (Some u) course_id db).1 = 200 →
  count (active_enrollment_of (User.pk u) course_id)
        (enrollments (unenroll_course (Some u) course_id db).2) = 0%nat.
Proof.
  intros Hok.
  destruct (unenroll_course_ok_inv u course_id db Hok)
    as (i & e & course & Hi & HP & Hone & _ & ->).
  cbn [enrollments set_courses set_enrollments].
  pose proof (count_insert (active_enrollment_of (User.pk u) course_id) (enrollments db) i e
                (CourseEnrollment.set_is_active false e) Hi) as Hcount.
  rewrite HP in Hcount.
  assert (active_enrollment_of (User.pk u) course_id
            (CourseEnrollment.set_is_active false e) = false) as Hoff.
  { unfold active_enrollment_of. simpl. apply andb_false_r. }
  rewrite Hoff in Hcount. lia.
Qed.

(** X4: once an unenroll has been answered 200, the same request again is
    answered 404 "Enrollment not found" and writes nothing; the counter is
    not decremented a second time. *)
Theorem unenroll_twice_not_found (u : User.t) (course_id : N) (db : Db) :
  status_code (unenroll_course (Some u) course_id db).1 = 200 →
  unenroll_course (Some u) course_id (unenroll_course (Some u) course_id db).2
  = (mkResponse 404 (Error "Enrollment not found"),
     (unenroll_course (Some u) course_id db).2).
Proof.
  intros Hok. apply unenroll_course_no_longer_active in Hok.
  unfold unenroll_course at 1. by rewrite (count_zero_get _ _ Hok).
Qed.

Lemma unenroll_twice_not_found_witness :
  unenroll_course (Some student_S) 1 (unenroll_course (Some student_S) 1 db_S).2
  = (mkResponse 404 (Error "Enrollment not found"),
     (unenroll_course (Some student_S) 1 db_S).2).
Proof. exact (unenroll_twice_not_found student_S 1 db_S eq_refl). Defined.

(** X5: a student who has left a course can no longer rate it: after an
    unenroll answered 200, rate_course answers 400 "Must be enrolled to rate"
    whatever the payload, and writes nothing. *)
Theorem rate_after_unenroll_refused (u : User.t) (course_id : N) (data : RatingData) (db : Db) :
  status_code (unenroll_course (Some u) course_id db).1 = 200 →
  rate_course (Some u) course_id data (unenroll_course (Some u) course_id db).2
  = (mkResponse 400 (Error "Must be enrolled to rate"),
     (unenroll_course (Some u) course_id db).2).
Proof.
  intros Hok. pose proof (unenroll_course_no_longer_active u course_id db Hok) as Hzero.
  destruct (unenroll_course_ok_inv u course_id db Hok)
    as (i & e & course & _ & _ & _ & _ & Hdb).
  apply exists_false_count in Hzero.
  unfold rate_course. rewrite Hzero. cbn [negb].
  rewrite Hdb at 1. cbn [courses set_courses]. by rewrite lookup_insert_eq.
Qed.

Lemma rate_after_unenroll_refused_witness :
  rate_course (Some student_S) 1 (mkRatingData (Value 5) Missing)
              (unenroll_course (Some student_S) 1 db_S).2
  = (mkResponse 400 (Error "Must be enrolled to rate"),
     (unenroll_course (Some student_S) 1 db_S).2).
Proof. exact (rate_after_unenroll_refused student_S 1 _ db_S eq_refl). Defined.


Lemma elem_of_List_filter {A} (f : A → bool) (l : list A) (x : A) :
  x ∈ List.filter f l ↔ x ∈ l ∧ f x = true.
Proof. rewrite !list_elem_of_In. apply filter_In. Qed.

Lemma count_zero_not_elem {A} (P : A → bool) (rows : list A) (r : A) :
  count P rows = 0%nat → r ∈ rows → P r = false.
Proof.
  intros Hzero [i Hi]%list_elem_of_lookup.
  destruct (P r) eqn:HP; [|done].
  pose proof (count_lookup_pos P rows i r Hi HP). lia.
Qed.

(** X6: the caller's enrolment list follows the two requests: after an
    enroll answered 201 it contains the new active row for the course, after
    an unenroll answered 200 it contains no row of that course. *)
Theorem my_enrollments_follow_requests (u : User.t) (course_id : N) (db : Db) :
  (status_code (enroll_course (Some u) course_id db).1 = 201 →
     CourseEnrollment.mk (User.pk u) course_id true
     ∈ CourseEnrollmentListView_get_queryset u (enroll_course (Some u) course_id db).2)
  ∧ (status_code (unenroll_course (Some u) course_id db).1 = 200 →
       ∀ e, e ∈ CourseEnrollmentListView_get_queryset u
                  (unenroll_course (Some u) course_id db).2 →
            CourseEnrollment.course e ≠ course_id).
Proof.
  split.
  - intros Hok.
    destruct (enroll_course_created_inv u course_id db Hok)
      as (course & Hcourse & Hpub & Hroom & Hact & Hrow).
    rewrite (enroll_course_first_time u course_id course db) by done.
    unfold CourseEnrollmentListView_get_queryset.
    cbn [snd enrollments set_courses set_enrollments].
    apply elem_of_List_filter. split.
    + apply elem_of_app. right. by apply list_elem_of_singleton.
    + simpl. by rewrite bool_decide_eq_true_2.
  - intros Hok e He Hcourse.
    apply unenroll_course_no_longer_active in Hok.
    unfold CourseEnrollmentListView_get_queryset in He.
    apply elem_of_List_filter in He as (He & Hmine).
    apply andb_true_iff in Hmine as (Hstudent & Hactive).
    apply bool_decide_eq_true in Hstudent.
    pose proof (count_zero_not_elem _ _ _ Hok He) as Hoff.
    unfold active_enrollment_of, enrollment_of in Hoff.
    rewrite Hactive, !bool_decide_eq_true_2 in Hoff by done. done.
Qed.

Lemma my_enrollments_follow_requests_witness :
  CourseEnrollment.mk 20 1 true
  ∈ CourseEnrollmentListView_get_queryset student_S (enroll_course (Some student_S) 1 db_K).2
  ∧ CourseEnrollmentListView_get_queryset student_S
      (unenroll_course (Some student_S) 1 db_S).2 = [].
Proof.
  split.
  - exact (proj1 (my_enrollments_follow_requests student_S 1 db_K) eq_refl).
  - reflexivity.
Defined.

(** ** Rating: payload edge cases and what a rating leaves alone *)

(** X7: the first rating of a pair must carry a rating: when the pair has no
    rating row and the payload has no [rating] key, or has it [null], the
    request ends in an unhandled [IntegrityError] and nothing is written. *)
Theorem rate_first_time_needs_rating (u : User.t) (course_id : N) (course : Course.t)
    (data : RatingData) (db : Db) :
  courses db !! course_id = Some course →
  exists_ (active_enrollment_of (User.pk u) course_id) (enrollments db) = true →
  count (rating_of (User.pk u) course_id) (ratings db) = 0%nat →
  rating_field data = Missing ∨ rating_field data = Null →
  rate_course (Some u) course_id data db = (raised IntegrityError, db).
Proof.
  intros Hcourse Henr Hnone Hfield. unfold rate_course.
  rewrite Hcourse, Henr. cbn [negb].
  rewrite (count_zero_get _ _ Hnone).
  by destruct Hfield as [-> | ->].
Qed.

Lemma rate_first_time_needs_rating_witness :
  rate_course (Some student_S) 1 (mkRatingData Missing (Value "Great")) db_S
  = (raised IntegrityError, db_S).
Proof.
  apply (rate_first_time_needs_rating student_S 1 course_S); try reflexivity. by left.
Defined.

(** X8: an update of an existing rating keeps what the payload leaves out.
    In a course whose ratings all lie between 1 and 5, for a student whose
    pair has its one row: with only a review, the stored rating stays and the
    review is replaced; with only a rating between 1 and 5, the stored review
    stays.  Both are answered 200 and rewrite the row in place.  The table is
    taken to hold fewer than [2^40] rows. *)
Theorem rate_update_keeps_omitted (u : User.t) (course_id : N) (course : Course.t)
    (i : nat) (r : CourseRating.t) (db : Db) :
  courses db !! course_id = Some course →
  exists_ (active_enrollment_of (User.pk u) course_id) (enrollments db) = true →
  ratings db !! i = Some r →
  rating_of (User.pk u) course_id r = true →
  count (rating_of (User.pk u) course_id) (ratings db) = 1%nat →
  Forall on_scale (course_ratings course_id db) →
  Z.of_nat (length (ratings db)) < 2 ^ 40 →
  (∀ s,
     (rate_course (Some u) course_id (mkRatingData Missing (Value s)) db).1
     = mkResponse 200 Data
     ∧ ratings (rate_course (Some u) course_id (mkRatingData Missing (Value s)) db).2
       = <[i := CourseRating.mk (User.pk u) course_id (CourseRating.rating r) s]> (ratings db))
  ∧ (∀ n, 1 <= n <= 5 →
       (rate_course (Some u) course_id (mkRatingData (Value n) Missing) db).1
       = mkResponse 200 Data
       ∧ ratings (rate_course (Some u) course_id (mkRatingData (Value n) Missing) db).2
         = <[i := CourseRating.mk (User.pk u) course_id n (CourseRating.review r)]>
             (ratings db)).
Proof.
  intros Hcourse Henr Hi HP Hone Hscale Hlen.
  rewrite course_ratings_eq in Hscale.
  assert (Hr : on_scale r).
  { rewrite Forall_forall in Hscale. apply Hscale, elem_of_ratings_of_course.
    split; [by eapply list_elem_of_lookup_2|by eapply rating_of_in]. }
  split; [intros s | intros n Hn].
  - destruct (rate_course_existing u course_id course (mkRatingData Missing (Value s))
                i r (CourseRating.mk (User.pk u) course_id (CourseRating.rating r) s) db)
      as (h & -> & _); try done; [|lia].
    cbn [rating_field review_field data_get_default].
    by apply checked_rating_ok, on_scale_storable.
  - destruct (rate_course_existing u course_id course (mkRatingData (Value n) Missing)
                i r (CourseRating.mk (User.pk u) course_id n (CourseRating.review r)) db)
      as (h & -> & _); try done; [|lia].
    cbn [rating_field review_field data_get_default].
    by apply checked_rating_ok, on_scale_storable.
Qed.

(** X9: a rate request, whatever its outcome, leaves the enrolment table as
    it was, creates and removes no course, changes no course other than the
    rated one, and on the rated one changes neither title, teacher, status,
    capacity nor seat counter. *)
Theorem rate_course_frame (user : option User.t) (course_id : N) (data : RatingData)
    (db : Db) :
  enrollments (rate_course user course_id data db).2 = enrollments db
  ∧ ∀ k,
      seat_columns <$> courses (rate_course user course_id data db).2 !! k
      = seat_columns <$> courses db !! k
      ∧ (k ≠ course_id →
         courses (rate_course user course_id data db).2 !! k = courses db !! k).
Proof.
  split; [apply rate_course_enrollments|].
  intros k. unfold rate_course.
  destruct user as [u|]; [|done].
  destruct (courses db !! course_id) as [course|] eqn:Hcourse; [|done].
  destruct (negb _); [done|].
  assert (Hrefresh : ∀ d d', courses d = courses db →
            refresh_rating_aggregate course_id course d = inr d' →
            seat_columns <$> courses d' !! k = seat_columns <$> courses db !! k
            ∧ (k ≠ course_id → courses d' !! k = courses db !! k)).
  { intros d d' Hd [->|(average & n & ->)]%refresh_rating_aggregate_inr; [by rewrite Hd|].
    cbn [courses set_courses]. rewrite Hd.
    destruct (decide (k = course_id)) as [->|Hne].
    - rewrite lookup_insert_eq, Hcourse. done.
    - by rewrite lookup_insert_ne. }
  destruct (get _ _) as [i r| |]; [| |done].
  all: destruct (checked_rating _ _ _ _); [done|].
  all: destruct (refresh_rating_aggregate _ _ _) as [e|d'] eqn:E; [done|].
  all: cbn [snd]; eapply Hrefresh; [|exact E]; reflexivity.
Qed.

Lemma rate_update_keeps_omitted_witness :
  ((rate_course (Some student_S) 1 (mkRatingData Missing (Value "So-so")) db_rated).1
   = mkResponse 200 Data
   ∧ ratings (rate_course (Some student_S) 1 (mkRatingData Missing (Value "So-so")) db_rated).2
     = [CourseRating.mk 20 1 5 "So-so"])
  ∧ (rate_course (Some student_S) 1 (mkRatingData (Value 2) Missing) db_rated).1
    = mkResponse 200 Data
    ∧ ratings (rate_course (Some student_S) 1 (mkRatingData (Value 2) Missing) db_rated).2
      = [CourseRating.mk 20 1 2 "Great"].
Proof.
  pose proof (rate_update_keeps_omitted student_S 1 _ 0 rating_S db_rated
                eq_refl eq_refl eq_refl eq_refl eq_refl) as [Hreview Hrating].
  { repeat constructor; vm_compute; discriminate. }
  { vm_compute. reflexivity. }
  split.
  - exact (Hreview "So-so").
  - exact (Hrating 2 ltac:(lia)).
Defined.

Lemma rate_course_frame_witness :
  enrollments (rate_course (Some student_S) 1 (mkRatingData (Value 4) Missing) db_S).2
  = enrollments db_S
  ∧ seat_columns
      <$> courses (rate_course (Some student_S) 1 (mkRatingData (Value 4) Missing) db_S).2
          !! 1%N
    = Some ("K", 10%N, published, 2, 1).
Proof.
  pose proof (rate_course_frame (Some student_S) 1 (mkRatingData (Value 4) Missing) db_S)
    as [Henr Hcols].
  split; [exact Henr | exact (proj1 (Hcols 1%N))].
Defined.

(** ** Course detail: what no request can change *)

(** X10: whatever the method, the caller and the payload, a request to the
    course detail view leaves every course other than the addressed one as
    it was, present or absent; it creates no course; and on the addressed
    one, if it is still there, it leaves the teacher, the seat counter and
    the rating aggregate as they were: ownership cannot be transferred and
    the counters cannot be edited through an update. *)
Theorem course_detail_frame (method : Method) (user : option User.t) (pk : N)
    (data : CourseUpdateData) (db : Db) :
  (∀ k, k ≠ pk → courses (CourseDetailView method user pk data db).2 !! k = courses db !! k)
  ∧ ∀ k c',
      courses (CourseDetailView method user pk data db).2 !! k = Some c' →
      ∃ c, courses db !! k = Some c
           ∧ Course.teacher c' = Course.teacher c
           ∧ Course.current_students c' = Course.current_students c
           ∧ Course.average_rating c' = Course.average_rating c
           ∧ Course.total_ratings c' = Course.total_ratings c
           ∧ (k ≠ pk → c' = c).
Proof.
  split.
  { intros k Hne. unfold CourseDetailView.
    destruct (check_permissions _ _); [done|].
    destruct method; try done.
    - by destruct (courses db !! pk).
    - by destruct (courses db !! pk).
    - destruct (courses db !! pk) as [course|]; [|done].
      destruct data as [|t s m]; [done|].
      cbn [snd courses set_courses]. by rewrite lookup_insert_ne.
    - destruct (courses db !! pk) as [course|]; [|done].
      destruct data as [|t s m]; [done|].
      cbn [snd courses set_courses]. by rewrite lookup_insert_ne.
    - destruct (courses db !! pk) as [course|]; [|done].
      cbn [snd courses delete_course_cascade]. by rewrite lookup_delete_ne. }
  intros k c'.
  assert (Hsame : courses db !! k = Some c' →
            ∃ c, courses db !! k = Some c
                 ∧ Course.teacher c' = Course.teacher c
                 ∧ Course.current_students c' = Course.current_students c
                 ∧ Course.average_rating c' = Course.average_rating c
                 ∧ Course.total_ratings c' = Course.total_ratings c
                 ∧ (k ≠ pk → c' = c)).
  { intros H. by exists c'. }
  unfold CourseDetailView.
  destruct (check_permissions _ _); [done|].
  destruct method; try done.
  - destruct (courses db !! pk); done.
  - destruct (courses db !! pk); done.
  - destruct (courses db !! pk) as [course|] eqn:Hcourse; [|done].
    destruct data as [|t s m]; [done|].
    cbn [snd courses set_courses].
    destruct (decide (k = pk)) as [->|Hne].
    + rewrite lookup_insert_eq. intros [= <-]. by exists course.
    + by rewrite lookup_insert_ne.
  - destruct (courses db !! pk) as [course|] eqn:Hcourse; [|done].
    destruct data as [|t s m]; [done|].
    cbn [snd courses set_courses].
    destruct (decide (k = pk)) as [->|Hne].
    + rewrite lookup_insert_eq. intros [= <-]. by exists course.
    + by rewrite lookup_insert_ne.
  - destruct (courses db !! pk) as [course|] eqn:Hcourse; [|done].
    cbn [snd courses delete_course_cascade].
    intros H. apply lookup_delete_Some in H as [_ H]. by apply Hsame.
Qed.

Lemma course_detail_frame_witness :
  courses (CourseDetailView DELETE (Some teacher_K) 2
             (Valid None None None) db_two_courses).2 !! 1%N = Some course_S
  ∧ courses (CourseDetailView PATCH (Some other_teacher) 1
               (Valid (Some "Mine") (Some archived) None) db_two_courses).2 !! 2%N
    = Some course_K
  ∧ ∃ c, courses db_two_courses !! 1%N = Some c
         ∧ Course.teacher (Course.mk "Mine" 10 archived 2 1 0 0) = Course.teacher c
         ∧ Course.current_students (Course.mk "Mine" 10 archived 2 1 0 0)
           = Course.current_students c.
Proof.
  pose proof (course_detail_frame DELETE (Some teacher_K) 2 (Valid None None None)
                db_two_courses) as (Hdel & _).
  pose proof (course_detail_frame PATCH (Some other_teacher) 1
                (Valid (Some "Mine") (Some archived) None) db_two_courses) as (Hupd & Hcols).
  split; [exact (Hdel 1%N ltac:(discriminate))|].
  split; [exact (Hupd 2%N ltac:(discriminate))|].
  destruct (Hcols 1%N (Course.mk "Mine" 10 archived 2 1 0 0) eq_refl)
    as (c & Hc & Ht & Hn & _).
  by exists c.
Defined.

(** ** Referential integrity *)

Section ForeignKeys.
Implicit Types (db : Db).

Lemma fk_ok_set_courses db (m' : gmap N Course.t) :
  (∀ k, is_Some (courses db !! k) → is_Some (m' !! k)) →
  fk_ok db → fk_ok (set_courses m' db).
Proof.
  intros Hkeep (He & Hr & Hl & Hp & Hm & Ha).
  repeat split; cbn [courses enrollments ratings live_classes participants materials
                     accesses set_courses]; try done.
  - eapply Forall_impl; [exact He|]. naive_solver.
  - eapply Forall_impl; [exact Hr|]. naive_solver.
  - eapply map_Forall_impl; [exact Hl|]. naive_solver.
  - eapply map_Forall_impl; [exact Hm|]. naive_solver.
Qed.

Lemma fk_ok_insert_course db (k : N) (c : Course.t) :
  fk_ok db → fk_ok (set_courses (<[k := c]> (courses db)) db).
Proof.
  apply fk_ok_set_courses. intros j Hj.
  destruct (decide (j = k)) as [->|Hne].
  - rewrite lookup_insert_eq. by eexists.
  - by rewrite lookup_insert_ne.
Qed.

Lemma fk_ok_set_enrollments db (rows : list CourseEnrollment.t) :
  Forall (λ e, is_Some (courses db !! CourseEnrollment.course e)) rows →
  fk_ok db → fk_ok (set_enrollments rows db).
Proof. intros Hrows (He & Hr & Hl & Hp & Hm & Ha). by repeat split. Qed.

Lemma fk_ok_set_ratings db (rows : list CourseRating.t) :
  Forall (λ r, is_Some (courses db !! CourseRating.course r)) rows →
  fk_ok db → fk_ok (set_ratings rows db).
Proof. intros Hrows (He & Hr & Hl & Hp & Hm & Ha). by repeat split. Qed.

Lemma fk_ok_insert_live_class db (k : N) (lc : LiveClass.t) :
  is_Some (courses db !! LiveClass.course lc) →
  fk_ok db → fk_ok (set_live_classes (<[k := lc]> (live_classes db)) db).
Proof.
  intros Hlc (He & Hr & Hl & Hp & Hm & Ha).
  repeat split; cbn [courses enrollments ratings live_classes participants materials
                     accesses set_live_classes]; try done.
  - by apply map_Forall_insert_2.
  - eapply Forall_impl; [exact Hp|]. intros p Hsome.
    destruct (decide (LiveClassParticipant.live_class p = k)) as [->|Hne].
    + rewrite lookup_insert_eq. by eexists.
    + by rewrite lookup_insert_ne.
Qed.

Lemma fk_ok_set_participants db (rows : list LiveClassParticipant.t) :
  Forall (λ p, is_Some (live_classes db !! LiveClassParticipant.live_class p)) rows →
  fk_ok db → fk_ok (set_participants rows db).
Proof. intros Hrows (He & Hr & Hl & Hp & Hm & Ha). by repeat split. Qed.

Lemma fk_ok_insert_material db (k : N) (m : Material.t) :
  is_Some (courses db !! Material.course m) →
  fk_ok db → fk_ok (set_materials (<[k := m]> (materials db)) db).
Proof.
  intros Hmat (He & Hr & Hl & Hp & Hm & Ha).
  repeat split; cbn [courses enrollments ratings live_classes participants materials
                     accesses set_materials]; try done.
  - by apply map_Forall_insert_2.
  - eapply Forall_impl; [exact Ha|]. intros a Hsome.
    destruct (decide (MaterialAccess.material a = k)) as [->|Hne].
    + rewrite lookup_insert_eq. by eexists.
    + by rewrite lookup_insert_ne.
Qed.

Lemma fk_ok_set_accesses db (rows : list MaterialAccess.t) :
  Forall (λ a, is_Some (materials db !! MaterialAccess.material a)) rows →
  fk_ok db → fk_ok (set_accesses rows db).
Proof. intros Hrows (He & Hr & Hl & Hp & Hm & Ha). by repeat split. Qed.

Lemma fk_ok_enroll_course user course_id db :
  fk_ok db → fk_ok (enroll_course user course_id db).2.
Proof.
  intros Hfk. unfold enroll_course, create_enrollment.
  destruct user as [u|]; [|done].
  destruct (courses db !! course_id) as [course|] eqn:Hcourse; [|done].
  repeat (destruct (_ : bool); [done|]).
  cbn [snd]. apply fk_ok_insert_course, fk_ok_set_enrollments; [|done].
  apply Forall_app. split; [apply Hfk|].
  apply Forall_singleton. simpl. by rewrite Hcourse.
Qed.

Lemma fk_ok_unenroll_course user course_id db :
  fk_ok db → fk_ok (unenroll_course user course_id db).2.
Proof.
  intros Hfk. unfold unenroll_course.
  destruct user as [u|]; [|done].
  destruct (get _ _) as [i e| |] eqn:Hget; [|done..].
  apply get_Found in Hget as (Hi & _ & _).
  assert (Hrows : fk_ok (set_enrollments
                    (<[i := CourseEnrollment.set_is_active false e]> (enrollments db)) db)).
  { apply fk_ok_set_enrollments; [|done].
    apply Forall_insert; [apply Hfk|]. simpl.
    destruct Hfk as (He & _). rewrite Forall_lookup in He. by apply (He i e). }
  destruct (courses _ !! _); [|done].
  cbn [snd]. by apply fk_ok_insert_course.
Qed.

Lemma fk_ok_refresh_rating_aggregate course_id course db db' :
  fk_ok db → refresh_rating_aggregate course_id course db = inr db' → fk_ok db'.
Proof.
  intros Hfk [->|(average & n & ->)]%refresh_rating_aggregate_inr; [done|].
  by apply fk_ok_insert_course.
Qed.

Lemma fk_ok_rate_course user course_id data db :
  fk_ok db → fk_ok (rate_course user course_id data db).2.
Proof.
  intros Hfk. unfold rate_course.
  destruct user as [u|]; [|done].
  destruct (courses db !! course_id) as [course|] eqn:Hcourse; [|done].
  destruct (negb _); [done|].
  destruct (get _ _) as [i r| |] eqn:Hget; [| |done].
  - destruct (checked_rating _ _ _ _) as [e|r'] eqn:Hr'; [done|].
    apply checked_rating_inr in Hr' as (n & s & _ & _ & _ & ->).
    assert (Hfk1 : fk_ok (set_ratings
                            (<[i := CourseRating.mk (User.pk u) course_id n s]> (ratings db))
                            db)).
    { apply fk_ok_set_ratings; [|done].
      apply Forall_insert; [apply Hfk|]. simpl. by rewrite Hcourse. }
    destruct (refresh_rating_aggregate _ _ _) as [e|db2] eqn:E; [done|].
    cbn [snd]. by eapply fk_ok_refresh_rating_aggregate.
  - destruct (checked_rating _ _ _ _) as [e|r'] eqn:Hr'; [done|].
    apply checked_rating_inr in Hr' as (n & s & _ & _ & _ & ->).
    assert (Hfk1 : fk_ok (set_ratings
                            (ratings db ++ [CourseRating.mk (User.pk u) course_id n s]) db)).
    { apply fk_ok_set_ratings; [|done].
      apply Forall_app. split; [apply Hfk|].
      apply Forall_singleton. simpl. by rewrite Hcourse. }
    destruct (refresh_rating_aggregate _ _ _) as [e|db2] eqn:E; [done|].
    cbn [snd]. by eapply fk_ok_refresh_rating_aggregate.
Qed.

Lemma fk_ok_delete_course_cascade pk db :
  fk_ok db → fk_ok (delete_course_cascade pk db).
Proof.
  intros (He & Hr & Hl & Hp & Hm & Ha).
  unfold fk_ok, delete_course_cascade.
  cbn [courses enrollments ratings live_classes participants materials accesses].
  rewrite Forall_forall in He. rewrite Forall_forall in Hr.
  rewrite Forall_forall in Hp. rewrite Forall_forall in Ha.
  repeat split.
  - apply Forall_forall. intros e [Hin Hkeep]%elem_of_List_filter.
    apply negb_true_iff, bool_decide_eq_false in Hkeep.
    rewrite lookup_delete_ne by done. by apply He.
  - apply Forall_forall. intros r [Hin Hkeep]%elem_of_List_filter.
    apply negb_true_iff, bool_decide_eq_false in Hkeep.
    rewrite lookup_delete_ne by done. by apply Hr.
  - intros k lc [Hlc Hkeep]%map_lookup_filter_Some. simpl in Hkeep.
    rewrite lookup_delete_ne by done. by apply (Hl k lc).
  - apply Forall_forall. intros p [Hin Hkeep]%elem_of_List_filter.
    destruct (Hp p Hin) as [lc Hlc]. rewrite Hlc in Hkeep.
    apply negb_true_iff, bool_decide_eq_false in Hkeep.
    exists lc. by apply map_lookup_filter_Some.
  - intros k m [Hmat Hkeep]%map_lookup_filter_Some. simpl in Hkeep.
    rewrite lookup_delete_ne by done. by apply (Hm k m).
  - apply Forall_forall. intros a [Hin Hkeep]%elem_of_List_filter.
    destruct (Ha a Hin) as [m Hmat]. rewrite Hmat in Hkeep.
    apply negb_true_iff, bool_decide_eq_false in Hkeep.
    exists m. by apply map_lookup_filter_Some.
Qed.

Lemma fk_ok_CourseDetailView method user pk data db :
  fk_ok db → fk_ok (CourseDetailView method user pk data db).2.
Proof.
  intros Hfk. unfold CourseDetailView.
  destruct (check_permissions _ _); [done|].
  destruct method; try done;
    destruct (courses db !! pk) as [course|]; try done.
  - destruct data; [done|]. by apply fk_ok_insert_course.
  - destruct data; [done|]. by apply fk_ok_insert_course.
  - by apply fk_ok_delete_course_cascade.
Qed.

Lemma fk_ok_start_live_class user id now db :
  fk_ok db → fk_ok (start_live_class user id now db).2.
Proof.
  intros Hfk. unfold start_live_class.
  destruct (check_permissions _ _); [done|].
  destruct user as [u|]; [|done].
  destruct (live_classes db !! id) as [lc|] eqn:Hlc; [|done].
  repeat (destruct (negb _); [done|]).
  apply fk_ok_insert_live_class; [|done]. simpl.
  destruct Hfk as (_ & _ & Hl & _). by apply (Hl id lc).
Qed.

Lemma fk_ok_end_live_class user id now db :
  fk_ok db → fk_ok (end_live_class user id now db).2.
Proof.
  intros Hfk. unfold end_live_class.
  destruct (check_permissions _ _); [done|].
  destruct user as [u|]; [|done].
  destruct (live_classes db !! id) as [lc|] eqn:Hlc; [|done].
  repeat (destruct (negb _); [done|]).
  apply fk_ok_insert_live_class; [|done]. simpl.
  destruct Hfk as (_ & _ & Hl & _). by apply (Hl id lc).
Qed.

Lemma fk_ok_update_participant_count id lc db :
  is_Some (courses db !! LiveClass.course lc) →
  fk_ok db → fk_ok (update_participant_count id lc db).
Proof. intros Hlc Hfk. by apply fk_ok_insert_live_class. Qed.

Lemma fk_ok_join_live_class user id db :
  fk_ok db → fk_ok (join_live_class user id db).2.
Proof.
  intros Hfk. unfold join_live_class.
  destruct user as [u|]; [|done].
  destruct (live_classes db !! id) as [lc|] eqn:Hlc; [|done].
  assert (Hcourse : is_Some (courses db !! LiveClass.course lc)).
  { destruct Hfk as (_ & _ & Hl & _). by apply (Hl id lc). }
  destruct (negb _); [done|]. destruct (LiveClass.is_full lc); [done|].
  destruct (get _ _) as [i p| |] eqn:Hget; [| |done]; cbn [snd].
  - apply fk_ok_update_participant_count; [by case_bool_decide|].
    case_bool_decide; [|done].
    apply fk_ok_set_participants; [|done].
    apply Forall_insert; [apply Hfk|]. simpl.
    apply get_Found in Hget as (Hi & _ & _).
    destruct Hfk as (_ & _ & _ & Hp & _). rewrite Forall_lookup in Hp. by apply (Hp i p).
  - apply fk_ok_update_participant_count; [done|].
    apply fk_ok_set_participants; [|done].
    apply Forall_app. split; [apply Hfk|].
    apply Forall_singleton. simpl. by rewrite Hlc.
Qed.

Lemma fk_ok_leave_live_class user id db :
  fk_ok db → fk_ok (leave_live_class user id db).2.
Proof.
  intros Hfk. unfold leave_live_class.
  destruct user as [u|]; [|done].
  destruct (get _ _) as [i p| |] eqn:Hget; [|done..].
  apply get_Found in Hget as (Hi & _ & _).
  assert (Hrows : fk_ok (set_participants
                    (<[i := LiveClassParticipant.set_status p_cancelled p]>
                       (participants db)) db)).
  { apply fk_ok_set_participants; [|done].
    apply Forall_insert; [apply Hfk|]. simpl.
    destruct Hfk as (_ & _ & _ & Hp & _). rewrite Forall_lookup in Hp. by apply (Hp i p). }
  cbn [LiveClassParticipant.live_class LiveClassParticipant.set_status
       live_classes set_participants].
  destruct (live_classes db !! _) as [lc|] eqn:Hlc; [|done].
  cbn [snd]. apply fk_ok_update_participant_count; [|done].
  cbn [courses set_participants].
  destruct Hfk as (_ & _ & Hl & _). by apply (Hl _ lc Hlc).
Qed.

Lemma fk_ok_approve_participant user id pid db :
  fk_ok db → fk_ok (approve_participant user id pid db).2.
Proof.
  intros Hfk. unfold approve_participant.
  destruct (check_permissions _ _); [done|].
  destruct user as [u|]; [|done].
  destruct (participants db !! pid) as [p|] eqn:Hp; [|done].
  destruct (negb _); [done|].
  destruct (live_classes db !! id); [|done].
  destruct (negb _); [done|].
  apply fk_ok_set_participants; [|done].
  apply Forall_insert; [apply Hfk|]. simpl.
  destruct Hfk as (_ & _ & _ & Hps & _). rewrite Forall_lookup in Hps. by apply (Hps pid p).
Qed.

Lemma fk_ok_Material_save pk m db db' :
  is_Some (courses db !! Material.course m) →
  Material_save pk m db = inr db' → fk_ok db → fk_ok db'.
Proof.
  intros Hcourse Hsave Hfk. unfold Material_save in Hsave.
  case_bool_decide.
  - simplify_eq. by apply fk_ok_insert_material.
  - destruct (storage db !! Material.file m); [|done].
    simplify_eq. by apply fk_ok_insert_material.
Qed.

Lemma fk_ok_record_access u id a m db :
  materials db !! id = Some m → fk_ok db → fk_ok (record_access u id a db).
Proof.
  intros Hm Hfk. apply fk_ok_set_accesses; [|done].
  apply Forall_app. split; [apply Hfk|].
  apply Forall_singleton. simpl. by rewrite Hm.
Qed.

Lemma fk_ok_download_material user id db :
  fk_ok db → fk_ok (download_material user id db).2.
Proof.
  intros Hfk. unfold download_material.
  destruct user as [u|]; [|done].
  destruct (materials db !! id) as [m|] eqn:Hm; [|done].
  destruct (negb _); [done|]. destruct (_ && _); [done|].
  pose proof (fk_ok_record_access u id download m db Hm Hfk) as Hfk1.
  destruct (Material_save _ _ _) as [e|db2] eqn:Hsave; [done|].
  assert (fk_ok db2).
  { eapply fk_ok_Material_save; [|exact Hsave|exact Hfk1].
    destruct Hfk as (_ & _ & _ & _ & Hmat & _). by apply (Hmat id m). }
  case_bool_decide; [done|]. by destruct (storage db2 !! _).
Qed.

Lemma fk_ok_view_material user id db :
  fk_ok db → fk_ok (view_material user id db).2.
Proof.
  intros Hfk. unfold view_material.
  destruct user as [u|]; [|done].
  destruct (materials db !! id) as [m|] eqn:Hm; [|done].
  destruct (_ && _); [done|].
  pose proof (fk_ok_record_access u id view m db Hm Hfk) as Hfk1.
  destruct (Material_save _ _ _) as [e|db2] eqn:Hsave; [done|].
  eapply fk_ok_Material_save; [|exact Hsave|exact Hfk1].
  destruct Hfk as (_ & _ & _ & _ & Hmat & _). by apply (Hmat id m).
Qed.
End ForeignKeys.

(** X11: referential integrity is an invariant of the handlers: if every
    enrolment and rating points to a course, every live class and material
    to a course, every participant to a live class and every access to a
    material, the same holds after any request, by any caller, to enroll,
    unenroll, rate, the course detail view (including a delete, which
    cascades), start, end, join, leave, approve, download or view. *)
Theorem handlers_keep_foreign_keys (user : option User.t) (r : Request) (db : Db) :
  fk_ok db → fk_ok (handle user r db).2.
Proof.
  intros Hfk. destruct r; simpl.
  - by apply fk_ok_enroll_course.
  - by apply fk_ok_unenroll_course.
  - by apply fk_ok_rate_course.
  - by apply fk_ok_CourseDetailView.
  - by apply fk_ok_start_live_class.
  - by apply fk_ok_end_live_class.
  - by apply fk_ok_join_live_class.
  - by apply fk_ok_leave_live_class.
  - by apply fk_ok_approve_participant.
  - by apply fk_ok_download_material.
  - by apply fk_ok_view_material.
Qed.


Lemma fk_ok_db_joined : fk_ok db_joined.
Proof.
  repeat split; cbn.
  - apply Forall_singleton. by eexists.
  - apply Forall_nil_2.
  - apply map_Forall_singleton. by eexists.
  - apply Forall_singleton. by eexists.
  - apply map_Forall_empty.
  - apply Forall_nil_2.
Qed.

Lemma handlers_keep_foreign_keys_witness :
  fk_ok db_joined
  ∧ fk_ok (handle (Some teacher_K) (ReqCourseDetail DELETE 1 Invalid) db_joined).2.
Proof.
  split; [exact fk_ok_db_joined|].
  apply handlers_keep_foreign_keys. exact fk_ok_db_joined.
Defined.

(** X12: with referential integrity and the pair's uniqueness, unenroll and
    leave cannot fail: a student with an active enrolment is answered 200 by
    unenroll, after which the pair has no active row and the course's counter
    is the old one less one, floored at 0; a student with a participant row
    is answered 200 by leave. *)
Theorem unenroll_and_leave_succeed (u : User.t) (db : Db) :
  fk_ok db →
  (∀ course_id,
     count (active_enrollment_of (User.pk u) course_id) (enrollments db) = 1%nat →
     status_code (unenroll_course (Some u) course_id db).1 = 200
     ∧ count (active_enrollment_of (User.pk u) course_id)
             (enrollments (unenroll_course (Some u) course_id db).2) = 0%nat
     ∧ ∃ course,
         courses db !! course_id = Some course
         ∧ courses (unenroll_course (Some u) course_id db).2 !! course_id
           = Some (Course.set_current_students
                     (0 `max` (Course.current_students course - 1)) course))
  ∧ (∀ live_class_id,
       count (participation_of (User.pk u) live_class_id) (participants db) = 1%nat →
       status_code (leave_live_class (Some u) live_class_id db).1 = 200).
Proof.
  intros Hfk. split.
  - intros course_id Hone.
    assert (Hok : status_code (unenroll_course (Some u) course_id db).1 = 200).
    { unfold unenroll_course.
      destruct (get _ _) as [i e| |] eqn:Hget.
      - apply get_Found in Hget as (Hi & HP & _).
        apply active_enrollment_of_inv in HP as (_ & Hco & _).
        destruct Hfk as (He & _). rewrite Forall_lookup in He.
        destruct (He i e Hi) as [course Hcourse].
        cbn [CourseEnrollment.course CourseEnrollment.set_is_active courses set_enrollments].
        by rewrite Hcourse.
      - apply get_DoesNotExist in Hget. lia.
      - apply get_Multiple in Hget. lia. }
    split; [done|]. split; [by apply unenroll_course_no_longer_active|].
    destruct (unenroll_course_ok_inv u course_id db Hok)
      as (i & e & course & _ & _ & _ & Hcourse & ->).
    exists course. split; [done|]. cbn [courses set_courses]. apply lookup_insert_eq.
  - intros id Hone. unfold leave_live_class.
    destruct (get _ _) as [i p| |] eqn:Hget.
    + apply get_Found in Hget as (Hi & HP & _).
      destruct Hfk as (_ & _ & _ & Hp & _). rewrite Forall_lookup in Hp.
      destruct (Hp i p Hi) as [lc Hlc].
      cbn [LiveClassParticipant.live_class LiveClassParticipant.set_status
           live_classes set_participants].
      by rewrite Hlc.
    + apply get_DoesNotExist in Hget. lia.
    + apply get_Multiple in Hget. lia.
Qed.

Lemma unenroll_and_leave_succeed_witness :
  status_code (unenroll_course (Some student_S) 1 db_joined).1 = 200
  ∧ status_code (leave_live_class (Some student_S) 7 db_joined).1 = 200.
Proof.
  pose proof (unenroll_and_leave_succeed student_S db_joined fk_ok_db_joined) as [Hu Hl].
  split.
  - exact (proj1 (Hu 1%N eq_refl)).
  - exact (Hl 7%N eq_refl).
Defined.

(** ** Live classes: what a sequence of requests preserves *)

Lemma seated_in_other id p :
  LiveClassParticipant.live_class p ≠ id → seated_in id p = false.
Proof. intros Hne. unfold seated_in. by rewrite bool_decide_eq_false_2. Qed.

Lemma start_live_class_effect user j now db :
  participants (start_live_class user j now db).2 = participants db
  ∧ (live_classes (start_live_class user j now db).2 = live_classes db
     ∨ ∃ lc, live_classes db !! j = Some lc
             ∧ LiveClass.status lc = scheduled
             ∧ live_classes (start_live_class user j now db).2
               = <[j := LiveClass.mk (LiveClass.course lc) (LiveClass.teacher lc) live
                          (LiveClass.max_participants lc) (LiveClass.current_participants lc)
                          (Some now) (LiveClass.ended_at lc)]> (live_classes db)).
Proof.
  unfold start_live_class.
  destruct (check_permissions _ _); [by split; [|left]|].
  destruct user as [u|]; [|by split; [|left]].
  destruct (live_classes db !! j) as [lc|] eqn:Hlc; [|by split; [|left]].
  destruct (negb _); [by split; [|left]|].
  case_bool_decide as Hst; cbn [negb]; [|by split; [|left]].
  split; [done|]. right. by exists lc.
Qed.

Lemma end_live_class_effect user j now db :
  participants (end_live_class user j now db).2 = participants db
  ∧ (live_classes (end_live_class user j now db).2 = live_classes db
     ∨ ∃ lc, live_classes db !! j = Some lc
             ∧ LiveClass.status lc = live
             ∧ live_classes (end_live_class user j now db).2
               = <[j := LiveClass.mk (LiveClass.course lc) (LiveClass.teacher lc) ended
                          (LiveClass.max_participants lc) (LiveClass.current_participants lc)
                          (LiveClass.started_at lc) (Some now)]> (live_classes db)).
Proof.
  unfold end_live_class.
  destruct (check_permissions _ _); [by split; [|left]|].
  destruct user as [u|]; [|by split; [|left]].
  destruct (live_classes db !! j) as [lc|] eqn:Hlc; [|by split; [|left]].
  destruct (negb _); [by split; [|left]|].
  case_bool_decide as Hst; cbn [negb]; [|by split; [|left]].
  split; [done|]. right. by exists lc.
Qed.

Lemma join_live_class_effect user j db :
  (join_live_class user j db).2 = db
  ∨ ∃ lc,
      live_classes db !! j = Some lc
      ∧ LiveClass.is_full lc = false
      ∧ live_classes (join_live_class user j db).2
        = <[j := LiveClass.set_current_participants
                   (Z.of_nat (count (seated_in j) (participants (join_live_class user j db).2)))
                   lc]> (live_classes db)
      ∧ (∀ id, id ≠ j →
           count (seated_in id) (participants (join_live_class user j db).2)
           = count (seated_in id) (participants db))
      ∧ (count (seated_in j) (participants db)
         <= count (seated_in j) (participants (join_live_class user j db).2)
         <= count (seated_in j) (participants db) + 1)%nat.
Proof.
  unfold join_live_class.
  destruct user as [u|]; [|by left].
  destruct (live_classes db !! j) as [lc|] eqn:Hlc; [|by left].
  destruct (negb _); [by left|].
  destruct (LiveClass.is_full lc) eqn:Hfull; [by left|].
  destruct (get _ _) as [i p| |] eqn:Hget; [| |by left]; right; exists lc;
    (split; [done|]); (split; [done|]); cbn [snd].
  - apply get_Found in Hget as (Hi & HP & _).
    apply participation_of_inv in HP as (_ & Hclass).
    case_bool_decide as Hst.
    + split; [done|].
      cbn [participants update_participant_count set_live_classes set_participants].
      split.
      * intros id Hne. apply (count_insert_same _ _ _ p); [done|].
        rewrite !seated_in_other; [done|simpl; congruence|congruence].
      * pose proof (count_insert (seated_in j) (participants db) i p
                      (LiveClassParticipant.set_status registered p) Hi) as Hc.
        assert (seated_in j p = false) as Hoff.
        { unfold seated_in. rewrite Hst. apply andb_false_r. }
        rewrite Hoff in Hc. destruct (seated_in j _); lia.
    + split; [done|].
      cbn [participants update_participant_count set_live_classes].
      split; [done|lia].
  - split; [done|].
    cbn [participants update_participant_count set_live_classes set_participants].
    split.
    + intros id Hne. rewrite count_snoc, seated_in_other; [lia|simpl; congruence].
    + rewrite count_snoc. destruct (seated_in j _); lia.
Qed.

Lemma leave_live_class_effect user j db :
  (leave_live_class user j db).2 = db
  ∨ ((∀ id, id ≠ j →
        count (seated_in id) (participants (leave_live_class user j db).2)
        = count (seated_in id) (participants db))
     ∧ (count (seated_in j) (participants (leave_live_class user j db).2)
        <= count (seated_in j) (participants db))%nat
     ∧ match live_classes db !! j with
       | None => live_classes (leave_live_class user j db).2 = live_classes db
       | Some lc =>
           live_classes (leave_live_class user j db).2
           = <[j := LiveClass.set_current_participants
                      (Z.of_nat (count (seated_in j)
                                       (participants (leave_live_class user j db).2)))
                      lc]> (live_classes db)
       end).
Proof.
  unfold leave_live_class.
  destruct user as [u|]; [|by left].
  destruct (get _ _) as [i p| |] eqn:Hget; [|by left..].
  right.
  apply get_Found in Hget as (Hi & HP & _).
  apply participation_of_inv in HP as (_ & Hclass).
  cbn [LiveClassParticipant.live_class LiveClassParticipant.set_status
       live_classes set_participants].
  rewrite Hclass.
  assert (Hother : ∀ id, id ≠ j →
            count (seated_in id)
                  (<[i := LiveClassParticipant.set_status p_cancelled p]> (participants db))
            = count (seated_in id) (participants db)).
  { intros id Hne. apply (count_insert_same _ _ _ p); [done|].
    rewrite !seated_in_other; [done|simpl; congruence|congruence]. }
  assert (Hless : (count (seated_in j)
                     (<[i := LiveClassParticipant.set_status p_cancelled p]> (participants db))
                   <= count (seated_in j) (participants db))%nat).
  { pose proof (count_insert (seated_in j) (participants db) i p
                  (LiveClassParticipant.set_status p_cancelled p) Hi) as Hc.
    assert (seated_in j (LiveClassParticipant.set_status p_cancelled p) = false) as Hoff.
    { unfold seated_in. simpl. apply andb_false_r. }
    rewrite Hoff in Hc. lia. }
  by destruct (live_classes db !! j) as [lc|].
Qed.


Lemma same_class_refl lc : same_class lc lc.
Proof. unfold same_class. by destruct (LiveClass.status lc). Qed.

Lemma same_class_trans lc1 lc2 lc3 :
  same_class lc1 lc2 → same_class lc2 lc3 → same_class lc1 lc3.
Proof.
  unfold same_class. intros (Hr1 & -> & -> & ->) (Hr2 & -> & -> & ->).
  split; [|done].
  by destruct (LiveClass.status lc1), (LiveClass.status lc2), (LiveClass.status lc3).
Qed.

Lemma insert_same_class (m m' : gmap N LiveClass.t) j lc lc' k lck :
  m !! j = Some lc → same_class lc lc' → m' = <[j := lc']> m →
  m !! k = Some lck → ∃ lck', m' !! k = Some lck' ∧ same_class lck lck'.
Proof.
  intros Hj Hsame -> Hk. destruct (decide (k = j)) as [->|Hne].
  - rewrite lookup_insert_eq. simplify_eq. by exists lc'.
  - rewrite lookup_insert_ne by done. exists lck. split; [done | apply same_class_refl].
Qed.

Lemma live_step_same_class db op k lc :
  live_classes db !! k = Some lc →
  ∃ lc', live_classes (live_step db op) !! k = Some lc' ∧ same_class lc lc'.
Proof.
  intros Hk.
  assert (Hrefl : ∀ m' : gmap N LiveClass.t, m' = live_classes db →
            ∃ lc', m' !! k = Some lc' ∧ same_class lc lc').
  { intros m' ->. exists lc. split; [done | apply same_class_refl]. }
  destruct op as [user j now|user j now|user j|user j]; simpl.
  - destruct (start_live_class_effect user j now db) as [_ [Hsame|(lcj & Hj & Hst & Hins)]];
      [by apply Hrefl|].
    eapply insert_same_class; [exact Hj| |exact Hins|exact Hk].
    unfold same_class. simpl. by rewrite Hst.
  - destruct (end_live_class_effect user j now db) as [_ [Hsame|(lcj & Hj & Hst & Hins)]];
      [by apply Hrefl|].
    eapply insert_same_class; [exact Hj| |exact Hins|exact Hk].
    unfold same_class. simpl. by rewrite Hst.
  - destruct (join_live_class_effect user j db) as [Hsame|(lcj & Hj & _ & Hins & _)];
      [apply Hrefl; by rewrite Hsame|].
    eapply insert_same_class; [exact Hj| |exact Hins|exact Hk].
    unfold same_class. simpl. by destruct (LiveClass.status lcj).
  - destruct (leave_live_class_effect user j db) as [Hsame|(_ & _ & Hins)];
      [apply Hrefl; by rewrite Hsame|].
    destruct (live_classes db !! j) as [lcj|] eqn:Hj; [|by apply Hrefl].
    eapply insert_same_class; [exact Hj| |exact Hins|exact Hk].
    unfold same_class. simpl. by destruct (LiveClass.status lcj).
Qed.

(** X13: start, end, join and leave, in any order and by any callers, never
    remove a live class, never change its course, teacher or capacity, and
    move its status only forwards along scheduled, live, ended: a class that
    has ended stays ended, a cancelled class stays cancelled, and a live
    class never becomes scheduled again. *)
Theorem live_requests_only_advance (ops : list LiveOp) (db : Db) (k : N) (lc : LiveClass.t) :
  live_classes db !! k = Some lc →
  ∃ lc', live_classes (run_live ops db) !! k = Some lc' ∧ same_class lc lc'.
Proof.
  unfold run_live. revert db lc.
  induction ops as [|op ops IH]; intros db lc Hk; simpl.
  - exists lc. split; [done | apply same_class_refl].
  - destruct (live_step_same_class db op k lc Hk) as (lc1 & Hk1 & Hsame1).
    destruct (IH _ _ Hk1) as (lc2 & Hk2 & Hsame2).
    exists lc2. split; [done|]. by eapply same_class_trans.
Qed.

Lemma live_requests_only_advance_witness :
  ∃ lc', live_classes
           (run_live [Start (Some teacher_K) 7 100; Join (Some student_S) 7;
                      Finish (Some teacher_K) 7 160; Start (Some teacher_K) 7 170;
                      Leave (Some student_S) 7] db_live) !! 7%N = Some lc'
         ∧ same_class class_7 lc'.
Proof. exact (live_requests_only_advance _ db_live 7 class_7 eq_refl). Defined.

Lemma live_step_participants_consistent (id : N) db op :
  participants_consistent id db → participants_consistent id (live_step db op).
Proof.
  unfold participants_consistent. intros Hc.
  destruct (live_classes db !! id) as [lc|] eqn:Hid; [|done].
  destruct op as [user j now|user j now|user j|user j]; simpl.
  - destruct (start_live_class_effect user j now db)
      as [-> [->|(lcj & Hj & _ & ->)]]; [by rewrite Hid|].
    destruct (decide (id = j)) as [->|Hne].
    + rewrite lookup_insert_eq. simplify_eq. done.
    + rewrite lookup_insert_ne, Hid by done. done.
  - destruct (end_live_class_effect user j now db)
      as [-> [->|(lcj & Hj & _ & ->)]]; [by rewrite Hid|].
    destruct (decide (id = j)) as [->|Hne].
    + rewrite lookup_insert_eq. simplify_eq. done.
    + rewrite lookup_insert_ne, Hid by done. done.
  - destruct (join_live_class_effect user j db) as [->|(lcj & Hj & _ & -> & Hother & _)];
      [by rewrite Hid|].
    destruct (decide (id = j)) as [->|Hne].
    + by rewrite lookup_insert_eq.
    + rewrite lookup_insert_ne, Hid by done. by rewrite Hother.
  - destruct (leave_live_class_effect user j db) as [->|(Hother & _ & Hins)];
      [by rewrite Hid|].
    destruct (decide (id = j)) as [->|Hne].
    + rewrite Hid in Hins. rewrite Hins. by rewrite lookup_insert_eq.
    + destruct (live_classes db !! j) as [lcj|]; rewrite Hins.
      * rewrite lookup_insert_ne, Hid by done. by rewrite Hother.
      * rewrite Hid. by rewrite Hother.
Qed.

(** X14: the seat counter of a live class keeps matching its participant
    rows: if [current_participants] is the number of rows with status
    registered, approved or attended, it still is after any sequence of
    start, end, join and leave requests, on this class or on others,
    whether they succeed or are refused. *)
Theorem live_requests_keep_participant_count (id : N) (ops : list LiveOp) (db : Db) :
  participants_consistent id db → participants_consistent id (run_live ops db).
Proof.
  unfold run_live. revert db. induction ops as [|op ops IH]; intros db Hc; simpl; [done|].
  by apply IH, live_step_participants_consistent.
Qed.

Lemma live_requests_keep_participant_count_witness :
  participants_consistent 7 db_joined
  ∧ participants_consistent 7
      (run_live [Leave (Some student_S) 7; Start (Some teacher_K) 7 100;
                 Join (Some student_S) 7; Join (Some student_T) 7] db_joined).
Proof.
  split; [reflexivity|].
  apply live_requests_keep_participant_count. reflexivity.
Defined.

Lemma live_step_class_within_capacity (id : N) db op :
  class_within_capacity id db → class_within_capacity id (live_step db op).
Proof.
  unfold class_within_capacity. intros Hc.
  destruct (live_classes db !! id) as [lc|] eqn:Hid; [|done].
  destruct Hc as [Hcount Hmax].
  destruct op as [user j now|user j now|user j|user j]; simpl.
  - destruct (start_live_class_effect user j now db)
      as [-> [->|(lcj & Hj & _ & ->)]]; [by rewrite Hid|].
    destruct (decide (id = j)) as [->|Hne].
    + rewrite lookup_insert_eq. simplify_eq. done.
    + rewrite lookup_insert_ne, Hid by done. done.
  - destruct (end_live_class_effect user j now db)
      as [-> [->|(lcj & Hj & _ & ->)]]; [by rewrite Hid|].
    destruct (decide (id = j)) as [->|Hne].
    + rewrite lookup_insert_eq. simplify_eq. done.
    + rewrite lookup_insert_ne, Hid by done. done.
  - destruct (join_live_class_effect user j db)
      as [->|(lcj & Hj & Hfull & -> & Hother & Hgrow)]; [by rewrite Hid|].
    destruct (decide (id = j)) as [->|Hne].
    + rewrite lookup_insert_eq. simplify_eq. simpl. split; [done|].
      unfold LiveClass.is_full in Hfull. apply bool_decide_eq_false in Hfull. lia.
    + rewrite lookup_insert_ne, Hid by done. by rewrite Hother.
  - destruct (leave_live_class_effect user j db) as [->|(Hother & Hless & Hins)];
      [by rewrite Hid|].
    destruct (decide (id = j)) as [->|Hne].
    + rewrite Hid in Hins. rewrite Hins, lookup_insert_eq. simpl. split; [done|]. lia.
    + destruct (live_classes db !! j) as [lcj|]; rewrite Hins.
      * rewrite lookup_insert_ne, Hid by done. by rewrite Hother.
      * rewrite Hid. by rewrite Hother.
Qed.

(** X15: requests served one after the other never overbook a live class:
    if the seat counter matches the participant rows and does not exceed
    [max_participants], both still hold after any sequence of start, end,
    join and leave requests. *)
Theorem live_requests_within_capacity (id : N) (ops : list LiveOp) (db : Db) :
  class_within_capacity id db → class_within_capacity id (run_live ops db).
Proof.
  unfold run_live. revert db. induction ops as [|op ops IH]; intros db Hc; simpl; [done|].
  by apply IH, live_step_class_within_capacity.
Qed.

Lemma live_requests_within_capacity_witness :
  class_within_capacity 7 db_joined
  ∧ class_within_capacity 7
      (run_live [Join (Some student_T) 7; Join (Some student_S) 7;
                 Leave (Some student_S) 7; Join (Some teacher_K) 7] db_joined).
Proof.
  assert (H : class_within_capacity 7 db_joined) by (split; [reflexivity | discriminate]).
  split; [exact H|]. by apply live_requests_within_capacity.
Defined.


(** ** Live classes: approval, leaving twice, joining again *)

Lemma approve_participant_ok_inv u id pid db :
  status_code (approve_participant (Some u) id pid db).1 = 200 →
  ∃ p lc,
    User.is_teacher u = true
    ∧ participants db !! pid = Some p
    ∧ LiveClassParticipant.live_class p = id
    ∧ live_classes db !! id = Some lc
    ∧ LiveClass.teacher lc = User.pk u
    ∧ (approve_participant (Some u) id pid db).2
      = set_participants
          (<[pid := LiveClassParticipant.set_status approved p]> (participants db)) db.
Proof.
  unfold approve_participant.
  cbn [check_permissions IsAuthenticated IsTeacher is_authenticated].
  destruct (User.is_teacher u) eqn:Ht; [|not_200].
  destruct (participants db !! pid) as [p|] eqn:Hp; [|not_200].
  case_bool_decide as Hclass; cbn [negb]; [|not_200].
  destruct (live_classes db !! id) as [lc|] eqn:Hlc; [|not_200].
  case_bool_decide as Hown; cbn [negb]; [|not_200].
  intros _. by exists p, lc.
Qed.

(** X16: approve_participant checks neither the participant's status nor
    the class's approval flag, and it does not recount: an approval answered
    200 sets the row to [approved] whatever it was and leaves the live class
    row untouched.  So approving a participant who had cancelled or was a
    no-show makes a seat counter that matched the rows fall one short. *)
Theorem approve_participant_skips_recount (u : User.t) (id : N) (pid : nat) (db : Db) :
  status_code (approve_participant (Some u) id pid db).1 = 200 →
  ∃ p,
    participants db !! pid = Some p
    ∧ participants (approve_participant (Some u) id pid db).2
      = <[pid := LiveClassParticipant.set_status approved p]> (participants db)
    ∧ live_classes (approve_participant (Some u) id pid db).2 = live_classes db
    ∧ (holds_seat (LiveClassParticipant.status p) = false →
       ∀ lc, live_classes db !! id = Some lc →
         LiveClass.current_participants lc
         = Z.of_nat (count (seated_in id) (participants db)) →
         Z.of_nat (count (seated_in id)
                     (participants (approve_participant (Some u) id pid db).2))
         = LiveClass.current_participants lc + 1).
Proof.
  intros Hok.
  destruct (approve_participant_ok_inv u id pid db Hok)
    as (p & lc & _ & Hp & Hclass & Hlc & _ & ->).
  exists p. cbn [participants live_classes set_participants].
  repeat split; try done.
  intros Hseat lc' Hlc' Hcount.
  assert (Hbefore : seated_in id p = false).
  { unfold seated_in. rewrite Hseat. apply andb_false_r. }
  assert (Hafter : seated_in id (LiveClassParticipant.set_status approved p) = true).
  { unfold seated_in. simpl. by rewrite bool_decide_eq_true_2. }
  pose proof (count_insert (seated_in id) (participants db) pid p
                (LiveClassParticipant.set_status approved p) Hp) as Hc.
  rewrite Hbefore, Hafter in Hc. lia.
Qed.

Lemma approve_participant_skips_recount_witness :
  ∃ p,
    participants (leave_live_class (Some student_S) 7 db_joined).2 !! 0%nat = Some p
    ∧ participants
        (approve_participant (Some teacher_K) 7 0
           (leave_live_class (Some student_S) 7 db_joined).2).2
      = <[0%nat := LiveClassParticipant.set_status approved p]>
          (participants (leave_live_class (Some student_S) 7 db_joined).2).
Proof.
  destruct (approve_participant_skips_recount teacher_K 7 0
              (leave_live_class (Some student_S) 7 db_joined).2 eq_refl)
    as (p & Hp & Hrows & _).
  by exists p.
Defined.

Lemma leave_live_class_ok_inv u id db :
  status_code (leave_live_class (Some u) id db).1 = 200 →
  ∃ i p lc,
    participants db !! i = Some p
    ∧ participation_of (User.pk u) id p = true
    ∧ count (participation_of (User.pk u) id) (participants db) = 1%nat
    ∧ live_classes db !! id = Some lc
    ∧ (leave_live_class (Some u) id db).2
      = update_participant_count id lc
          (set_participants
             (<[i := LiveClassParticipant.set_status p_cancelled p]> (participants db)) db).
Proof.
  unfold leave_live_class.
  destruct (get _ _) as [i p| |] eqn:Hget; [|not_200..].
  apply get_Found in Hget as (Hi & HP & Hone).
  pose proof (participation_of_inv _ _ _ HP) as (_ & Hclass).
  cbn [LiveClassParticipant.live_class LiveClassParticipant.set_status
       live_classes set_participants].
  rewrite Hclass.
  destruct (live_classes db !! id) as [lc|]; [|not_200].
  intros _. by exists i, p, lc.
Qed.

Lemma set_current_participants_twice n m lc :
  LiveClass.set_current_participants n (LiveClass.set_current_participants m lc)
  = LiveClass.set_current_participants n lc.
Proof. done. Qed.

(** X17: leave can be repeated: once a leave has been answered 200, the same
    request again is answered 200 as well and leaves the store exactly as
    the first one left it. *)
Theorem leave_twice_same_store (u : User.t) (id : N) (db : Db) :
  status_code (leave_live_class (Some u) id db).1 = 200 →
  leave_live_class (Some u) id (leave_live_class (Some u) id db).2
  = (mkResponse 200 (Message "Successfully left live class"),
     (leave_live_class (Some u) id db).2).
Proof.
  intros Hok.
  destruct (leave_live_class_ok_inv u id db Hok)
    as (i & p & lc & Hi & HP & Hone & Hlc & ->).
  assert (Hlt : (i < length (participants db))%nat) by by eapply lookup_lt_Some.
  unfold leave_live_class, update_participant_count.
  cbn [participants live_classes set_live_classes set_participants].
  rewrite (get_unique _ _ i (LiveClassParticipant.set_status p_cancelled p)).
  - cbn [LiveClassParticipant.live_class LiveClassParticipant.set_status
         LiveClassParticipant.student participants live_classes set_live_classes
         set_participants].
    pose proof (participation_of_inv _ _ _ HP) as (_ & ->).
    rewrite lookup_insert_eq, list_insert_insert_eq, insert_insert_eq.
    by destruct db.
  - by rewrite (count_insert_same _ _ _ p).
  - by apply list_lookup_insert_eq.
  - done.
Qed.

Lemma leave_twice_same_store_witness :
  leave_live_class (Some student_S) 7 (leave_live_class (Some student_S) 7 db_joined).2
  = (mkResponse 200 (Message "Successfully left live class"),
     (leave_live_class (Some student_S) 7 db_joined).2).
Proof. exact (leave_twice_same_store student_S 7 db_joined eq_refl). Defined.

(** X18: leaving and joining again is a round trip on the participant table:
    after a leave answered 200, a join by the same, still enrolled student
    into the class, if it is not full, is answered 200, adds no row, and puts
    the student's row back to [registered]. *)
Theorem rejoin_after_leave (u : User.t) (id : N) (db : Db) :
  status_code (leave_live_class (Some u) id db).1 = 200 →
  ∀ lc1, live_classes (leave_live_class (Some u) id db).2 !! id = Some lc1 →
  exists_ (active_enrollment_of (User.pk u) (LiveClass.course lc1)) (enrollments db) = true →
  LiveClass.is_full lc1 = false →
  (join_live_class (Some u) id (leave_live_class (Some u) id db).2).1 = mkResponse 200 Data
  ∧ ∃ i p,
      participants db !! i = Some p
      ∧ participation_of (User.pk u) id p = true
      ∧ participants (join_live_class (Some u) id (leave_live_class (Some u) id db).2).2
        = <[i := LiveClassParticipant.set_status registered p]> (participants db).
Proof.
  intros Hok lc1 Hlc1 Henr Hfull.
  destruct (leave_live_class_ok_inv u id db Hok)
    as (i & p & lc & Hi & HP & Hone & Hlc & Hdb).
  assert (Hlt : (i < length (participants db))%nat) by by eapply lookup_lt_Some.
  rewrite Hdb in Hlc1 |- *.
  rewrite (join_live_class_existing u id lc1 i
             (LiveClassParticipant.set_status p_cancelled p)); try done.
  - split; [done|]. exists i, p. split; [done|]. split; [done|].
    cbn [snd LiveClassParticipant.status LiveClassParticipant.set_status].
    rewrite bool_decide_eq_true_2 by done.
    cbn [participants update_participant_count set_live_classes set_participants
         LiveClassParticipant.student LiveClassParticipant.live_class].
    by rewrite list_insert_insert_eq.
  - cbn [participants update_participant_count set_live_classes set_participants].
    by apply list_lookup_insert_eq.
  - cbn [participants update_participant_count set_live_classes set_participants].
    by rewrite (count_insert_same _ _ _ p).
Qed.

Lemma rejoin_after_leave_witness :
  (join_live_class (Some student_S) 7 (leave_live_class (Some student_S) 7 db_joined).2).1
  = mkResponse 200 Data.
Proof.
  exact (proj1 (rejoin_after_leave student_S 7 db_joined eq_refl
                  (LiveClass.mk 1 10 scheduled 2 0 None None) eq_refl eq_refl eq_refl)).
Defined.


(** ** Lists and gates *)

Lemma elem_of_enrolled_courses u c db :
  c ∈ enrolled_courses u db
  ↔ exists_ (active_enrollment_of (User.pk u) c) (enrollments db) = true.
Proof.
  unfold enrolled_courses, exists_. rewrite list_elem_of_fmap, existsb_exists. split.
  - intros (e & -> & He). apply elem_of_List_filter in He as (He & Hmine).
    exists e. split; [by apply list_elem_of_In|].
    apply andb_true_iff in Hmine as (Hs & Ha). apply bool_decide_eq_true in Hs.
    unfold active_enrollment_of, enrollment_of.
    by rewrite Ha, !bool_decide_eq_true_2.
  - intros (e & He & HP). apply active_enrollment_of_inv in HP as (Hs & Hc & Ha).
    exists e. split; [done|]. apply elem_of_List_filter.
    split; [by apply list_elem_of_In|]. by rewrite Ha, bool_decide_eq_true_2.
Qed.

(** X19: for a caller who is not a teacher the live class list and the join
    gate agree: a class is in the caller's list exactly when join answers
    neither 404 nor 403 for it, that is, when it exists and the caller has an
    active enrolment in its course.  A teacher's list holds exactly the
    classes the teacher gives. *)
Theorem live_class_list_matches_join_gate (u : User.t) (id : N) (db : Db) :
  (User.is_teacher u = false →
     (is_Some (LiveClassListView_get_queryset u db !! id)
      ↔ status_code (join_live_class (Some u) id db).1 ≠ 404
        ∧ status_code (join_live_class (Some u) id db).1 ≠ 403)
     ∧ ∀ lc, LiveClassListView_get_queryset u db !! id = Some lc
             ↔ live_classes db !! id = Some lc
               ∧ exists_ (active_enrollment_of (User.pk u) (LiveClass.course lc))
                         (enrollments db) = true)
  ∧ (User.is_teacher u = true →
       ∀ lc, LiveClassListView_get_queryset u db !! id = Some lc
             ↔ live_classes db !! id = Some lc ∧ LiveClass.teacher lc = User.pk u).
Proof.
  unfold LiveClassListView_get_queryset. split; intros ->; cbn zeta.
  - assert (Hlist : ∀ lc,
              filter (λ kv, LiveClass.course kv.2 ∈ enrolled_courses u db) (live_classes db)
                !! id = Some lc
              ↔ live_classes db !! id = Some lc
                ∧ exists_ (active_enrollment_of (User.pk u) (LiveClass.course lc))
                          (enrollments db) = true).
    { intros lc. rewrite map_lookup_filter_Some. simpl.
      by rewrite elem_of_enrolled_courses. }
    split; [|exact Hlist].
    unfold join_live_class.
    destruct (live_classes db !! id) as [lc|] eqn:Hlc.
    + destruct (exists_ _ _) eqn:Henr; cbn [negb].
      * split.
        -- intros _. destruct (LiveClass.is_full lc); [by vm_compute|].
           destruct (get _ _); by vm_compute.
        -- intros _. exists lc. by apply Hlist.
      * split.
        -- intros [lc' Hlc']. apply Hlist in Hlc' as [Heq Henr'].
           simplify_eq. congruence.
        -- intros [_ H403]. by destruct H403.
    + split.
      * intros [lc' Hlc']. by apply Hlist in Hlc' as [Heq _].
      * intros [H404 _]. by destruct H404.
  - intros lc. by rewrite map_lookup_filter_Some.
Qed.

Lemma live_class_list_matches_join_gate_witness :
  is_Some (LiveClassListView_get_queryset student_S db_live !! 7%N)
  ∧ LiveClassListView_get_queryset student_T db_live !! 7%N = None
  ∧ LiveClassListView_get_queryset teacher_K db_live !! 7%N = Some class_7.
Proof.
  split; [|split].
  - apply (proj1 (live_class_list_matches_join_gate student_S 7 db_live) eq_refl).
    split; discriminate.
  - reflexivity.
  - apply (proj2 (live_class_list_matches_join_gate teacher_K 7 db_live) eq_refl).
    split; reflexivity.
Defined.

(** X20: for a caller who is not a teacher the material list and the access
    gate of view_material agree: a material is in the caller's list exactly
    when view_material answers neither 404 nor 403 for it, that is, when it
    exists and the caller has an active enrolment in its course; neither
    looks at [is_public].  A teacher's list holds exactly the teacher's own
    uploads. *)
Theorem material_list_matches_view_gate (u : User.t) (id : N) (db : Db) :
  (User.is_teacher u = false →
     (is_Some (MaterialListView_get_queryset u db !! id)
      ↔ status_code (view_material (Some u) id db).1 ≠ 404
        ∧ status_code (view_material (Some u) id db).1 ≠ 403)
     ∧ ∀ m, MaterialListView_get_queryset u db !! id = Some m
            ↔ materials db !! id = Some m
              ∧ exists_ (active_enrollment_of (User.pk u) (Material.course m))
                        (enrollments db) = true)
  ∧ (User.is_teacher u = true →
       ∀ m, MaterialListView_get_queryset u db !! id = Some m
            ↔ materials db !! id = Some m ∧ Material.teacher m = User.pk u).
Proof.
  unfold MaterialListView_get_queryset. split; intros Ht; rewrite Ht; cbn zeta.
  - assert (Hlist : ∀ m,
              filter (λ kv, Material.course kv.2 ∈ enrolled_courses u db) (materials db)
                !! id = Some m
              ↔ materials db !! id = Some m
                ∧ exists_ (active_enrollment_of (User.pk u) (Material.course m))
                          (enrollments db) = true).
    { intros m. rewrite map_lookup_filter_Some. simpl.
      by rewrite elem_of_enrolled_courses. }
    split; [|exact Hlist].
    unfold view_material, owning_teacher. rewrite Ht. cbn [andb negb].
    destruct (materials db !! id) as [m|] eqn:Hm.
    + destruct (exists_ _ _) eqn:Henr; cbn [negb].
      * split.
        -- intros _. destruct (Material_save _ _ _); by vm_compute.
        -- intros _. exists m. by apply Hlist.
      * split.
        -- intros [m' Hm']. apply Hlist in Hm' as [Heq Henr'].
           simplify_eq. congruence.
        -- intros [_ H403]. by destruct H403.
    + split.
      * intros [m' Hm']. by apply Hlist in Hm' as [Heq _].
      * intros [H404 _]. by destruct H404.
  - intros m. by rewrite map_lookup_filter_Some.
Qed.

Lemma material_list_matches_view_gate_witness :
  is_Some (MaterialListView_get_queryset student_S db_material !! 5%N)
  ∧ MaterialListView_get_queryset teacher_K db_material !! 5%N = Some handout.
Proof.
  split.
  - apply (proj1 (material_list_matches_view_gate student_S 5 db_material) eq_refl).
    split; discriminate.
  - apply (proj2 (material_list_matches_view_gate teacher_K 5 db_material) eq_refl).
    split; reflexivity.
Defined.

(** X21: who sees which chat message.  For an existing class, the teacher who
    gives it sees every message of the class; any other caller, teachers
    included, sees a message of the class exactly when it is not private or
    was sent by the caller.  So a private message reaches only its sender
    and the class's teacher.  For an unknown class the lookup raises. *)
Theorem chat_visibility (u : User.t) (id : N) (db : Db)
    (messages : list LiveClassMessage.t) :
  (live_classes db !! id = None →
     LiveClassMessageListView_get_queryset u id db messages = None)
  ∧ ∀ lc, live_classes db !! id = Some lc →
      ∃ visible,
        LiveClassMessageListView_get_queryset u id db messages = Some visible
        ∧ ∀ m, m ∈ visible
               ↔ m ∈ messages
                 ∧ LiveClassMessage.live_class m = id
                 ∧ ((User.is_teacher u = true ∧ LiveClass.teacher lc = User.pk u)
                    ∨ LiveClassMessage.is_private m = false
                    ∨ LiveClassMessage.sender m = User.pk u).
Proof.
  unfold LiveClassMessageListView_get_queryset. split; [by intros ->|].
  intros lc ->.
  destruct (User.is_teacher u) eqn:Ht; cbn [andb].
  - case_bool_decide as Hown.
    + eexists. split; [done|]. intros m.
      rewrite elem_of_List_filter, bool_decide_eq_true. intuition (auto; congruence).
    + eexists. split; [done|]. intros m.
      rewrite elem_of_List_filter, orb_true_iff, !andb_true_iff, negb_true_iff,
        !bool_decide_eq_true.
      intuition (auto; congruence).
  - eexists. split; [done|]. intros m.
    rewrite elem_of_List_filter, orb_true_iff, !andb_true_iff, negb_true_iff,
      !bool_decide_eq_true.
    intuition (auto; congruence).
Qed.

Lemma chat_visibility_witness :
  LiveClassMessageListView_get_queryset student_S 7 db_live chat_7
  = Some [LiveClassMessage.mk 7 20 "When do we start?" false;
          LiveClassMessage.mk 7 10 "In five minutes" false]
  ∧ LiveClassMessageListView_get_queryset teacher_K 7 db_live chat_7 = Some chat_7
  ∧ LiveClassMessageListView_get_queryset other_teacher 7 db_live chat_7
    = LiveClassMessageListView_get_queryset student_S 7 db_live chat_7
  ∧ LiveClassMessageListView_get_queryset student_S 8 db_live chat_7 = None.
Proof.
  split; [reflexivity|]. split; [reflexivity|]. split; [reflexivity|].
  exact (proj1 (chat_visibility student_S 8 db_live chat_7) eq_refl).
Defined.


(** ** Materials: counters, log and statistics *)

Lemma Material_save_inr_frame pk m db db' :
  Material_save pk m db = inr db' →
  ∃ m', db' = set_materials (<[pk := m']> (materials db)) db
        ∧ Material.download_count m' = Material.download_count m
        ∧ Material.view_count m' = Material.view_count m
        ∧ Material.teacher m' = Material.teacher m
        ∧ Material.course m' = Material.course m.
Proof.
  unfold Material_save. case_bool_decide.
  - intros [= <-]. by exists m.
  - destruct (storage db !! Material.file m) as [size|]; [|done].
    intros [= <-]. by eexists.
Qed.

Lemma access_of_mk id k a b u :
  access_of k a (MaterialAccess.mk u id b) = bool_decide (id = k) && bool_decide (b = a).
Proof. done. Qed.

Lemma counters_after_access (u : N) (id k : N) (a : AccessAction) (m m' : Material.t) db :
  materials db !! id = Some m →
  Material.view_count m' = Material.view_count m + (if a is view then 1 else 0) →
  Material.download_count m' = Material.download_count m + (if a is download then 1 else 0) →
  counters_match_log k db →
  counters_match_log k
    (set_materials (<[id := m']> (materials db))
       (set_accesses (accesses db ++ [MaterialAccess.mk u id a]) db)).
Proof.
  intros Hm Hv Hd. unfold counters_match_log.
  cbn [materials accesses set_materials set_accesses].
  rewrite !count_snoc, !access_of_mk.
  destruct (decide (k = id)) as [->|Hne].
  - rewrite lookup_insert_eq, Hm. rewrite !bool_decide_eq_true_2 by done.
    intros [Hview Hdown]. rewrite Hv, Hd, Hview, Hdown. by destruct a; simpl; split; lia.
  - rewrite lookup_insert_ne by done.
    rewrite !(bool_decide_eq_false_2 (id = k)) by done. simpl.
    by rewrite !Nat.add_0_r.
Qed.

(** X22: the counters on a material row keep step with the access log: if
    [view_count] and [download_count] of a material equal the numbers of its
    view and download rows in the log, they still do after any download or
    view request, of this material or another, that does not end in an
    unhandled exception. *)
Theorem download_view_keep_counters (user : option User.t) (id k : N) (db : Db) :
  counters_match_log k db →
  (status_code (download_material user id db).1 ≠ 500 →
     counters_match_log k (download_material user id db).2)
  ∧ (status_code (view_material user id db).1 ≠ 500 →
       counters_match_log k (view_material user id db).2).
Proof.
  intros Hk. unfold download_material, view_material.
  destruct user as [u|]; [|done].
  destruct (materials db !! id) as [m|] eqn:Hm; [|done].
  split.
  - destruct (negb _); [done|]. destruct (_ && _); [done|].
    destruct (Material_save _ _ _) as [e|db2] eqn:Hsave; [by intros []|].
    apply Material_save_inr_frame in Hsave as (m' & -> & Hd & Hv & _).
    assert (Hdone : counters_match_log k
              (set_materials (<[id := m']> (materials (record_access u id download db)))
                 (record_access u id download db))).
    { apply (counters_after_access (User.pk u) id k download m m' db); [done| | |done].
      - rewrite Hv. simpl. lia.
      - rewrite Hd. simpl. lia. }
    case_bool_decide; [by intros []|].
    by destruct (storage _ !! _).
  - destruct (_ && _); [done|].
    destruct (Material_save _ _ _) as [e|db2] eqn:Hsave; [by intros []|].
    apply Material_save_inr_frame in Hsave as (m' & -> & Hd & Hv & _).
    intros _.
    apply (counters_after_access (User.pk u) id k view m m' db); [done| | |done].
    + rewrite Hv. simpl. lia.
    + rewrite Hd. simpl. lia.
Qed.

Lemma download_view_keep_counters_witness :
  counters_match_log 5 db_material
  ∧ counters_match_log 5
      (view_material (Some student_S) 5 (download_material (Some student_S) 5 db_material).2).2.
Proof.
  assert (H0 : counters_match_log 5 db_material) by (split; reflexivity).
  split; [exact H0|].
  apply (download_view_keep_counters _ 5 5); [|discriminate].
  apply (download_view_keep_counters _ 5 5); [exact H0|discriminate].
Defined.

(** X23: material_stats reads the log.  For the owning teacher it answers
    200 before and after a download answered 200, and the second report has
    one download more, the same number of views, and the new download as the
    first of its recent accesses, of which there are never more than ten. *)
Theorem stats_follow_download (t u : User.t) (id : N) (m : Material.t) (db : Db) :
  materials db !! id = Some m →
  owning_teacher t m = true →
  status_code (download_material (Some u) id db).1 = 200 →
  ∃ st st',
    material_stats (Some t) id db = (mkResponse 200 Data, Some st)
    ∧ material_stats (Some t) id (download_material (Some u) id db).2
      = (mkResponse 200 Data, Some st')
    ∧ stats_download_count st' = S (stats_download_count st)
    ∧ stats_view_count st' = stats_view_count st
    ∧ stats_recent_accesses st'
      = take 10 (MaterialAccess.mk (User.pk u) id download :: stats_recent_accesses st)
    ∧ (length (stats_recent_accesses st') <= 10)%nat.
Proof.
  intros Hm Hown Hok. unfold material_stats at 1. rewrite Hm, Hown. cbn [negb].
  eexists. 
  assert (Hdb : ∃ m', owning_teacher t m' = true
            ∧ materials (download_material (Some u) id db).2 !! id = Some m'
            ∧ accesses (download_material (Some u) id db).2
              = accesses db ++ [MaterialAccess.mk (User.pk u) id download]).
  { revert Hok. unfold download_material. rewrite Hm.
    destruct (negb _); [not_200|]. destruct (_ && _); [not_200|].
    destruct (Material_save _ _ _) as [e|db2] eqn:Hsave; [not_200|].
    apply Material_save_inr_frame in Hsave as (m' & -> & _ & _ & Ht & _).
    case_bool_decide; [not_200|]. destruct (storage _ !! _); [|not_200].
    intros _. exists m'. split; [|split; [|done]].
    - unfold owning_teacher in *. by rewrite Ht.
    - cbn [snd materials set_materials]. apply lookup_insert_eq. }
  destruct Hdb as (m' & Hown' & Hm' & Hacc).
  unfold material_stats. rewrite Hm', Hown', Hacc. cbn [negb].
  eexists. split; [done|]. split; [done|].
  cbn [stats_download_count stats_view_count stats_recent_accesses].
  rewrite !count_snoc, !access_of_mk, !bool_decide_eq_true_2 by done.
  rewrite bool_decide_eq_false_2 by done. cbn [andb].
  split; [lia|]. split; [lia|].
  rewrite List.filter_app. cbn [List.filter MaterialAccess.material].
  rewrite bool_decide_eq_true_2 by done.
  rewrite reverse_snoc. split.
  - cbn [take]. f_equal. rewrite take_take. done.
  - rewrite length_take. lia.
Qed.

Lemma stats_follow_download_witness :
  ∃ st',
    material_stats (Some teacher_K) 5 (download_material (Some student_S) 5 db_material).2
    = (mkResponse 200 Data, Some st')
    ∧ stats_download_count st' = 1%nat.
Proof.
  destruct (stats_follow_download teacher_K student_S 5 handout db_material
              eq_refl eq_refl eq_refl) as (st & st' & Hst & Hst' & Hd & _).
  exists st'. split; [exact Hst'|].
  rewrite Hd. by injection Hst as <-.
Defined.


(** ** Permission classes *)

(** X24: how the permission classes relate.  [IsAuthenticated], [IsTeacher],
    [IsStudent], [IsAdmin] and [IsTeacherOrReadOnly] let no anonymous caller
    through; whoever passes [IsTeacher] passes [IsTeacherOrReadOnly] with
    every method; a caller who is not a teacher passes [IsTeacherOrReadOnly]
    with the safe methods GET, HEAD and OPTIONS only; a caller passes at most
    one of [IsTeacher], [IsStudent] and [IsAdmin].  [IsOwnerOrReadOnly] is
    different: with a safe method it lets every caller through, an anonymous
    one included, and with any other method it lets through exactly the
    authenticated caller who is the object's [user]. *)
Theorem permission_classes_relate (method : Method) (user : option User.t) :
  (user = None →
     IsAuthenticated user = false ∧ IsTeacher user = false ∧ IsStudent user = false
     ∧ IsAdmin user = false ∧ IsTeacherOrReadOnly method user = false)
  ∧ (IsTeacher user = true → IsTeacherOrReadOnly method user = true)
  ∧ (IsTeacherOrReadOnly method user = true → IsAuthenticated user = true)
  ∧ (IsTeacher user = false → IsTeacherOrReadOnly method user = true →
       method = GET ∨ method = HEAD ∨ method = OPTIONS)
  ∧ (IsTeacher user && IsStudent user = false
     ∧ IsTeacher user && IsAdmin user = false
     ∧ IsStudent user && IsAdmin user = false)
  ∧ (∀ owner,
       (method = GET ∨ method = HEAD ∨ method = OPTIONS →
          IsOwnerOrReadOnly method user owner = true)
       ∧ (method ≠ GET → method ≠ HEAD → method ≠ OPTIONS →
            (IsOwnerOrReadOnly method user owner = true
             ↔ ∃ u, user = Some u ∧ owner = User.pk u))).
Proof.
  split; [|split; [|split; [|split; [|split]]]].
  - intros ->. by destruct method.
  - destruct user as [u|]; [|done]. unfold IsTeacher, IsTeacherOrReadOnly.
    intros ->. by destruct (SAFE_METHODS method).
  - destruct user as [u|]; [done|]. by destruct method.
  - destruct user as [u|]; [|by destruct method].
    unfold IsTeacher, IsTeacherOrReadOnly. intros ->.
    destruct method; simpl; try done; auto.
  - by destruct user as [[pk []]|].
  - intros owner. split.
    + by intros [->|[->| ->]].
    + intros Hget Hhead Hoptions. unfold IsOwnerOrReadOnly.
      destruct method; try done; simpl.
      all: destruct user as [u|]; [rewrite bool_decide_eq_true|].
      all: split; try done; try by (intros (? & [=] & _)).
      all: try by (intros ->; exists u).
      all: by intros (? & [= <-] & ->).
Qed.

Lemma permission_classes_relate_witness :
  IsTeacherOrReadOnly DELETE (Some other_teacher) = true
  ∧ IsAuthenticated (Some student_S) = true
  ∧ IsOwnerOrReadOnly GET None 20 = true
  ∧ IsOwnerOrReadOnly PUT (Some student_S) 20 = true
  ∧ ¬ IsOwnerOrReadOnly PUT (Some student_T) 20 = true
  ∧ ¬ IsOwnerOrReadOnly PUT None 20 = true.
Proof.
  pose proof (permission_classes_relate DELETE (Some other_teacher)) as (_ & Ht & _).
  pose proof (permission_classes_relate GET (Some student_S)) as (_ & _ & Ha & _).
  pose proof (permission_classes_relate GET None) as (_ & _ & _ & _ & _ & Hread).
  pose proof (permission_classes_relate PUT (Some student_S)) as (_ & _ & _ & _ & _ & Hown).
  pose proof (permission_classes_relate PUT (Some student_T)) as (_ & _ & _ & _ & _ & Hother).
  pose proof (permission_classes_relate PUT None) as (_ & _ & _ & _ & _ & Hanon).
  split; [exact (Ht eq_refl)|]. split; [exact (Ha eq_refl)|].
  split; [exact (proj1 (Hread 20%N) (or_introl eq_refl))|].
  split.
  { apply (proj2 (Hown 20%N)); [discriminate..|]. by exists student_S. }
  split.
  { intros H. apply (proj2 (Hother 20%N)) in H as (u & [= <-] & Hpk);
      [discriminate Hpk|discriminate..]. }
  intros H. apply (proj2 (Hanon 20%N)) in H as (u & Hu & _); [discriminate Hu|discriminate..].
Defined.

(** ** Free seats *)

(** X25: [available_slots] and [is_full] tell the same story, for a course
    and for a live class: the number of free seats is never negative, it is
    0 exactly when the object is full, and otherwise it is what separates
    the counter from the capacity.  An enroll answered 201 takes exactly one
    free seat of the course. *)
Theorem free_seats (c : Course.t) (lc : LiveClass.t) (u : User.t) (course_id : N) (db : Db) :
  (0 <= Course.available_slots c
   ∧ (Course.is_full c = true ↔ Course.available_slots c = 0)
   ∧ (Course.is_full c = false →
      Course.current_students c + Course.available_slots c = Course.max_students c))
  ∧ (0 <= LiveClass.available_slots lc
     ∧ (LiveClass.is_full lc = true ↔ LiveClass.available_slots lc = 0)
     ∧ (LiveClass.is_full lc = false →
        LiveClass.current_participants lc + LiveClass.available_slots lc
        = LiveClass.max_participants lc))
  ∧ (status_code (enroll_course (Some u) course_id db).1 = 201 →
     ∃ before after,
       courses db !! course_id = Some before
       ∧ courses (enroll_course (Some u) course_id db).2 !! course_id = Some after
       ∧ Course.available_slots after = Course.available_slots before - 1).
Proof.
  split; [|split].
  - unfold Course.available_slots, Course.is_full.
    rewrite bool_decide_eq_true, bool_decide_eq_false. lia.
  - unfold LiveClass.available_slots, LiveClass.is_full.
    rewrite bool_decide_eq_true, bool_decide_eq_false. lia.
  - intros Hok.
    destruct (enroll_course_created_inv u course_id db Hok)
      as (course & Hcourse & Hpub & Hroom & Hact & Hrow).
    rewrite (enroll_course_first_time u course_id course db) by done.
    eexists _, _. split; [done|]. cbn [snd courses set_courses].
    split; [apply lookup_insert_eq|].
    unfold Course.available_slots. simpl. lia.
Qed.

Lemma free_seats_witness :
  ∃ before after,
    courses db_K !! 1%N = Some before
    ∧ courses (enroll_course (Some student_S) 1 db_K).2 !! 1%N = Some after
    ∧ Course.available_slots after = Course.available_slots before - 1.
Proof.
  exact (proj2 (proj2 (free_seats course_K class_7 student_S 1 db_K)) eq_refl).
Defined.

(** ** The file extension written by [Material.save] *)

















(** ** The last seat, and deleting a course *)

(** X27: the last seat.  When an enroll answered 201 takes the last free seat
    of a course, every later enroll into that course, by whatever caller, is
    answered 400 "Course is full" and writes nothing. *)
Theorem last_seat_closes_course (u : User.t) (course_id : N) (course : Course.t) (db : Db) :
  courses db !! course_id = Some course →
  Course.current_students course + 1 = Course.max_students course →
  status_code (enroll_course (Some u) course_id db).1 = 201 →
  ∀ v, enroll_course (Some v) course_id (enroll_course (Some u) course_id db).2
       = (mkResponse 400 (Error "Course is full"), (enroll_course (Some u) course_id db).2).
Proof.
  intros Hcourse Hlast Hok v.
  destruct (enroll_course_created_inv u course_id db Hok)
    as (course' & Hcourse' & Hpub & Hroom & Hact & Hrow).
  simplify_eq.
  rewrite (enroll_course_first_time u course_id course db) by done.
  cbn [snd]. unfold enroll_course at 1.
  cbn [courses set_courses]. rewrite lookup_insert_eq.
  unfold Course.is_published, Course.is_full.
  cbn [Course.status Course.max_students Course.current_students
       Course.set_current_students].
  rewrite bool_decide_eq_true_2 by done. cbn [negb].
  by rewrite bool_decide_eq_true_2 by lia.
Qed.

Lemma last_seat_closes_course_witness :
  enroll_course (Some student_T) 1 (enroll_course (Some teacher_K) 1 db_S).2
  = (mkResponse 400 (Error "Course is full"), (enroll_course (Some teacher_K) 1 db_S).2).
Proof.
  exact (last_seat_closes_course teacher_K 1 course_S db_S eq_refl eq_refl eq_refl student_T).
Defined.

(** X28: deleting a course takes its dependants with it and nothing else.
    After a delete answered 204 the course is gone, no enrolment, rating,
    live class or material refers to it, every other course and every
    enrolment of another course is still there, and an enroll into the
    deleted course is answered 404. *)
Theorem delete_course_cascades (u : User.t) (pk : N) (db : Db) :
  status_code (delete_course (Some u) pk db).1 = 204 →
  courses (delete_course (Some u) pk db).2 !! pk = None
  ∧ (∀ e, e ∈ enrollments (delete_course (Some u) pk db).2 →
          CourseEnrollment.course e ≠ pk)
  ∧ (∀ r, r ∈ ratings (delete_course (Some u) pk db).2 → CourseRating.course r ≠ pk)
  ∧ (∀ k lc, live_classes (delete_course (Some u) pk db).2 !! k = Some lc →
             LiveClass.course lc ≠ pk)
  ∧ (∀ k m, materials (delete_course (Some u) pk db).2 !! k = Some m →
            Material.course m ≠ pk)
  ∧ (∀ k, k ≠ pk → courses (delete_course (Some u) pk db).2 !! k = courses db !! k)
  ∧ (∀ e, e ∈ enrollments db → CourseEnrollment.course e ≠ pk →
          e ∈ enrollments (delete_course (Some u) pk db).2)
  ∧ (∀ v, enroll_course v pk (delete_course (Some u) pk db).2
          = (if v is Some _ then mkResponse 404 (Error "Course not found")
             else not_authenticated,
             (delete_course (Some u) pk db).2)).
Proof.
  unfold delete_course, CourseDetailView.
  cbn [check_permissions IsAuthenticated IsTeacherOrReadOnly SAFE_METHODS is_authenticated].
  destruct (User.is_teacher u); [|not_200].
  destruct (courses db !! pk) as [course|]; [|not_200].
  intros _. cbn [snd]. unfold delete_course_cascade.
  cbn [courses enrollments ratings live_classes materials].
  split; [apply lookup_delete_eq|].
  split.
  { intros e [_ Hkeep]%elem_of_List_filter.
    by apply negb_true_iff, bool_decide_eq_false in Hkeep. }
  split.
  { intros r [_ Hkeep]%elem_of_List_filter.
    by apply negb_true_iff, bool_decide_eq_false in Hkeep. }
  split.
  { by intros k lc [_ Hkeep]%map_lookup_filter_Some. }
  split.
  { by intros k m [_ Hkeep]%map_lookup_filter_Some. }
  split.
  { intros k Hne. by apply lookup_delete_ne. }
  split.
  { intros e He Hne. apply elem_of_List_filter. split; [done|].
    by apply negb_true_iff, bool_decide_eq_false. }
  intros [v|]; [|done].
  unfold enroll_course. cbn [courses]. by rewrite lookup_delete_eq.
Qed.

Lemma delete_course_cascades_witness :
  courses (delete_course (Some other_teacher) 1 db_joined).2 !! 1%N = None
  ∧ enrollments (delete_course (Some other_teacher) 1 db_joined).2 = []
  ∧ live_classes (delete_course (Some other_teacher) 1 db_joined).2 !! 7%N = None.
Proof.
  split; [|split; reflexivity].
  exact (proj1 (delete_course_cascades other_teacher 1 db_joined eq_refl)).
Defined.
